(** * E-Commerce data analysis: the helpers of the notebook, verified

    A shallow embedding of the reusable code of the repository:

    - [notebook/utils/handle_plot.py]: [title_to_filename], [show_plot];
    - [scripts/script.py]: [load_json], [convert_date], the
      revenue-by-category aggregation pipeline, [generate_id_from_field]
      and [create_order];
    - [scripts/utils/config.py]: the constants [BASE_DIR], [PLOTS],
      [format] and [INTERACTIVE].

    Python values are dynamically typed, so documents are association lists
    from keys to a universe [value] of Python objects; an operation that
    raises in Python returns [Raise e] here.  Python integers are unbounded
    and are modelled by [Z].  Floating point numbers are not part of the
    universe.  Strings are byte strings: the characters the code inspects
    are all ASCII, and no byte of a multi-byte UTF-8 sequence is ASCII, so
    working on bytes agrees with working on code points.

    The database server, the BSON encoder and the standard library
    ([datetime.strptime], [bytes.fromhex]) are not part of the repository;
    the parts of their behaviour the code relies on are modelled next to the
    function that calls them and are marked as such. *)

From Stdlib Require Import ZArith List String Ascii Bool Lia.
From Stdlib Require Import Sorted Permutation.
Import ListNotations.

Local Open Scope string_scope.
Local Open Scope Z_scope.

(** ** Python objects *)

(** A naive [datetime.datetime], as [strptime] returns it for a format
    without fraction and offset. *)
Record datetime : Set := mkDatetime {
  dt_year : Z;
  dt_month : Z;
  dt_day : Z;
  dt_hour : Z;
  dt_minute : Z;
  dt_second : Z
}.

(** The objects the code handles: what [json.load] returns ([None], [bool],
    [int], [str], [list], [dict]), and the two types the loaders introduce,
    [bson.ObjectId] (its bytes) and [datetime.datetime]. *)
#[local] Unset Elimination Schemes.
Inductive value : Type :=
| VNone
| VBool (b : bool)
| VInt (z : Z)
| VStr (s : string)
| VObjectId (bytes : list N)
| VDatetime (d : datetime)
| VList (items : list value)
| VDict (fields : list (string * value)).
#[local] Set Elimination Schemes.

(** A [dict] with string keys, in insertion order: a document. *)
Definition dict := list (string * value).

(** The exceptions that occur in the modelled code. *)
Inductive exn : Set :=
| TypeError
| KeyError
| IndexError
| OverflowError
| ValueError
| AttributeError
| FileNotFoundError
| InvalidId
| WriteError
| DuplicateKeyError
| OperationFailure
| ConnectionFailure
| InvalidOperation.

(** The outcome of a Python expression: a value or a raised exception. *)
Inductive result (A : Type) : Type :=
| Ok (a : A)
| Raise (e : exn).
Arguments Ok {A} a.
Arguments Raise {A} e.

Definition bind {A B : Type} (r : result A) (k : A -> result B) : result B :=
  match r with
  | Ok a => k a
  | Raise e => Raise e
  end.

Declare Scope py_scope.
Delimit Scope py_scope with py.
Notation "x <- c ;; k" := (bind c (fun x => k))
  (at level 61, c at next level, right associativity) : py_scope.

(** *** Dictionaries *)

(** [d.get(k)] with its default [None] is [dict_get k d] followed by
    [value_or_none]. *)
Fixpoint dict_get (k : string) (d : dict) : option value :=
  match d with
  | [] => None
  | (k', v) :: d' => if String.eqb k k' then Some v else dict_get k d'
  end.

Definition value_or_none (o : option value) : value :=
  match o with
  | Some v => v
  | None => VNone
  end.

(** [k in d]. *)
Definition dict_mem (k : string) (d : dict) : bool :=
  match dict_get k d with
  | Some _ => true
  | None => false
  end.

(** [d[k]]: raises [KeyError] on a missing key. *)
Definition dict_item (k : string) (d : dict) : result value :=
  match dict_get k d with
  | Some v => Ok v
  | None => Raise KeyError
  end.

(** [d[k] = v]: an existing key keeps its position, a new key goes last. *)
Fixpoint dict_set (k : string) (v : value) (d : dict) : dict :=
  match d with
  | [] => [(k, v)]
  | (k', v') :: d' =>
      if String.eqb k k' then (k', v) :: d' else (k', v') :: dict_set k v d'
  end.

(** *** Strings *)

(** [needle in hay] on two strings: substring search. *)
Fixpoint str_contains (needle hay : string) : bool :=
  String.prefix needle hay ||
  match hay with
  | EmptyString => false
  | String _ hay' => str_contains needle hay'
  end.

(** ** scripts/utils/config.py

    [handle_plot.py] imports the same three names from its own
    [utils.config]. *)

Definition BASE_DIR : string := "../".

(** [os.path.join(BASE_DIR, 'screenshots/')]: [BASE_DIR] ends with the
    separator and the second component is relative, so the two are
    concatenated. *)
Definition PLOTS : string := BASE_DIR ++ "screenshots/".

Definition format : string := "webp".

Definition INTERACTIVE : bool := false.

(** ** notebook/utils/handle_plot.py *)

(** [replace_dict] of [title_to_filename]. *)
Definition replace_dict : list (ascii * string) :=
  [ (","%char, "_"); ("!"%char, "_"); ("?"%char, "_");
    (" "%char, "_"); (":"%char, "_") ].

Fixpoint table_get (c : ascii) (table : list (ascii * string)) : option string :=
  match table with
  | [] => None
  | (c', r) :: table' => if Ascii.eqb c c' then Some r else table_get c table'
  end.

(** [s.translate(table)]: a character with an entry in the table is replaced
    by the entry, every other character is kept. *)
Fixpoint translate (table : list (ascii * string)) (s : string) : string :=
  match s with
  | EmptyString => EmptyString
  | String c s' =>
      match table_get c table with
      | Some r => r ++ translate table s'
      | None => String c (translate table s')
      end
  end.

Definition title_to_filename (title save_dir : string) : string :=
  let translation_table := replace_dict in
  save_dir ++ translate translation_table title ++ "." ++ format.

(** A Plotly figure, as far as [show_plot] looks at it:
    [fig.layout.title.text], which is [None] for a figure without title. *)
Record figure : Set := mkFigure {
  title_text : option string
}.

(** What [show_plot] does to the outside: the calls it makes, in order. *)
Inductive plot_effect : Set :=
| EPrint (msg : string)
| EShow (fig : figure)
| EWriteImage (fig : figure) (filename fmt : string)
| ELoadImage (filename : string)
| EDisplay (filename : string).

(** The file system, as far as [show_plot] meets it: the image files by
    name, and the names under which a file can be created, which takes
    that the directory of the name exists. *)
Record files : Set := mkFiles {
  images : list string;
  creatable : string -> bool
}.

Definition file_exists (name : string) (fs : files) : bool :=
  existsb (String.eqb name) (images fs).

(** The state [show_plot] runs in: the files on disk and the calls made so
    far (latest last). *)
Record plot_world : Set := mkPlotWorld {
  disk : files;
  calls : list plot_effect
}.

Definition emit (e : plot_effect) (w : plot_world) : plot_world :=
  mkPlotWorld (disk w) (calls w ++ [e])%list.

(** [fig.write_image(filename, format=format, ...)]: the file exists
    afterwards; under a name that cannot be created (the directory is
    missing) the call raises and writes nothing. *)
Definition write_image (fig : figure) (filename : string) (w : plot_world)
  : result unit * plot_world :=
  if creatable (disk w) filename then
    (Ok tt,
     mkPlotWorld (mkFiles (filename :: images (disk w)) (creatable (disk w)))
                 (calls w ++ [EWriteImage fig filename format])%list)
  else (Raise FileNotFoundError, w).

(** [webp.load_image(filename)]: fails on a file that does not exist. *)
Definition load_image (filename : string) (w : plot_world)
  : result unit * plot_world :=
  if file_exists filename (disk w)
  then (Ok tt, emit (ELoadImage filename) w)
  else (Raise FileNotFoundError, w).

(** [title_to_filename(fig.layout.title.text, save_dir)]: a figure without
    title has [None] there, and [None.translate] raises. *)
Definition figure_filename (fig : figure) (save_dir : string) : result string :=
  match title_text fig with
  | Some title => Ok (title_to_filename title save_dir)
  | None => Raise AttributeError
  end.

(** [show_plot]: returns [None] or, with [save_only], the file name. *)
Definition show_plot (fig : option figure) (save_only display_only : bool)
    (save_dir : string) (interactive : bool) (w : plot_world)
  : result (option string) * plot_world :=
  match fig with
  | None => (Ok None, emit (EPrint "Pass in a plotly figure as argument") w)
  | Some fig =>
      if interactive then (Ok None, emit (EShow fig) w)
      else if save_only then
        match figure_filename fig save_dir with
        | Raise e => (Raise e, w)
        | Ok filename =>
            match write_image fig filename w with
            | (Raise e, w1) => (Raise e, w1)
            | (Ok _, w1) => (Ok (Some filename), w1)
            end
        end
      else if display_only then
        match figure_filename fig save_dir with
        | Raise e => (Raise e, w)
        | Ok filename =>
            match load_image filename w with
            | (Raise e, w1) => (Raise e, w1)
            | (Ok _, w1) => (Ok None, emit (EDisplay filename) w1)
            end
        end
      else
        match figure_filename fig save_dir with
        | Raise e => (Raise e, w)
        | Ok filename =>
            match write_image fig filename w with
            | (Raise e, w1) => (Raise e, w1)
            | (Ok _, w1) =>
                match load_image filename w1 with
                | (Raise e, w2) => (Raise e, w2)
                | (Ok _, w2) => (Ok None, emit (EDisplay filename) w2)
                end
            end
        end
  end.

(** ** scripts/script.py: loading the fixtures *)

(** *** bson.ObjectId *)

(** ASCII white space, which [bytes.fromhex] skips between bytes. *)
Definition is_space (c : ascii) : bool :=
  let n := N_of_ascii c in
  (n =? 32)%N || ((9 <=? n)%N && (n <=? 13)%N).

Definition hex_digit (c : ascii) : option N :=
  let n := N_of_ascii c in
  if ((48 <=? n) && (n <=? 57))%N then Some (n - 48)%N
  else if ((97 <=? n) && (n <=? 102))%N then Some (n - 87)%N
  else if ((65 <=? n) && (n <=? 70))%N then Some (n - 55)%N
  else None.

(** [bytes.fromhex(s)]: two hexadecimal digits per byte; [None] stands for
    its [ValueError]. *)
Fixpoint bytes_fromhex (s : string) : option (list N) :=
  match s with
  | EmptyString => Some []
  | String c s' =>
      if is_space c then bytes_fromhex s'
      else
        match s' with
        | EmptyString => None
        | String d s'' =>
            match hex_digit c, hex_digit d, bytes_fromhex s'' with
            | Some h, Some l, Some rest => Some ((16 * h + l)%N :: rest)
            | _, _, _ => None
            end
        end
  end.

(** [ObjectId(oid)], following [bson.objectid]: [None] asks for a new
    identifier, which the caller supplies as [fresh]; a string must have 24
    characters that [bytes.fromhex] accepts; an [ObjectId] is copied;
    anything else is a [TypeError]. *)
Definition ObjectId (fresh : list N) (oid : value) : result value :=
  match oid with
  | VNone => Ok (VObjectId fresh)
  | VObjectId b => Ok (VObjectId b)
  | VStr s =>
      if (String.length s =? 24)%nat then
        match bytes_fromhex s with
        | Some b => Ok (VObjectId b)
        | None => Raise InvalidId
        end
      else Raise InvalidId
  | _ => Raise TypeError
  end.

(** *** Python's operators on dynamically typed operands *)

(** [k in x] for a string [k]: key membership in a [dict], substring search
    in a [str], element search in a [list]; the other types are not
    containers. *)
Definition py_in (k : string) (x : value) : result bool :=
  match x with
  | VDict d => Ok (dict_mem k d)
  | VStr s => Ok (str_contains k s)
  | VList l =>
      Ok (existsb (fun v => match v with
                            | VStr s => String.eqb s k
                            | _ => false
                            end) l)
  | _ => Raise TypeError
  end.

(** [x[k]] for a string [k]: only a [dict] can be subscripted by a string. *)
Definition py_getitem (k : string) (x : value) : result value :=
  match x with
  | VDict d => dict_item k d
  | _ => Raise TypeError
  end.

(** [x[k] = v] for a string [k]. *)
Definition py_setitem (k : string) (v : value) (x : value) : result value :=
  match x with
  | VDict d => Ok (VDict (dict_set k v d))
  | _ => Raise TypeError
  end.

(** *** load_json *)

(** The body of the loop of [load_json] on one element of the data. *)
Definition load_document (fresh : list N) (document : value) : result value :=
  (id <- py_getitem "_id" document ;;
   wrapped <- py_in "$oid" id ;;
   if wrapped : bool then
     raw <- py_getitem "$oid" id ;;
     oid <- ObjectId fresh raw ;;
     py_setitem "_id" oid document
   else Ok document)%py.

Fixpoint load_documents (fresh : nat -> list N) (i : nat) (data : list value)
  : result (list value) :=
  match data with
  | [] => Ok []
  | document :: rest =>
      (document' <- load_document (fresh i) document ;;
       rest' <- load_documents fresh (S i) rest ;;
       Ok (document' :: rest'))%py
  end.

(** [load_json], from the parsed content [json_data] of the file on
    ([open] and [json.load] are not represented).  [fresh i] is the identifier
    the driver would generate for element [i].  The loop runs over the
    elements of an array; over a JSON object or a string it would run over
    keys or characters, which are strings and cannot be subscripted by
    ["_id"]; other values cannot be iterated.  The documents are updated in
    place and the same list is returned. *)
Definition load_json (fresh : nat -> list N) (json_data : value) : result value :=
  match json_data with
  | VList data => (data' <- load_documents fresh 0 data ;; Ok (VList data'))%py
  | VDict [] => Ok (VDict [])
  | VStr EmptyString => Ok (VStr EmptyString)
  | _ => Raise TypeError
  end.

(** *** datetime.strptime at "%Y-%m-%dT%H:%M:%SZ" *)

(** Following CPython's [_strptime]: the format is turned into the
    regular expression
    [(\d\d\d\d)-(1[0-2]|0[1-9]|[1-9])-(3[0-1]|[1-2]\d|0[1-9]|[1-9]| [1-9])T(2[0-3]|[0-1]\d|\d):([0-5]\d|\d):(6[0-1]|[0-5]\d|\d)Z],
    matched without regard to case at the start of the string; the match
    must cover the whole string; the fields must form a date and a time
    that [datetime] accepts.  A digit is an ASCII digit here (Python also
    reads the decimal digits of other scripts).  A parser is the list of the ways a regular
    expression matches a prefix, in the order a backtracking matcher tries
    them. *)
Definition parser (A : Type) : Type := string -> list (A * string).

Definition p_ret {A : Type} (a : A) : parser A := fun s => [(a, s)].

Definition p_bind {A B : Type} (p : parser A) (k : A -> parser B) : parser B :=
  fun s => flat_map (fun '(a, s') => k a s') (p s).

Definition p_alt {A : Type} (p q : parser A) : parser A :=
  fun s => (p s ++ q s)%list.

(** A decimal digit between [lo] and [hi]. *)
Definition p_digit (lo hi : Z) : parser Z :=
  fun s =>
    match s with
    | EmptyString => []
    | String c s' =>
        let n := Z.of_N (N_of_ascii c) - 48 in
        if (lo <=? n) && (n <=? hi) then [(n, s')] else []
    end.

(** One given character. *)
Definition p_char (c : ascii) : parser unit :=
  fun s =>
    match s with
    | EmptyString => []
    | String c' s' => if Ascii.eqb c c' then [(tt, s')] else []
    end.

(** A letter of the format, in either case. *)
Definition p_letter (upper lower : ascii) : parser unit :=
  p_alt (p_char upper) (p_char lower).

(** Two digits from the given ranges, read as a number. *)
Definition p_two (lo1 hi1 lo2 hi2 : Z) : parser Z :=
  p_bind (p_digit lo1 hi1) (fun a =>
  p_bind (p_digit lo2 hi2) (fun b => p_ret (10 * a + b))).

Definition p_Y : parser Z :=
  p_bind (p_two 0 9 0 9) (fun hi =>
  p_bind (p_two 0 9 0 9) (fun lo => p_ret (100 * hi + lo))).

Definition p_m : parser Z :=
  p_alt (p_two 1 1 0 2) (p_alt (p_two 0 0 1 9) (p_digit 1 9)).

Definition p_d : parser Z :=
  p_alt (p_two 3 3 0 1)
 (p_alt (p_two 1 2 0 9)
 (p_alt (p_two 0 0 1 9)
 (p_alt (p_digit 1 9)
        (p_bind (p_char " ") (fun _ => p_digit 1 9))))).

Definition p_H : parser Z :=
  p_alt (p_two 2 2 0 3) (p_alt (p_two 0 1 0 9) (p_digit 0 9)).

Definition p_M : parser Z :=
  p_alt (p_two 0 5 0 9) (p_digit 0 9).

Definition p_S : parser Z :=
  p_alt (p_two 6 6 0 1) (p_alt (p_two 0 5 0 9) (p_digit 0 9)).

Definition p_timestamp : parser datetime :=
  p_bind p_Y (fun Y =>
  p_bind (p_char "-") (fun _ =>
  p_bind p_m (fun m =>
  p_bind (p_char "-") (fun _ =>
  p_bind p_d (fun d =>
  p_bind (p_letter "T" "t") (fun _ =>
  p_bind p_H (fun H =>
  p_bind (p_char ":") (fun _ =>
  p_bind p_M (fun M =>
  p_bind (p_char ":") (fun _ =>
  p_bind p_S (fun S =>
  p_bind (p_letter "Z" "z") (fun _ =>
  p_ret (mkDatetime Y m d H M S))))))))))))).

Definition is_leap (y : Z) : bool :=
  (y mod 4 =? 0) && (negb (y mod 100 =? 0) || (y mod 400 =? 0)).

Definition days_in_month (y m : Z) : Z :=
  if m =? 2 then (if is_leap y then 29 else 28)
  else if (m =? 4) || (m =? 6) || (m =? 9) || (m =? 11) then 30
  else 31.

(** The values [datetime(year, month, day, hour, minute, second)]
    accepts. *)
Definition valid_datetime (d : datetime) : bool :=
  (1 <=? dt_year d) && (dt_year d <=? 9999) &&
  (1 <=? dt_month d) && (dt_month d <=? 12) &&
  (1 <=? dt_day d) && (dt_day d <=? days_in_month (dt_year d) (dt_month d)) &&
  (0 <=? dt_hour d) && (dt_hour d <=? 23) &&
  (0 <=? dt_minute d) && (dt_minute d <=? 59) &&
  (0 <=? dt_second d) && (dt_second d <=? 59).

(** [strptime] on a string: the first match of the expression decides. *)
Definition strptime_str (s : string) : result datetime :=
  match p_timestamp s with
  | [] => Raise ValueError
  | (d, rest) :: _ =>
      match rest with
      | EmptyString => if valid_datetime d then Ok d else Raise ValueError
      | String _ _ => Raise ValueError
      end
  end.

(** [dt.datetime.strptime(v, "%Y-%m-%dT%H:%M:%SZ")]: the first argument must
    be a string. *)
Definition strptime (v : value) : result value :=
  match v with
  | VStr s => (d <- strptime_str s ;; Ok (VDatetime d))%py
  | _ => Raise TypeError
  end.

(** *** convert_date *)

(** One of the two [if] statements of the loop body. *)
Definition convert_field (k : string) (document : dict) : result dict :=
  if dict_mem k document then
    (v <- dict_item k document ;;
     t <- strptime v ;;
     Ok (dict_set k t document))%py
  else Ok document.

Definition convert_document (document : dict) : result dict :=
  (d1 <- convert_field "order_date" document ;;
   convert_field "delivery_date" d1)%py.

(** [convert_date].  The documents are updated in place; when a field
    raises, the exception leaves the function and the caller gets no
    list. *)
Fixpoint convert_date (json_data : list dict) : result (list dict) :=
  match json_data with
  | [] => Ok []
  | document :: rest =>
      (document' <- convert_document document ;;
       rest' <- convert_date rest ;;
       Ok (document' :: rest'))%py
  end.

(** [strftime] at the same format, for a valid [datetime]: four digits for
    the year, two for every other field. *)
Definition digit_char (n : Z) : ascii := ascii_of_N (Z.to_N (48 + n mod 10)).

Definition pad2 (n : Z) (rest : string) : string :=
  String (digit_char (n / 10)) (String (digit_char n) rest).

Definition pad4 (n : Z) (rest : string) : string :=
  pad2 (n / 100) (pad2 (n mod 100) rest).

Definition isoformat_z (d : datetime) : string :=
  pad4 (dt_year d) (String "-" (pad2 (dt_month d) (String "-"
  (pad2 (dt_day d) (String "T" (pad2 (dt_hour d) (String ":"
  (pad2 (dt_minute d) (String ":" (pad2 (dt_second d) "Z")))))))))).

(** ** scripts/script.py: revenue by category *)

(** The documents of [products] and [order_items], with the fields and types
    the validators of the two collections require.  The integers of the
    server are represented by [Z]: the products and sums of the pipeline
    are exact, as they are on the server while they fit in 64 bits. *)
Record product_doc : Set := mkProduct {
  product_id : Z;
  product_name : string;
  category : string;
  price : Z
}.

Record order_item_doc : Set := mkOrderItem {
  order_item_id : Z;
  order_id : Z;
  item_product_id : Z;
  quantity : Z;
  item_price : Z
}.

(** A row of the result: [product_category] and [total_revenue]. *)
Record revenue_row : Set := mkRevenueRow {
  product_category : string;
  total_revenue : Z
}.

(** Step 1, [$lookup]: every order item gets the array [product_info] of
    the products whose [product_id] equals its own. *)
Definition lookup_products (products : list product_doc)
    (items : list order_item_doc) : list (order_item_doc * list product_doc) :=
  map (fun item =>
         (item, filter (fun p => product_id p =? item_product_id item) products))
      items.

(** Step 2, [$unwind]: one document per element of [product_info]; a
    document whose array is empty disappears. *)
Definition unwind_product_info (docs : list (order_item_doc * list product_doc))
  : list (order_item_doc * product_doc) :=
  flat_map (fun '(item, info) => map (fun p => (item, p)) info) docs.

(** Step 3, [$addFields]: [revenue] is [quantity * product_info.price]. *)
Definition add_revenue (docs : list (order_item_doc * product_doc))
  : list (order_item_doc * product_doc * Z) :=
  map (fun '(item, p) => (item, p, quantity item * price p)) docs.

(** Step 4, [$group]: one group per [product_info.category], with the sum of
    [revenue]; the groups are kept in the order of their first document. *)
Fixpoint group_add (key : string) (revenue : Z) (groups : list (string * Z))
  : list (string * Z) :=
  match groups with
  | [] => [(key, revenue)]
  | (key', total) :: groups' =>
      if String.eqb key key' then (key', total + revenue) :: groups'
      else (key', total) :: group_add key revenue groups'
  end.

Definition group_by_category (docs : list (order_item_doc * product_doc * Z))
  : list (string * Z) :=
  fold_left (fun groups '(_, p, revenue) => group_add (category p) revenue groups)
            docs [].

(** Step 5, [$project]: [_id] becomes [product_category]. *)
Definition project_category (groups : list (string * Z)) : list revenue_row :=
  map (fun '(key, total) => mkRevenueRow key total) groups.

(** Step 6, [$sort] with [total_revenue: -1]. *)
Fixpoint sort_insert (r : revenue_row) (sorted : list revenue_row)
  : list revenue_row :=
  match sorted with
  | [] => [r]
  | r' :: sorted' =>
      if total_revenue r' <? total_revenue r then r :: r' :: sorted'
      else r' :: sort_insert r sorted'
  end.

Definition sort_by_revenue_desc (rows : list revenue_row) : list revenue_row :=
  fold_right sort_insert [] rows.

(** [order_items.aggregate(pipeline)] of section 4.2.1. *)
Definition revenue_by_category (products : list product_doc)
    (items : list order_item_doc) : list revenue_row :=
  sort_by_revenue_desc
    (project_category
       (group_by_category
          (add_revenue
             (unwind_product_info
                (lookup_products products items))))).

(** The reference computation, in the words of the specification: the sum of
    quantity times product price over the order items whose product belongs
    to the category. *)
Definition sum_Z (l : list Z) : Z := fold_right Z.add 0 l.



(** ** scripts/script.py: the server side of [generate_id_from_field] *)

(** The order of BSON types, for the types of the universe. *)
Definition bson_rank (v : value) : Z :=
  match v with
  | VNone => 1
  | VInt _ => 2
  | VStr _ => 3
  | VDict _ => 4
  | VList _ => 5
  | VObjectId _ => 7
  | VBool _ => 8
  | VDatetime _ => 9
  end.

Definition then_compare (c : comparison) (next : comparison) : comparison :=
  match c with
  | Eq => next
  | _ => c
  end.

Fixpoint bytes_compare (x y : list N) : comparison :=
  match x, y with
  | [], [] => Eq
  | [], _ :: _ => Lt
  | _ :: _, [] => Gt
  | a :: x', b :: y' => then_compare (a ?= b)%N (bytes_compare x' y')
  end.

Definition datetime_compare (x y : datetime) : comparison :=
  then_compare (dt_year x ?= dt_year y)
 (then_compare (dt_month x ?= dt_month y)
 (then_compare (dt_day x ?= dt_day y)
 (then_compare (dt_hour x ?= dt_hour y)
 (then_compare (dt_minute x ?= dt_minute y)
               (dt_second x ?= dt_second y))))).

(** Following the server's comparison of BSON values: values of
    different types by the order of the types; numbers by value, strings
    and identifiers by their bytes, dates by instant; arrays and embedded
    documents element by element (type, then key, then value), the shorter
    first. *)
Fixpoint bson_compare (a b : value) {struct a} : comparison :=
  match a, b with
  | VInt x, VInt y => x ?= y
  | VStr x, VStr y => String.compare x y
  | VBool x, VBool y => Bool.compare x y
  | VObjectId x, VObjectId y => bytes_compare x y
  | VDatetime x, VDatetime y => datetime_compare x y
  | VList xs, VList ys =>
      (fix elements (xs ys : list value) {struct xs} : comparison :=
         match xs, ys with
         | [], [] => Eq
         | [], _ :: _ => Lt
         | _ :: _, [] => Gt
         | x :: xs', y :: ys' =>
             then_compare (bson_rank x ?= bson_rank y)
            (then_compare (bson_compare x y) (elements xs' ys'))
         end) xs ys
  | VDict xs, VDict ys =>
      (fix fields (xs ys : list (string * value)) {struct xs} : comparison :=
         match xs, ys with
         | [], [] => Eq
         | [], _ :: _ => Lt
         | _ :: _, [] => Gt
         | (k, x) :: xs', (l, y) :: ys' =>
             then_compare (bson_rank x ?= bson_rank y)
            (then_compare (String.compare k l)
            (then_compare (bson_compare x y) (fields xs' ys')))
         end) xs ys
  | _, _ => bson_rank a ?= bson_rank b
  end.

Definition bson_eqb (a b : value) : bool :=
  match bson_compare a b with
  | Eq => true
  | _ => false
  end.

(** The accumulator [$max]: [null] and missing values are ignored; the
    result is [null] when nothing else was seen. *)
Definition max_step (acc v : value) : value :=
  match v with
  | VNone => acc
  | _ =>
      match acc with
      | VNone => v
      | _ => match bson_compare acc v with
             | Lt => v
             | _ => acc
             end
      end
  end.

Definition acc_max (vs : list value) : value := fold_left max_step vs VNone.

(** The field path ["$" + field] reads the top-level field [field] when
    [field] is a plain name.  An empty name and a name with a dot are
    rejected by the server (the path is invalid, and the output name
    ["max_" + field] may not contain a dot); a name that starts with a
    dollar sign would denote a variable, which the model rejects as the
    server rejects an unknown variable. *)
Definition plain_field_name (field : string) : bool :=
  negb (String.eqb field "") &&
  negb (str_contains "." field) &&
  negb (String.prefix "$" field).

(** [collection.aggregate(pipeline)] for the pipeline of
    [generate_id_from_field]: a [$group] stage with [_id: None] makes one
    group of all documents, and no group of no document. *)
Definition aggregate_max (collection : list dict) (field : string)
  : result (list dict) :=
  if plain_field_name field then
    match collection with
    | [] => Ok []
    | _ :: _ =>
        Ok [[("_id", VNone);
             ("max_" ++ field,
              acc_max (map (fun d => value_or_none (dict_get field d))
                           collection))]]
    end
  else Raise OperationFailure.

(** [v + 1]: defined on [int] and on [bool], which is an [int]. *)
Definition py_add_one (v : value) : result value :=
  match v with
  | VInt z => Ok (VInt (z + 1))
  | VBool b => Ok (VInt (Z.b2z b + 1))
  | _ => Raise TypeError
  end.

(** [list(d)[1]]: the second key. *)
Definition second_key (d : dict) : result string :=
  match d with
  | _ :: (k, _) :: _ => Ok k
  | _ => Raise IndexError
  end.

(** [if d:] on a [dict]: it is true unless the [dict] is empty. *)
Definition truthy (d : dict) : bool :=
  match d with
  | [] => false
  | _ :: _ => true
  end.

(** [generate_id_from_field], on the documents the server holds for the
    collection; the result is [None] or an [int]. *)
Definition generate_id_from_field (collection : list dict) (field : string)
  : result value :=
  (result <- aggregate_max collection field ;;
   let max_id := hd_error result in
   match max_id with
   | Some max_id =>
       if truthy max_id then
         key <- second_key max_id ;;
         py_add_one (value_or_none (dict_get key max_id))
       else Ok VNone
   | None => Ok VNone
   end)%py.

(** ** scripts/script.py: collections, validators, indexes *)

Inductive collection_name : Set := Customers | Products | Orders | OrderItems.

(** The committed content of [ecommerce_db]. *)
Record database : Type := mkDatabase {
  customers : list dict;
  products : list dict;
  orders : list dict;
  order_items : list dict
}.

Definition find_all (c : collection_name) (db : database) : list dict :=
  match c with
  | Customers => customers db
  | Products => products db
  | Orders => orders db
  | OrderItems => order_items db
  end.

Definition store (c : collection_name) (d : dict) (db : database) : database :=
  match c with
  | Customers =>
      mkDatabase (customers db ++ [d]) (products db) (orders db) (order_items db)
  | Products =>
      mkDatabase (customers db) (products db ++ [d]) (orders db) (order_items db)
  | Orders =>
      mkDatabase (customers db) (products db) (orders db ++ [d]) (order_items db)
  | OrderItems =>
      mkDatabase (customers db) (products db) (orders db) (order_items db ++ [d])
  end%list.

(** [bsonType: "int"] is the 32-bit integer; the driver encodes a Python
    [int] in that range so, and a larger one as a 64-bit integer. *)
Definition is_int32 (v : value) : bool :=
  match v with
  | VInt z => (- 2 ^ 31 <=? z) && (z <? 2 ^ 31)
  | _ => false
  end.

Definition is_int_min (m : Z) (v : value) : bool :=
  match v with
  | VInt z => is_int32 v && (m <=? z)
  | _ => false
  end.

Definition is_string (v : value) : bool :=
  match v with
  | VStr _ => true
  | _ => false
  end.

Definition is_nonempty_string (v : value) : bool :=
  match v with
  | VStr s => (1 <=? String.length s)%nat
  | _ => false
  end.

Definition is_date (v : value) : bool :=
  match v with
  | VDatetime _ => true
  | _ => false
  end.

Definition is_object_id (v : value) : bool :=
  match v with
  | VObjectId _ => true
  | _ => false
  end.

Definition is_status (v : value) : bool :=
  match v with
  | VStr s =>
      existsb (String.eqb s) ["Shipped"; "Processing"; "Cancelled"; "Delivered"]
  | _ => false
  end.

(** ["required": [...]]. *)
Definition required (keys : list string) (d : dict) : bool :=
  forallb (fun k => dict_mem k d) keys.

(** An entry of ["properties"]: it constrains the field when it is there. *)
Definition property (k : string) (ok : value -> bool) (d : dict) : bool :=
  match dict_get k d with
  | Some v => ok v
  | None => true
  end.

(** The [$jsonSchema] validators of [orders] and [order_items], the two
    collections [create_order] writes to. *)
Definition orders_validator (d : dict) : bool :=
  required ["order_id"; "customer_id"; "order_date"; "status"] d &&
  property "_id" is_object_id d &&
  property "order_id" is_int32 d &&
  property "customer_id" is_int32 d &&
  property "order_date" is_date d &&
  property "status" is_status d.

Definition order_items_validator (d : dict) : bool :=
  required ["order_item_id"; "order_id"; "product_id"; "quantity"; "price"] d &&
  property "_id" is_object_id d &&
  property "order_item_id" is_int32 d &&
  property "order_id" is_int32 d &&
  property "product_id" is_int32 d &&
  property "quantity" (is_int_min 1) d &&
  property "price" (is_int_min 0) d.

(** The fields with a unique index ([create_index(..., unique=True)]). *)
Definition unique_keys (c : collection_name) : list string :=
  match c with
  | Customers => ["customer_id"; "email"]
  | Products => ["product_id"]
  | Orders => ["order_id"]
  | OrderItems => []
  end.

(** No document of [existing] has the value of [d] under a unique key; a
    missing field counts as [null]. *)
Definition unique_ok (c : collection_name) (d : dict) (existing : list dict)
  : bool :=
  forallb (fun k =>
             forallb (fun d' =>
                        negb (bson_eqb (value_or_none (dict_get k d))
                                       (value_or_none (dict_get k d'))))
                     existing)
          (unique_keys c).

(** ** scripts/script.py: the transaction *)

(** What [create_order] prints. *)
Inductive message : Type :=
| Created (order_id : value)
| Oops (e : exn).

(** The transaction of the session, as the driver keeps track of it:
    there is none before [start_transaction]; it is in progress until
    [commit_transaction] or [abort_transaction] is called; it counts as
    committed once [commit_transaction] has been called, whether the
    commit went through or not.  (The driver tells a transaction that has
    sent no command yet from one in progress; the two differ in requests
    that are not counted here.) *)
Inductive txn_state : Set :=
| TxnNone
| TxnInProgress
| TxnCommitted
| TxnAborted.

(** The state [create_order] runs in: the committed database, the inserts
    of the open transaction (oldest first), the state of the transaction
    of the session, the fate of the coming requests to the server ([true]:
    the request fails, it has not reached the server; none left: it
    succeeds), and the lines printed so far. *)
Record world : Type := mkWorld {
  db : database;
  transaction : list (collection_name * dict);
  session : txn_state;
  network : list bool;
  stdout : list message
}.

Definition M (A : Type) : Type := world -> result A * world.

Definition ret {A : Type} (a : A) : M A := fun w => (Ok a, w).

Definition raise {A : Type} (e : exn) : M A := fun w => (Raise e, w).

Definition mbind {A B : Type} (m : M A) (k : A -> M B) : M B :=
  fun w =>
    match m w with
    | (Ok a, w') => k a w'
    | (Raise e, w') => (Raise e, w')
    end.

(** A pure Python expression inside the transaction. *)
Definition lift {A : Type} (r : result A) : M A := fun w => (r, w).

Declare Scope db_scope.
Delimit Scope db_scope with db.
Notation "x <- c ;; k" := (mbind c (fun x => k))
  (at level 61, c at next level, right associativity) : db_scope.
Notation "c ;;; k" := (mbind c (fun _ => k))
  (at level 61, right associativity) : db_scope.

(** One round trip to the server. *)
Definition request : M unit :=
  fun w =>
    match network w with
    | [] => (Ok tt, w)
    | failed :: rest =>
        let w' := mkWorld (db w) (transaction w) (session w) rest (stdout w) in
        if failed : bool then (Raise ConnectionFailure, w') else (Ok tt, w')
    end.

(** A read without [session=]: it runs outside the transaction and sees the
    committed documents only. *)
Definition read_committed {A : Type} (f : database -> result A) : M A :=
  (request ;;; fun w => (f (db w), w))%db.

(** The documents of [c] as the transaction sees them. *)
Definition pending (c : collection_name) (writes : list (collection_name * dict))
  : list dict :=
  map snd (filter (fun cw => match fst cw, c with
                             | Customers, Customers | Products, Products
                             | Orders, Orders | OrderItems, OrderItems => true
                             | _, _ => false
                             end) writes).

Definition validator (c : collection_name) (d : dict) : bool :=
  match c with
  | Orders => orders_validator d
  | OrderItems => order_items_validator d
  | _ => true
  end.

(** The driver refuses an [int] outside 64 bits before it sends anything. *)
Definition encodable (d : dict) : bool :=
  forallb (fun kv => match snd kv with
                     | VInt z => (- 2 ^ 63 <=? z) && (z <? 2 ^ 63)
                     | _ => true
                     end) d.

(** [c.insert_one(d, session=session)]: the server checks the validator and
    the unique indexes and keeps the document in the transaction.  The
    [_id] the driver adds to the document is not represented. *)
Definition insert_one (c : collection_name) (d : dict) : M unit :=
  if encodable d then
    (request ;;; fun w =>
       if negb (validator c d) then (Raise WriteError, w)
       else if negb (unique_ok c d (find_all c (db w) ++ pending c (transaction w))%list)
       then (Raise DuplicateKeyError, w)
       else (Ok tt, mkWorld (db w) (transaction w ++ [(c, d)])%list
                            (session w) (network w) (stdout w)))%db
  else raise OverflowError.

(** [session.start_transaction()] on a new session. *)
Definition start_transaction (w : world) : world :=
  mkWorld (db w) [] TxnInProgress (network w) (stdout w).

(** [session.commit_transaction()]: one request; when it succeeds, the
    inserts of the transaction reach the collections, all of them, in
    order; when it fails, [ConnectionFailure] is raised and none of them
    does.  Either way the driver has the transaction as committed
    afterwards, so that the commit can be tried again.  Without a
    transaction, or after [abort_transaction], the driver raises
    [InvalidOperation]. *)
Definition commit_transaction : M unit :=
  fun w =>
    match session w with
    | TxnNone | TxnAborted => (Raise InvalidOperation, w)
    | TxnInProgress | TxnCommitted =>
        (request ;;; fun w' =>
           (Ok tt,
            mkWorld (fold_left (fun db '(c, d) => store c d db)
                               (transaction w') (db w'))
                    [] TxnCommitted (network w') (stdout w')))%db
          (mkWorld (db w) (transaction w) TxnCommitted (network w) (stdout w))
    end.

(** [session.abort_transaction()]: the inserts of a transaction in
    progress are dropped; the request it makes is not counted, the driver
    ignores its failure.  Once [commit_transaction] has been called, also
    when the commit failed, the driver refuses to abort and raises
    [InvalidOperation] (Cannot call abortTransaction after calling
    commitTransaction); so it does without a transaction and after an
    abort. *)
Definition abort_transaction : M unit :=
  fun w =>
    match session w with
    | TxnInProgress =>
        (Ok tt, mkWorld (db w) [] TxnAborted (network w) (stdout w))
    | _ => (Raise InvalidOperation, w)
    end.

(** Leaving [with client.start_session() as session]: the session ends,
    and the server drops what a transaction has left pending. *)
Definition end_session (w : world) : world :=
  mkWorld (db w) [] TxnNone (network w) (stdout w).

Definition print (m : message) : M unit :=
  fun w => (Ok tt, mkWorld (db w) (transaction w) (session w) (network w)
                           (stdout w ++ [m])%list).

(** [try: body except Exception as e: handler]; every exception of the
    model is an [Exception]. *)
Definition try_except {A : Type} (body : M A) (handler : exn -> M A) : M A :=
  fun w =>
    match body w with
    | (Ok a, w') => (Ok a, w')
    | (Raise e, w') => handler e w'
    end.

(** ** create_order *)

(** The [for] loop over [product_orders]. *)
Fixpoint insert_order_items (order_id : value) (product_orders : list dict)
  : M unit :=
  match product_orders with
  | [] => ret tt
  | product :: rest =>
      (product_id <- lift (dict_item "product_id" product) ;;
       quantity <- lift (dict_item "quantity" product) ;;
       order_item_id <- read_committed (fun db =>
         generate_id_from_field (order_items db) "order_item_id") ;;
       price <- lift (dict_item "price" product) ;;
       let order_item :=
         [ ("order_item_id", order_item_id);
           ("order_id", order_id);
           ("product_id", product_id);
           ("quantity", quantity);
           ("price", price) ] in
       insert_one OrderItems order_item ;;;
       insert_order_items order_id rest)%db
  end.

(** The body of [try]. *)
Definition create_order_try (customer_id : Z) (product_orders : list dict)
  : M unit :=
  (order_id <- read_committed (fun db =>
     generate_id_from_field (orders db) "order_id") ;;
   order_date <- lift (strptime (VStr "2024-12-22T10:00:00Z")) ;;
   let order :=
     [ ("order_id", order_id);
       ("customer_id", VInt customer_id);
       ("order_date", order_date);
       ("status", VStr "Processing") ] in
   insert_one Orders order ;;;
   insert_order_items order_id product_orders ;;;
   commit_transaction ;;;
   print (Created order_id))%db.

(** [create_order]: a session is opened and a transaction started in it,
    which is taken to succeed; [except Exception] aborts the transaction
    and prints the error.  An exception of the handler leaves the
    function: this happens when the commit has failed, since the handler
    then asks to abort a transaction that counts as committed.  When the
    [try] statement is left, the transaction is no longer in progress, so
    that leaving [with session.start_transaction()] does nothing to it.
    The function returns [None]. *)
Definition create_order (customer_id : Z) (product_orders : list dict)
  : M unit :=
  fun w =>
    let (r, w') :=
      try_except (create_order_try customer_id product_orders)
                 (fun e => abort_transaction ;;; print (Oops e))%db
                 (start_transaction w) in
    (r, end_session w').

(** * Notions of the specification *)

(** ** File names *)

(** The characters the specification lists for the file name: comma,
    exclamation mark, question mark, space and colon. *)
Definition disallowed (c : ascii) : bool :=
  existsb (Ascii.eqb c) [","; "!"; "?"; " "; ":"]%char.

Definition sanitized (c : ascii) : ascii :=
  if disallowed c then "_"%char else c.

(** ** Fixtures *)

(** A hexadecimal digit, in either case. *)
Definition is_hex (c : ascii) : bool :=
  match hex_digit c with
  | Some _ => true
  | None => false
  end.

Fixpoint all_hex (s : string) : bool :=
  match s with
  | EmptyString => true
  | String c s' => is_hex c && all_hex s'
  end.

(** The object-id representation: an object whose member ["$oid"] is a
    string of 24 hexadecimal digits. *)
Definition wraps (id : value) (hex : string) : Prop :=
  exists o, id = VDict o /\ dict_get "$oid" o = Some (VStr hex) /\
            String.length hex = 24%nat /\ all_hex hex = true.

(** An identifier in which Python can look for ["$oid"] and does not find
    it: an object without that member, a string without that text, an
    array without that element. *)
Definition holds_no_oid (id : value) : Prop :=
  match id with
  | VDict o => dict_get "$oid" o = None
  | VStr s => str_contains "$oid" s = false
  | VList l => Forall (fun v => v <> VStr "$oid") l
  | _ => False
  end.

(** The document [d'] is the document [d] with its identifier loaded: a
    wrapped [_id] became the [ObjectId] of its digits, any other [_id] and
    every other field are the same. *)
Definition id_loaded (d d' : dict) : Prop :=
  map fst d' = map fst d /\
  (forall k, k <> "_id" -> dict_get k d' = dict_get k d) /\
  (forall id hex, dict_get "_id" d = Some id -> wraps id hex ->
     exists bytes, bytes_fromhex hex = Some bytes /\ List.length bytes = 12%nat /\
                   dict_get "_id" d' = Some (VObjectId bytes)) /\
  (forall id, dict_get "_id" d = Some id -> (forall hex, ~ wraps id hex) ->
     dict_get "_id" d' = Some id).

(** The two fields [convert_date] looks at. *)
Definition date_keys : list string := ["order_date"; "delivery_date"].

(** Every date field the document has is a string in the format. *)
Definition well_dated (d : dict) : Prop :=
  forall k v, In k date_keys -> dict_get k d = Some v ->
              exists s t, v = VStr s /\ strptime_str s = Ok t.

(** What one [if] of [convert_date] does to a document. *)
Definition field_converted (k : string) (d d' : dict) : Prop :=
  map fst d' = map fst d /\
  (forall k', k' <> k -> dict_get k' d' = dict_get k' d) /\
  (dict_get k d = None -> dict_get k d' = None) /\
  (forall s, dict_get k d = Some (VStr s) ->
     exists t, strptime_str s = Ok t /\ dict_get k d' = Some (VDatetime t)).

(** The document [d'] is the document [d] with its dates converted:
    a date string became the [datetime] the format reads from it, which is
    the instant [t0] whenever the string is the timestamp of a valid
    [t0]; the other fields and the order of the keys are untouched. *)
Definition dates_converted (d d' : dict) : Prop :=
  map fst d' = map fst d /\
  (forall k, ~ In k date_keys -> dict_get k d' = dict_get k d) /\
  (forall k s, In k date_keys -> dict_get k d = Some (VStr s) ->
     exists t, strptime_str s = Ok t /\
               dict_get k d' = Some (VDatetime t) /\
               forall t0, valid_datetime t0 = true ->
                          s = isoformat_z t0 -> t = t0).

(** ** Revenue by category *)


(** The documents that reach [$group]. *)
Definition joined (products : list product_doc) (items : list order_item_doc)
  : list (order_item_doc * product_doc * Z) :=
  add_revenue (unwind_product_info (lookup_products products items)).



(** ** Identifiers *)

(** The values of [field] over the collection, [None] where it is missing,
    as the server reads them. *)
Definition field_values (collection : list dict) (field : string) : list value :=
  map (fun d => value_or_none (dict_get field d)) collection.

(** [field] is a numeric field of the collection: it is a plain field name,
    and where a document has a value for it, the value is an integer. *)
Definition numeric_field (collection : list dict) (field : string) : Prop :=
  plain_field_name field = true /\
  Forall (fun v => v = VNone \/ exists z, v = VInt z)
         (field_values collection field).

(** [m] is the maximum of [field] over the documents of the collection. *)
Definition max_of_field (collection : list dict) (field : string) (m : Z)
  : Prop :=
  (exists d, In d collection /\ dict_get field d = Some (VInt m)) /\
  (forall d z, In d collection -> dict_get field d = Some (VInt z) -> z <= m).

(** ** Orders *)

(** The order document [create_order] builds. *)
Definition new_order (order_id : value) (customer_id : Z) : dict :=
  [ ("order_id", order_id);
    ("customer_id", VInt customer_id);
    ("order_date", VDatetime (mkDatetime 2024 12 22 10 0 0));
    ("status", VStr "Processing") ].

(** [item] is the order-item document [create_order] builds for the line
    item [product] of the order [order_id], while the committed
    [order_items] collection is [committed]: its [order_item_id] is what
    the ID generator returns on [committed]. *)
Definition order_item_for (order_id : value) (committed : list dict)
    (product item : dict) : Prop :=
  exists order_item_id product_id quantity price,
    generate_id_from_field committed "order_item_id" = Ok order_item_id /\
    dict_get "product_id" product = Some product_id /\
    dict_get "quantity" product = Some quantity /\
    dict_get "price" product = Some price /\
    item = [ ("order_item_id", order_item_id);
             ("order_id", order_id);
             ("product_id", product_id);
             ("quantity", quantity);
             ("price", price) ].

(** A step that leaves the committed database, the output and the state
    of the transaction alone. *)
Definition frames (w w' : world) : Prop :=
  db w' = db w /\ stdout w' = stdout w /\ session w' = session w.

(** The code made [n] requests between [w] and [w'], and none of them
    failed. *)
Definition consumed (n : nat) (w w' : world) : Prop :=
  network w' = skipn n (network w) /\ ~ In true (firstn n (network w)).

(** The outcome of a call of [create_order] that created the order
    [order_id] with the order items [new_items]. *)
Definition order_created (customer_id : Z) (product_orders : list dict)
    (w w' : world) (order_id : value) (new_items : list dict) : Prop :=
  generate_id_from_field (orders (db w)) "order_id" = Ok order_id /\
  Forall2 (order_item_for order_id (order_items (db w)))
          product_orders new_items /\
  orders_validator (new_order order_id customer_id) = true /\
  Forall (fun item => order_items_validator item = true) new_items /\
  db w' = mkDatabase (customers (db w)) (products (db w))
                     (orders (db w) ++ [new_order order_id customer_id])
                     (order_items (db w) ++ new_items) /\
  transaction w' = [] /\
  stdout w' = (stdout w ++ [Created order_id])%list /\
  consumed (3 + 2 * List.length product_orders) w w'.

(** The outcome of a call of [create_order] that failed with [e]. *)
Definition order_aborted (w w' : world) (e : exn) : Prop :=
  db w' = db w /\
  transaction w' = [] /\
  stdout w' = (stdout w ++ [Oops e])%list.

(** The outcome of a call of [create_order] whose inserts went through,
    the order [order_id] and the order items [new_items], and whose commit
    failed: the [2 + 2 N] requests before the commit succeeded, the request
    of the commit did not; nothing is persisted and nothing is printed. *)
Definition order_uncommitted (customer_id : Z) (product_orders : list dict)
    (w w' : world) (order_id : value) (new_items : list dict) : Prop :=
  generate_id_from_field (orders (db w)) "order_id" = Ok order_id /\
  Forall2 (order_item_for order_id (order_items (db w)))
          product_orders new_items /\
  orders_validator (new_order order_id customer_id) = true /\
  Forall (fun item => order_items_validator item = true) new_items /\
  db w' = db w /\
  transaction w' = [] /\
  stdout w' = stdout w /\
  ~ In true (firstn (2 + 2 * List.length product_orders) (network w)) /\
  nth_error (network w) (2 + 2 * List.length product_orders) = Some true /\
  network w' = skipn (3 + 2 * List.length product_orders) (network w).

(** ** A database for the examples *)

(** Two products, two orders with one order item each. *)
Definition example_order (order_id customer_id : Z) : dict :=
  [ ("order_id", VInt order_id);
    ("customer_id", VInt customer_id);
    ("order_date", VDatetime (mkDatetime 2024 1 15 10 0 0));
    ("status", VStr "Delivered") ].

Definition example_item (order_item_id order_id product_id quantity price : Z)
  : dict :=
  [ ("order_item_id", VInt order_item_id);
    ("order_id", VInt order_id);
    ("product_id", VInt product_id);
    ("quantity", VInt quantity);
    ("price", VInt price) ].

Definition example_line (product_id quantity price : Z) : dict :=
  [ ("product_id", VInt product_id);
    ("quantity", VInt quantity);
    ("price", VInt price) ].

Definition example_product (product_id : Z) (name cat : string) (price : Z)
  : dict :=
  [ ("product_id", VInt product_id);
    ("product_name", VStr name);
    ("category", VStr cat);
    ("price", VInt price) ].

Definition example_db : database :=
  mkDatabase
    []
    [ example_product 101 "Laptop" "Electronics" 1200;
      example_product 102 "Phone" "Electronics" 800 ]
    [ example_order 5001 1; example_order 5002 2 ]
    [ example_item 9001 5001 101 2 1200; example_item 9002 5002 102 1 800 ].

Definition example_world : world := mkWorld example_db [] TxnNone [] [].

(** ** Further notions: plots *)

(** The title with every disallowed character replaced by an underscore. *)
Fixpoint sanitize_title (title : string) : string :=
  match title with
  | EmptyString => EmptyString
  | String c title' => String (sanitized c) (sanitize_title title')
  end.

(** The figure of a call, when the call goes on to derive a file name: a
    figure was passed and [interactive] is off. *)
Definition figure_to_save (fig : option figure) (interactive : bool)
  : option figure :=
  match fig with
  | Some f => if interactive then None else Some f
  | None => None
  end.

(** ** Further notions: fixtures *)

(** A document [load_json] gets through: its [_id] is wrapped or is a
    container without ["$oid"]. *)
Definition loadable (d : dict) : Prop :=
  exists id, dict_get "_id" d = Some id /\
             ((exists hex, wraps id hex) \/ holds_no_oid id).

(** The element [bad] of a fixture stops [load_json] with the exception
    [e]: it is no object, or an object without [_id], or its [_id] is a
    number, a boolean or [null], or the [_id] is wrapped around a string
    that has not 24 characters or that holds a character which is neither
    a hexadecimal digit nor white space. *)
Inductive load_error : value -> exn -> Prop :=
| load_error_no_object (v : value) :
    (forall d, v <> VDict d) -> load_error v TypeError
| load_error_no_id (d : dict) :
    dict_get "_id" d = None -> load_error (VDict d) KeyError
| load_error_scalar_id (d : dict) (id : value) :
    dict_get "_id" d = Some id ->
    (id = VNone \/ (exists b, id = VBool b) \/ exists z, id = VInt z) ->
    load_error (VDict d) TypeError
| load_error_short_oid (d o : dict) (s : string) :
    dict_get "_id" d = Some (VDict o) ->
    dict_get "$oid" o = Some (VStr s) ->
    String.length s <> 24%nat ->
    load_error (VDict d) InvalidId
| load_error_no_hex (d o : dict) (s : string) (c : ascii) :
    dict_get "_id" d = Some (VDict o) ->
    dict_get "$oid" o = Some (VStr s) ->
    In c (list_ascii_of_string s) ->
    is_hex c = false ->
    is_space c = false ->
    load_error (VDict d) InvalidId.

(** The document has one of the two date fields. *)
Definition has_date (d : dict) : Prop :=
  dict_mem "order_date" d = true \/ dict_mem "delivery_date" d = true.

(** ** Further notions: orders *)

(** A line item the validator of [order_items] lets through: the three
    keys are there, [product_id] is a 32-bit integer, [quantity] one that
    is at least 1, [price] one that is at least 0. *)
Definition valid_line (product : dict) : bool :=
  match dict_get "product_id" product, dict_get "quantity" product,
        dict_get "price" product with
  | Some product_id, Some quantity, Some price =>
      is_int32 product_id && is_int_min 1 quantity && is_int_min 0 price
  | _, _, _ => false
  end.

(** The order-item document of a line item. *)
Definition line_item (order_item_id order_id : Z) (product : dict) : dict :=
  [ ("order_item_id", VInt order_item_id);
    ("order_id", VInt order_id);
    ("product_id", value_or_none (dict_get "product_id" product));
    ("quantity", value_or_none (dict_get "quantity" product));
    ("price", value_or_none (dict_get "price" product)) ].

(** [n] is the next identifier of the collection: the field is numeric, [n]
    is one more than its maximum, and [n] is a 32-bit integer. *)
Definition next_id (collection : list dict) (field : string) (n : Z) : Prop :=
  numeric_field collection field /\
  max_of_field collection field (n - 1) /\
  - 2147483648 <= n < 2147483648.

(** Two worlds that differ in [customers] and [products] at most. *)
Definition same_orders (w1 w2 : world) : Prop :=
  orders (db w1) = orders (db w2) /\
  order_items (db w1) = order_items (db w2) /\
  transaction w1 = transaction w2 /\
  network w1 = network w2 /\
  stdout w1 = stdout w2.

(** A computation whose result and whose effect on orders, order items,
    transaction, network and output do not depend on [customers] and
    [products]. *)
Definition blind {A : Type} (m : M A) : Prop :=
  forall w1 w2, same_orders w1 w2 -> session w1 = session w2 ->
                fst (m w1) = fst (m w2) /\
                same_orders (snd (m w1)) (snd (m w2)) /\
                session (snd (m w1)) = session (snd (m w2)).

(** The state after [n] more successful requests and the inserts
    [writes]. *)
Definition advanced (n : nat) (writes : list (collection_name * dict))
    (w w' : world) : Prop :=
  db w' = db w /\
  transaction w' = (transaction w ++ writes)%list /\
  network w' = skipn n (network w) /\
  stdout w' = stdout w /\
  session w' = session w.

(** ** scripts/script.py: the other aggregation pipelines *)

(** The stages the pipelines share.  [$group] collects the documents of
    each key, in the order they arrive, the groups in the order of their
    first document; an accumulator then runs over the documents of a
    group.  [$sort] with [-1] sorts by an integer field, largest first. *)
Section Stages.
Context {K R : Type}.
Variable eqb : K -> K -> bool.
Variable key : R -> K.

Fixpoint group_insert (r : R) (groups : list (K * list R))
  : list (K * list R) :=
  match groups with
  | [] => [(key r, [r])]
  | (k, rows) :: groups' =>
      if eqb (key r) k then (k, (rows ++ [r])%list) :: groups'
      else (k, rows) :: group_insert r groups'
  end.

Definition group_by (rows : list R) : list (K * list R) :=
  fold_left (fun groups r => group_insert r groups) rows [].
End Stages.

Fixpoint insert_desc {A : Type} (field : A -> Z) (a : A) (sorted : list A)
  : list A :=
  match sorted with
  | [] => [a]
  | b :: sorted' =>
      if field b <? field a then a :: b :: sorted'
      else b :: insert_desc field a sorted'
  end.

Definition sort_desc {A : Type} (field : A -> Z) (rows : list A) : list A :=
  fold_right (insert_desc field) [] rows.

(** The documents of [customers] and [orders], with the fields and types
    their validators require. *)
Module Customer.
Record address_doc : Set := mkAddress {
  street : string;
  city : string;
  state : string
}.
Record t : Set := mk {
  customer_id : Z;
  name : string;
  email : string;
  address : address_doc
}.
End Customer.

Module Order.
Record t : Set := mk {
  order_id : Z;
  customer_id : Z;
  order_date : datetime;
  status : string
}.
End Order.

(** *** 4.2.3: the number of customers by state *)

Record state_row : Set := mkStateRow {
  state : string;
  customer_count : Z
}.

(** [$group] by [address.state] with [customer_count: {$sum: 1}], the
    [$project] that renames [_id] to [state], and the [$sort] by
    [customer_count], descending. *)
Definition customers_by_state (customers : list Customer.t) : list state_row :=
  sort_desc customer_count
    (map (fun '(k, docs) => mkStateRow k (sum_Z (map (fun _ => 1) docs)))
         (group_by String.eqb
                   (fun c => Customer.state (Customer.address c)) customers)).

(** *** The revenue by product, from the orders *)

Record product_revenue_row : Set := mkProductRevenueRow {
  revenue_product_id : Z;
  product_total_revenue : Z
}.

(** [$lookup] of the order items of every order ([order_details]),
    [$unwind], [$group] by [order_details.product_id] with the sum of
    [order_details.quantity * order_details.price], [$project], [$sort] by
    [total_revenue], descending. *)
Definition order_details (items : list order_item_doc) (orders : list Order.t)
  : list (Order.t * order_item_doc) :=
  flat_map (fun o =>
              map (fun item => (o, item))
                  (filter (fun item => order_id item =? Order.order_id o) items))
           orders.

Definition revenue_by_product (items : list order_item_doc)
    (orders : list Order.t) : list product_revenue_row :=
  sort_desc product_total_revenue
    (map (fun '(k, docs) =>
            mkProductRevenueRow k
              (sum_Z (map (fun '(_, item) => quantity item * item_price item)
                          docs)))
         (group_by Z.eqb (fun '(_, item) => item_product_id item)
                   (order_details items orders))).

(** *** 2.4: the three most expensive products of each order *)

Record top_product : Set := mkTopProduct {
  top_product_name : string;
  top_price : Z;
  top_quantity : Z;
  top_total_price : Z
}.

(** [$lookup] of the product of every order item ([product_details]) and
    [$unwind]: the first two stages are those of the revenue by category.
    [$sort] by [product_details.price], descending; [$group] by [order_id]
    with [$push]; [$project] with [$slice] to the first three. *)
Definition pushed_product (doc : order_item_doc * product_doc) : top_product :=
  let (item, p) := doc in
  mkTopProduct (product_name p) (price p) (quantity item)
               (quantity item * price p).

Definition top_products (products : list product_doc)
    (items : list order_item_doc) : list (Z * list top_product) :=
  map (fun '(k, docs) => (k, firstn 3 (map pushed_product docs)))
      (group_by Z.eqb (fun doc => order_id (fst doc))
         (sort_desc (fun doc => price (snd doc))
            (unwind_product_info (lookup_products products items)))).

(** ** Further notions: pipelines *)

(** The documents of a group, none for a key without group. *)
Fixpoint group_rows {K R : Type} (eqb : K -> K -> bool) (k : K)
    (groups : list (K * list R)) : list R :=
  match groups with
  | [] => []
  | (k', rows) :: groups' =>
      if eqb k k' then rows else group_rows eqb k groups'
  end.

(** Descending order of an integer field. *)
Definition field_ge {A : Type} (field : A -> Z) (a b : A) : Prop :=
  field b <= field a.



(** The order items of an order together with their products, as the
    pipeline of the top products pushes them. *)
Definition products_of_order (products : list product_doc)
    (items : list order_item_doc) (o : Z) : list top_product :=
  map pushed_product
      (filter (fun doc => order_id (fst doc) =? o)
              (unwind_product_info (lookup_products products items))).

(** ** scripts/script.py: the validator of [products] and the price check *)

(** The [$jsonSchema] validator [products] is created with. *)
Definition products_validator (d : dict) : bool :=
  required ["product_id"; "product_name"; "category"; "price"] d &&
  property "_id" is_object_id d &&
  property "product_id" is_int32 d &&
  property "product_name" is_nonempty_string d &&
  property "category" is_nonempty_string d &&
  property "price" (is_int_min 0) d.

(** [isinstance(v, (float, int))] on the objects of [value]: an [int], or
    a [bool], which is a subclass of [int].  [value] has no [float]: a
    document with a [float] price, which the test lets through as well, is
    not represented. *)
Definition isinstance_float_int (v : value) : bool :=
  match v with
  | VInt _ | VBool _ => true
  | _ => false
  end.

(** What the loop prints for a document. *)
Inductive price_line : Type :=
| ValidDocument (doc : dict)
| InvalidDocument (doc : dict).

(** The two lists of the loop and the lines printed so far. *)
Record price_check : Type := mkPriceCheck {
  valid_documents : list dict;
  invalid_documents : list dict;
  price_lines : list price_line
}.

(** One turn of [for doc in products.find()]; [doc.get("price")] is [None]
    when the field is missing. *)
Definition check_price (st : price_check) (doc : dict) : price_check :=
  if isinstance_float_int (value_or_none (dict_get "price" doc)) then
    mkPriceCheck (valid_documents st ++ [doc]) (invalid_documents st)
                 (price_lines st ++ [ValidDocument doc])
  else
    mkPriceCheck (valid_documents st) (invalid_documents st ++ [doc])
                 (price_lines st ++ [InvalidDocument doc]).

Definition check_prices (found : list dict) : price_check :=
  fold_left check_price found (mkPriceCheck [] [] []).

(** The summary printed after the loop: the two counts. *)
Definition price_summary (st : price_check) : nat * nat :=
  (List.length (valid_documents st), List.length (invalid_documents st)).

(** * Properties *)

(** ** handle_plot.py *)

Lemma table_get_replace_dict (c : ascii) :
  table_get c replace_dict = if disallowed c then Some "_" else None.
Proof.
  unfold replace_dict, disallowed; simpl.
  repeat match goal with
         | |- context [Ascii.eqb c ?x] => destruct (Ascii.eqb c x); simpl; auto
         end.
Qed.

Lemma translate_cons (table : list (ascii * string)) (c : ascii) (s : string) :
  translate table (String c s)
  = match table_get c table with
    | Some r => r ++ translate table s
    | None => String c (translate table s)
    end.
Proof. reflexivity. Qed.

Lemma translate_length (s : string) :
  String.length (translate replace_dict s) = String.length s.
Proof.
  induction s as [|c s IH]; [reflexivity|].
  rewrite translate_cons, table_get_replace_dict.
  destruct (disallowed c); simpl; now rewrite IH.
Qed.

Lemma translate_get (s : string) (i : nat) :
  String.get i (translate replace_dict s) = option_map sanitized (String.get i s).
Proof.
  revert i; induction s as [|c s IH]; intros i; [reflexivity|].
  rewrite translate_cons, table_get_replace_dict.
  destruct i; simpl; unfold sanitized at 1;
    destruct (disallowed c); simpl; auto.
Qed.

Lemma append_length (s t : string) :
  String.length (s ++ t) = (String.length s + String.length t)%nat.
Proof. induction s; simpl; auto. Qed.

(** The title of the specification's example gives two underscores where a
    colon or a comma is followed by a space, and the directory comes
    first. *)
Example title_to_filename_example :
  title_to_filename "Revenue: Q1, 2024!" PLOTS
  = "../screenshots/Revenue__Q1__2024_.webp".
Proof. reflexivity. Qed.

(** C4, as stated, fails: for no directory is the file name of the title
    "Revenue: Q1, 2024!" the name "Revenue_Q1_2024_.webp". *)
Lemma title_to_filename_example_refuted :
  ~ exists save_dir : string,
      title_to_filename "Revenue: Q1, 2024!" save_dir = "Revenue_Q1_2024_.webp".
Proof.
  intros [save_dir H].
  apply (f_equal String.length) in H.
  unfold title_to_filename in H.
  rewrite append_length in H. simpl in H. lia.
Qed.

(** C4, amended: the file name is the directory, then the title with every
    comma, exclamation mark, question mark, space and colon replaced by one
    underscore each (all other characters and the length kept), then a dot
    and the configured extension; the title "Revenue: Q1, 2024!" gives the
    stem "Revenue__Q1__2024_". *)
Theorem title_to_filename_replaces_each (title save_dir : string) :
  (exists stem : string,
      title_to_filename title save_dir = save_dir ++ stem ++ "." ++ format /\
      String.length stem = String.length title /\
      forall i : nat,
        String.get i stem = option_map sanitized (String.get i title)) /\
  title_to_filename "Revenue: Q1, 2024!" save_dir
  = save_dir ++ "Revenue__Q1__2024_.webp".
Proof.
  split; [|reflexivity].
  exists (translate replace_dict title); repeat split.
  - apply translate_length.
  - apply translate_get.
Qed.

(** C10: with [interactive] set, [show_plot] shows the figure and does
    nothing else, whatever [save_only] and [display_only] are: no file name
    is derived, the files on disk are the same, and the only call made is
    [fig.show()]. *)
Theorem show_plot_interactive_saves_nothing
    (fig : figure) (save_only display_only : bool) (save_dir : string)
    (w : plot_world) :
  show_plot (Some fig) save_only display_only save_dir true w
  = (Ok None, mkPlotWorld (disk w) (calls w ++ [EShow fig])).
Proof. reflexivity. Qed.

(** Without [interactive], the other three branches do derive a name and,
    except for [display_only], write the file. *)
Example show_plot_default_saves :
  show_plot (Some (mkFigure (Some "Sales: 2024"))) false false PLOTS
            INTERACTIVE (mkPlotWorld (mkFiles [] (fun _ => true)) [])
  = (Ok None,
     mkPlotWorld (mkFiles ["../screenshots/Sales__2024.webp"] (fun _ => true))
       [ EWriteImage (mkFigure (Some "Sales: 2024"))
                     "../screenshots/Sales__2024.webp" "webp";
         ELoadImage "../screenshots/Sales__2024.webp";
         EDisplay "../screenshots/Sales__2024.webp" ]).
Proof. reflexivity. Qed.

(** ** generate_id_from_field *)

Lemma generate_id_from_field_nonempty (collection : list dict) (field : string) :
  plain_field_name field = true ->
  collection <> [] ->
  generate_id_from_field collection field
  = py_add_one (acc_max (field_values collection field)).
Proof.
  intros Hplain Hne.
  unfold generate_id_from_field, aggregate_max. rewrite Hplain.
  destruct collection as [|d rest]; [congruence|].
  cbn [bind hd_error truthy second_key].
  cbn [dict_get append String.eqb Ascii.eqb Bool.eqb].
  rewrite String.eqb_refl. reflexivity.
Qed.

Lemma generate_id_from_field_empty (field : string) :
  plain_field_name field = true ->
  generate_id_from_field [] field = Ok VNone.
Proof.
  intros Hplain. unfold generate_id_from_field, aggregate_max.
  now rewrite Hplain.
Qed.

Lemma fold_max_step_int (vs : list value) (a : Z) :
  Forall (fun v => v = VNone \/ exists z, v = VInt z) vs ->
  exists m, fold_left max_step vs (VInt a) = VInt m /\
            (m = a \/ In (VInt m) vs) /\
            a <= m /\
            forall z, In (VInt z) vs -> z <= m.
Proof.
  revert a; induction vs as [|v vs IH]; intros a Hall.
  - exists a; simpl; repeat split; auto; try lia; intros z [].
  - inversion Hall as [|? ? Hv Hvs]; subst.
    destruct Hv as [-> | [z ->]].
    + destruct (IH a Hvs) as (m & Hm & Hin & Hle & Hmax).
      exists m; simpl; repeat split; auto.
      * destruct Hin; auto.
      * intros z [Hz | Hz]; [discriminate | auto].
    + simpl. destruct (a ?= z) eqn:Hcmp.
      * apply Z.compare_eq in Hcmp; subst.
        destruct (IH z Hvs) as (m & Hm & Hin & Hle & Hmax).
        exists m; repeat split; auto; try lia.
        -- destruct Hin; subst; auto.
        -- intros z' [Hz | Hz]; [injection Hz as <-; lia | auto].
      * rewrite Z.compare_lt_iff in Hcmp.
        destruct (IH z Hvs) as (m & Hm & Hin & Hle & Hmax).
        exists m; repeat split; auto; try lia.
        -- right. destruct Hin; subst; simpl; auto.
        -- intros z' [Hz | Hz]; [injection Hz as <-; lia | auto].
      * rewrite Z.compare_gt_iff in Hcmp.
        destruct (IH a Hvs) as (m & Hm & Hin & Hle & Hmax).
        exists m; repeat split; auto.
        -- destruct Hin; simpl; auto.
        -- intros z' [Hz | Hz]; [injection Hz as <-; lia | auto].
Qed.

Lemma acc_max_int (vs : list value) :
  Forall (fun v => v = VNone \/ exists z, v = VInt z) vs ->
  (exists z, In (VInt z) vs) ->
  exists m, acc_max vs = VInt m /\ In (VInt m) vs /\
            forall z, In (VInt z) vs -> z <= m.
Proof.
  unfold acc_max.
  induction vs as [|v vs IH]; intros Hall [z0 Hz0]; [contradiction|].
  inversion Hall as [|? ? Hv Hvs]; subst.
  destruct Hv as [-> | [z ->]].
  - destruct Hz0 as [Hz0 | Hz0]; [discriminate|].
    destruct IH as (m & Hm & Hin & Hmax); eauto.
    exists m; simpl; repeat split; auto.
    intros z [Hz | Hz]; [discriminate | auto].
  - simpl. destruct (fold_max_step_int vs z Hvs) as (m & Hm & Hin & Hle & Hmax).
    exists m; repeat split; auto.
    + destruct Hin; subst; simpl; auto.
    + intros z' [Hz | Hz]; [injection Hz as <-; lia | auto].
Qed.

Lemma acc_max_none (vs : list value) :
  Forall (fun v => v = VNone) vs -> acc_max vs = VNone.
Proof.
  unfold acc_max. induction 1 as [|v vs Hv _ IH]; [reflexivity|].
  subst; simpl; exact IH.
Qed.

Lemma field_values_in (collection : list dict) (field : string) (z : Z) :
  In (VInt z) (field_values collection field) <->
  exists d, In d collection /\ dict_get field d = Some (VInt z).
Proof.
  unfold field_values. rewrite in_map_iff. split.
  - intros (d & Hd & Hin). exists d; split; auto.
    destruct (dict_get field d); simpl in Hd; congruence.
  - intros (d & Hin & Hd). exists d; split; auto. now rewrite Hd.
Qed.

(** C1: for a numeric field, [generate_id_from_field] returns [None] on the
    empty collection, and one more than the maximum of the field over the
    documents of the collection when the field has a value there. *)
Theorem generate_id_from_field_max_plus_one
    (collection : list dict) (field : string) :
  numeric_field collection field ->
  (collection = [] -> generate_id_from_field collection field = Ok VNone) /\
  ((exists d z, In d collection /\ dict_get field d = Some (VInt z)) ->
   exists m, max_of_field collection field m /\
             generate_id_from_field collection field = Ok (VInt (m + 1))).
Proof.
  intros [Hplain Hnum]; split.
  - intros ->. now apply generate_id_from_field_empty.
  - intros (d & z & Hin & Hd).
    destruct (acc_max_int _ Hnum) as (m & Hm & Hmin & Hmax).
    { exists z. apply field_values_in; eauto. }
    exists m; split.
    + split.
      * now apply field_values_in.
      * intros d' z' Hin' Hd'. apply Hmax, field_values_in; eauto.
    + rewrite generate_id_from_field_nonempty; auto.
      * now rewrite Hm.
      * intros ->; contradiction.
Qed.

(** The collection of the comment in the source: the maximum is 90 and the
    new identifier 91. *)
Lemma generate_id_from_field_max_plus_one_witness :
  generate_id_from_field
    [ [("order_id", VInt 89)]; [("order_id", VInt 90)]; [("order_id", VInt 7)] ]
    "order_id"
  = Ok (VInt 91).
Proof.
  destruct (generate_id_from_field_max_plus_one
              [ [("order_id", VInt 89)]; [("order_id", VInt 90)];
                [("order_id", VInt 7)] ] "order_id") as [_ H].
  - split; [reflexivity|].
    repeat (apply Forall_cons; [right; eexists; reflexivity|]).
    apply Forall_nil.
  - destruct H as (m & [(d & Hin & Hd) Hmax] & ->).
    + exists [("order_id", VInt 90)], 90; simpl; auto.
    + assert (m = 90); [|subst; reflexivity].
      assert (90 <= m) by (apply (Hmax [("order_id", VInt 90)]); simpl; auto).
      simpl in Hin. destruct Hin as [<- | [<- | [<- | []]]];
        simpl in Hd; injection Hd as <-; lia.
Defined.

(** C9: on a non-empty collection in which no document has a value for the
    field, [generate_id_from_field] raises [TypeError] ([None + 1]); it
    returns [None] for the empty collection only. *)
Theorem generate_id_from_field_missing_field_raises
    (collection : list dict) (field : string) :
  plain_field_name field = true ->
  (collection <> [] ->
   Forall (fun d => value_or_none (dict_get field d) = VNone) collection ->
   generate_id_from_field collection field = Raise TypeError) /\
  (generate_id_from_field collection field = Ok VNone <-> collection = []).
Proof.
  intros Hplain; split.
  - intros Hne Hall.
    rewrite generate_id_from_field_nonempty; auto.
    rewrite acc_max_none; [reflexivity|].
    unfold field_values. now apply Forall_map.
  - split.
    + intros H. destruct collection as [|d rest]; [reflexivity|].
      rewrite generate_id_from_field_nonempty in H; [|auto|discriminate].
      destruct (acc_max _); simpl in H; discriminate.
    + intros ->. now apply generate_id_from_field_empty.
Qed.

Lemma generate_id_from_field_missing_field_raises_witness :
  generate_id_from_field [ [("name", VStr "Alice")]; [("order_id", VNone)] ]
                         "order_id"
  = Raise TypeError.
Proof.
  apply (generate_id_from_field_missing_field_raises
           [ [("name", VStr "Alice")]; [("order_id", VNone)] ] "order_id").
  - reflexivity.
  - discriminate.
  - repeat constructor.
Defined.

(** ** Dictionaries *)

Lemma dict_get_set_same (k : string) (v : value) (d : dict) :
  dict_get k (dict_set k v d) = Some v.
Proof.
  induction d as [|[k' v'] d IH]; simpl.
  - now rewrite String.eqb_refl.
  - destruct (String.eqb k k') eqn:E; simpl; rewrite E; auto.
Qed.

Lemma dict_get_set_other (k k' : string) (v : value) (d : dict) :
  k' <> k -> dict_get k' (dict_set k v d) = dict_get k' d.
Proof.
  intros Hne. induction d as [|[k0 v0] d IH]; simpl.
  - apply String.eqb_neq in Hne. now rewrite Hne.
  - destruct (String.eqb k k0) eqn:E; simpl.
    + apply String.eqb_eq in E; subst k0.
      apply String.eqb_neq in Hne. now rewrite Hne.
    + destruct (String.eqb k' k0); auto.
Qed.

Lemma dict_set_keys (k : string) (v : value) (d : dict) :
  dict_mem k d = true -> map fst (dict_set k v d) = map fst d.
Proof.
  unfold dict_mem. induction d as [|[k' v'] d IH]; simpl; [discriminate|].
  destruct (String.eqb k k') eqn:E; simpl; intros H; [reflexivity|].
  now rewrite IH.
Qed.

(** ** load_json *)

Lemma hex_is_not_space (c : ascii) : is_hex c = true -> is_space c = false.
Proof.
  destruct c as [[] [] [] [] [] [] [] []]; vm_compute; congruence.
Qed.

Lemma bytes_fromhex_digits (n : nat) (s : string) :
  String.length s = (2 * n)%nat -> all_hex s = true ->
  exists bytes, bytes_fromhex s = Some bytes /\ List.length bytes = n.
Proof.
  revert s; induction n as [|n IH]; intros s Hlen Hhex.
  - destruct s; [|discriminate]. exists []; auto.
  - destruct s as [|c [|d s]]; simpl in Hlen; try lia.
    simpl in Hhex.
    apply andb_prop in Hhex as [Hc Hhex]. apply andb_prop in Hhex as [Hd Hhex].
    destruct (IH s) as (bytes & Hb & Hl); [lia | assumption |].
    cbn [bytes_fromhex]. rewrite (hex_is_not_space c Hc).
    unfold is_hex in Hc, Hd.
    destruct (hex_digit c) as [h|]; [|discriminate].
    destruct (hex_digit d) as [l|]; [|discriminate].
    rewrite Hb. eexists; split; [reflexivity|]. simpl; now rewrite Hl.
Qed.

Lemma list_has_no_oid (l : list value) :
  Forall (fun v => v <> VStr "$oid") l ->
  existsb (fun v => match v with
                    | VStr s => String.eqb s "$oid"
                    | _ => false
                    end) l = false.
Proof.
  induction 1 as [|v l Hv _ IH]; simpl; [reflexivity|].
  rewrite IH, orb_false_r.
  destruct v; auto.
  destruct (String.eqb_spec s "$oid"); [subst; congruence | reflexivity].
Qed.

Lemma load_document_wrapped (fresh : list N) (d : dict) (id : value)
    (hex : string) :
  dict_get "_id" d = Some id -> wraps id hex ->
  exists bytes, bytes_fromhex hex = Some bytes /\ List.length bytes = 12%nat /\
    load_document fresh (VDict d)
    = Ok (VDict (dict_set "_id" (VObjectId bytes) d)).
Proof.
  intros Hid (o & -> & Hoid & Hlen & Hhex).
  destruct (bytes_fromhex_digits 12 hex) as (bytes & Hb & Hl); auto.
  exists bytes; repeat split; auto.
  unfold load_document, py_getitem, dict_item, py_in, dict_mem.
  rewrite Hid; cbn [bind]. rewrite Hoid; cbn [bind ObjectId].
  rewrite Hlen, Hb. reflexivity.
Qed.

Lemma load_document_no_oid (fresh : list N) (d : dict) (id : value) :
  dict_get "_id" d = Some id -> holds_no_oid id ->
  load_document fresh (VDict d) = Ok (VDict d).
Proof.
  intros Hid Hno.
  unfold load_document, py_getitem, dict_item. rewrite Hid; cbn [bind].
  destruct id; simpl in Hno; try contradiction; unfold py_in, dict_mem.
  - now rewrite Hno.
  - now rewrite list_has_no_oid.
  - now rewrite Hno.
Qed.

Lemma wraps_excludes_no_oid (id : value) (hex : string) :
  wraps id hex -> holds_no_oid id -> False.
Proof.
  intros (o & -> & Hoid & _) Hno. simpl in Hno. congruence.
Qed.

Lemma wraps_functional (id : value) (hex hex' : string) :
  wraps id hex -> wraps id hex' -> hex = hex'.
Proof.
  intros (o & -> & Hoid & _) (o' & Heq & Hoid' & _).
  injection Heq as <-. congruence.
Qed.

Lemma load_document_loaded (fresh : list N) (d : dict) :
  (exists id, dict_get "_id" d = Some id /\
              ((exists hex, wraps id hex) \/ holds_no_oid id)) ->
  exists d', load_document fresh (VDict d) = Ok (VDict d') /\ id_loaded d d'.
Proof.
  intros (id & Hid & [[hex Hw] | Hno]).
  - destruct (load_document_wrapped fresh d id hex Hid Hw)
      as (bytes & Hb & Hl & Hload).
    eexists; split; [exact Hload|].
    repeat split.
    + apply dict_set_keys. unfold dict_mem. now rewrite Hid.
    + intros k Hk. now apply dict_get_set_other.
    + intros id' hex' Hid' Hw'.
      assert (id' = id) by congruence; subst id'.
      rewrite (wraps_functional _ _ _ Hw' Hw).
      exists bytes; repeat split; auto. apply dict_get_set_same.
    + intros id' Hid' Hnw.
      assert (id' = id) by congruence; subst id'.
      destruct (Hnw hex Hw).
  - exists d; split; [now apply (load_document_no_oid fresh d id)|].
    repeat split; auto.
    intros id' hex' Hid' Hw'.
    assert (id' = id) by congruence; subst id'.
    destruct (wraps_excludes_no_oid _ _ Hw' Hno).
Qed.

Lemma load_documents_loaded (fresh : nat -> list N) (documents : list dict) :
  Forall (fun d => exists id, dict_get "_id" d = Some id /\
                     ((exists hex, wraps id hex) \/ holds_no_oid id))
         documents ->
  forall i, exists documents',
    load_documents fresh i (map VDict documents) = Ok (map VDict documents') /\
    Forall2 id_loaded documents documents'.
Proof.
  induction 1 as [|d documents Hd _ IH]; intros i.
  - exists []; split; [reflexivity | constructor].
  - destruct (load_document_loaded (fresh i) d Hd) as (d' & Hload & Hd').
    destruct (IH (S i)) as (documents' & Hrest & Hall).
    exists (d' :: documents'); split; [|now constructor].
    cbn [map load_documents]. rewrite Hload; cbn [bind].
    rewrite Hrest; reflexivity.
Qed.

(** C7, as stated, fails: a fixture whose document has the integer 7 as
    [_id] (not wrapped) is not loaded with the [_id] unchanged;
    [load_json] raises [TypeError] on it and returns no documents. *)
Lemma load_json_integer_id_raises :
  load_json (fun _ => [])
            (VList (map VDict [ [("_id", VInt 7); ("name", VStr "Alice")] ]))
  = Raise TypeError /\
  ~ exists documents',
      load_json (fun _ => [])
                (VList (map VDict [ [("_id", VInt 7); ("name", VStr "Alice")] ]))
      = Ok (VList (map VDict documents')) /\
      Forall2 id_loaded [ [("_id", VInt 7); ("name", VStr "Alice")] ] documents'.
Proof.
  split; [reflexivity|].
  intros (documents' & Hload & _). discriminate Hload.
Qed.

(** C7, amended: for every fixture whose documents each carry an [_id] that
    is either wrapped in the object-id representation or a container
    without ["$oid"] (an object without that member, a string without that
    text, an array without that element), [load_json] returns the
    documents with every wrapped [_id] converted to the [ObjectId] of its 24
    digits, every other [_id] unchanged, and all other fields unchanged. *)
Theorem load_json_converts_wrapped_ids
    (fresh : nat -> list N) (documents : list dict) :
  Forall (fun d => exists id, dict_get "_id" d = Some id /\
                     ((exists hex, wraps id hex) \/ holds_no_oid id))
         documents ->
  exists documents',
    load_json fresh (VList (map VDict documents))
    = Ok (VList (map VDict documents')) /\
    Forall2 id_loaded documents documents'.
Proof.
  intros Hall.
  destruct (load_documents_loaded fresh documents Hall 0%nat)
    as (documents' & Hload & Hall').
  exists documents'; split; auto.
  cbn [load_json]. rewrite Hload. reflexivity.
Qed.

Lemma load_json_converts_wrapped_ids_witness :
  exists documents',
    load_json (fun _ => [])
      (VList (map VDict
         [ [("_id", VDict [("$oid", VStr "5f8d0d55b54764421b7156c3")]);
            ("customer_id", VInt 1)];
           [("_id", VDict [("n", VInt 2)]); ("customer_id", VInt 2)] ]))
    = Ok (VList (map VDict documents')) /\
    Forall2 id_loaded
      [ [("_id", VDict [("$oid", VStr "5f8d0d55b54764421b7156c3")]);
         ("customer_id", VInt 1)];
        [("_id", VDict [("n", VInt 2)]); ("customer_id", VInt 2)] ]
      documents'.
Proof.
  apply load_json_converts_wrapped_ids.
  apply Forall_cons; [|apply Forall_cons; [|apply Forall_nil]].
  - eexists; split; [reflexivity|]. left.
    exists "5f8d0d55b54764421b7156c3", [("$oid", VStr "5f8d0d55b54764421b7156c3")].
    repeat split.
  - eexists; split; [reflexivity|]. right. reflexivity.
Defined.

(** An [_id] that is a number, a boolean or [null] is not a container:
    the first such document stops the loading with [TypeError]. *)
Lemma load_json_scalar_id_raises
    (fresh : nat -> list N) (d : dict) (rest : list value) (id : value) :
  dict_get "_id" d = Some id ->
  (id = VNone \/ (exists b, id = VBool b) \/ exists z, id = VInt z) ->
  load_json fresh (VList (VDict d :: rest)) = Raise TypeError.
Proof.
  intros Hid Hscalar.
  cbn [load_json load_documents].
  unfold load_document, py_getitem, dict_item. rewrite Hid; cbn [bind].
  destruct Hscalar as [-> | [[b ->] | [z ->]]]; reflexivity.
Qed.

(** ** strptime and convert_date *)

(** The head of the matches of a sequence is the head of the matches of the
    continuation after the first match of the first part, when there is
    one. *)
Lemma p_bind_first {A B : Type} (p : parser A) (k : A -> parser B)
    (s s' : string) (a : A) (tl : list (A * string)) (r : B * string)
    (tl' : list (B * string)) :
  p s = (a, s') :: tl -> k a s' = r :: tl' ->
  exists tl'', p_bind p k s = r :: tl''.
Proof.
  intros Hp Hk. unfold p_bind. rewrite Hp; cbn [flat_map]. rewrite Hk.
  eexists; reflexivity.
Qed.

Lemma below_100_cases (n : Z) :
  0 <= n < 100 -> exists k : nat, (k < 100)%nat /\ n = Z.of_nat k.
Proof. intros H. exists (Z.to_nat n); lia. Qed.

Ltac by_cases_below k :=
  repeat (destruct k as [|k]; [eexists; reflexivity|]); exfalso; lia.

(** Two digits written by [pad2] are read back by the parsers of the
    fields. *)
Lemma p_two_pad2 (n : Z) (rest : string) :
  0 <= n < 100 -> exists tl, p_two 0 9 0 9 (pad2 n rest) = (n, rest) :: tl.
Proof.
  intros H. destruct (below_100_cases n H) as (k & Hk & ->).
  by_cases_below k.
Qed.

Lemma p_m_pad2 (n : Z) (rest : string) :
  1 <= n <= 12 -> exists tl, p_m (pad2 n rest) = (n, rest) :: tl.
Proof.
  intros H. destruct (below_100_cases n) as (k & Hk & ->); [lia|].
  destruct k as [|k]; [exfalso; lia|].
  by_cases_below k.
Qed.

Lemma p_d_pad2 (n : Z) (rest : string) :
  1 <= n <= 31 -> exists tl, p_d (pad2 n rest) = (n, rest) :: tl.
Proof.
  intros H. destruct (below_100_cases n) as (k & Hk & ->); [lia|].
  destruct k as [|k]; [exfalso; lia|].
  by_cases_below k.
Qed.

Lemma p_H_pad2 (n : Z) (rest : string) :
  0 <= n <= 23 -> exists tl, p_H (pad2 n rest) = (n, rest) :: tl.
Proof.
  intros H. destruct (below_100_cases n) as (k & Hk & ->); [lia|].
  by_cases_below k.
Qed.

Lemma p_M_pad2 (n : Z) (rest : string) :
  0 <= n <= 59 -> exists tl, p_M (pad2 n rest) = (n, rest) :: tl.
Proof.
  intros H. destruct (below_100_cases n) as (k & Hk & ->); [lia|].
  by_cases_below k.
Qed.

Lemma p_S_pad2 (n : Z) (rest : string) :
  0 <= n <= 59 -> exists tl, p_S (pad2 n rest) = (n, rest) :: tl.
Proof.
  intros H. destruct (below_100_cases n) as (k & Hk & ->); [lia|].
  by_cases_below k.
Qed.

Lemma p_Y_pad4 (n : Z) (rest : string) :
  0 <= n <= 9999 -> exists tl, p_Y (pad4 n rest) = (n, rest) :: tl.
Proof.
  intros H. unfold p_Y, pad4.
  destruct (p_two_pad2 (n / 100) (pad2 (n mod 100) rest)) as [tl1 E1].
  { split; [apply Z.div_pos; lia | apply Z.div_lt_upper_bound; lia]. }
  destruct (p_two_pad2 (n mod 100) rest) as [tl2 E2].
  { apply Z.mod_pos_bound; lia. }
  eapply p_bind_first; [exact E1|].
  unfold p_bind at 1. rewrite E2; cbn [flat_map p_ret app].
  rewrite <- (Z.div_mod n 100) by lia. reflexivity.
Qed.

Lemma p_char_same (c : ascii) (rest : string) :
  p_char c (String c rest) = [(tt, rest)].
Proof. unfold p_char. now rewrite Ascii.eqb_refl. Qed.

Lemma p_bind_char {B : Type} (c : ascii) (k : unit -> parser B)
    (rest : string) (r : B * string) :
  (exists tl, k tt rest = r :: tl) ->
  exists tl, p_bind (p_char c) k (String c rest) = r :: tl.
Proof.
  intros [tl Hk]. eapply p_bind_first; [apply p_char_same | exact Hk].
Qed.

Lemma p_bind_letter {B : Type} (upper lower : ascii) (k : unit -> parser B)
    (rest : string) (r : B * string) :
  (exists tl, k tt rest = r :: tl) ->
  exists tl, p_bind (p_letter upper lower) k (String upper rest) = r :: tl.
Proof.
  intros [tl Hk]. eapply p_bind_first; [|exact Hk].
  unfold p_letter, p_alt. rewrite p_char_same. reflexivity.
Qed.

Lemma p_bind_field {B : Type} (p : parser Z) (k : Z -> parser B)
    (s rest : string) (n : Z) (r : B * string) :
  (exists tl, p s = (n, rest) :: tl) ->
  (exists tl, k n rest = r :: tl) ->
  exists tl, p_bind p k s = r :: tl.
Proof. intros [tl Hp] [tl' Hk]. eapply p_bind_first; eauto. Qed.

Lemma valid_datetime_ranges (t : datetime) :
  valid_datetime t = true ->
  1 <= dt_year t <= 9999 /\ 1 <= dt_month t <= 12 /\
  1 <= dt_day t <= days_in_month (dt_year t) (dt_month t) /\
  0 <= dt_hour t <= 23 /\ 0 <= dt_minute t <= 59 /\ 0 <= dt_second t <= 59.
Proof.
  unfold valid_datetime. rewrite !andb_true_iff, !Z.leb_le. tauto.
Qed.

Lemma days_in_month_le_31 (y m : Z) : days_in_month y m <= 31.
Proof.
  unfold days_in_month.
  destruct (m =? 2); [destruct (is_leap y); lia|].
  destruct ((m =? 4) || (m =? 6) || (m =? 9) || (m =? 11)); lia.
Qed.

Lemma p_timestamp_isoformat (t : datetime) :
  valid_datetime t = true ->
  exists tl, p_timestamp (isoformat_z t) = (t, EmptyString) :: tl.
Proof.
  intros Hv. apply valid_datetime_ranges in Hv.
  destruct Hv as (HY & Hm & Hd & HH & HM & HS).
  pose proof (days_in_month_le_31 (dt_year t) (dt_month t)) as H31.
  destruct t as [Y m d H M S]; cbn [dt_year dt_month dt_day dt_hour dt_minute
                                    dt_second] in *.
  unfold p_timestamp, isoformat_z;
    cbn [dt_year dt_month dt_day dt_hour dt_minute dt_second].
  eapply p_bind_field; [apply p_Y_pad4; lia|].
  apply p_bind_char.
  eapply p_bind_field; [apply p_m_pad2; lia|].
  apply p_bind_char.
  eapply p_bind_field; [apply p_d_pad2; lia|].
  apply p_bind_letter.
  eapply p_bind_field; [apply p_H_pad2; lia|].
  apply p_bind_char.
  eapply p_bind_field; [apply p_M_pad2; lia|].
  apply p_bind_char.
  eapply p_bind_field; [apply p_S_pad2; lia|].
  apply p_bind_letter.
  eexists; reflexivity.
Qed.

(** Reading the timestamp of a valid [datetime] gives that [datetime]. *)
Lemma strptime_isoformat (t : datetime) :
  valid_datetime t = true -> strptime_str (isoformat_z t) = Ok t.
Proof.
  intros Hv. unfold strptime_str.
  destruct (p_timestamp_isoformat t Hv) as [tl ->]. now rewrite Hv.
Qed.

Example strptime_docstring :
  strptime (VStr "2024-12-20T10:00:00Z")
  = Ok (VDatetime (mkDatetime 2024 12 20 10 0 0)).
Proof. reflexivity. Qed.

(** The format is read without regard to case and with one digit where two
    are usual; a day the month does not have, a second beyond 59 and text
    after the [Z] are refused. *)
Example strptime_corner_cases :
  strptime_str "2024-2-29t7:5:9z" = Ok (mkDatetime 2024 2 29 7 5 9) /\
  strptime_str "2023-02-29T07:05:09Z" = Raise ValueError /\
  strptime_str "2024-12-20T10:00:60Z" = Raise ValueError /\
  strptime_str "2024-12-20T10:00:00Z " = Raise ValueError /\
  strptime_str "2024-13-20T10:00:00Z" = Raise ValueError /\
  strptime_str "2024-12-20" = Raise ValueError.
Proof. repeat split; reflexivity. Qed.

Lemma convert_field_converted (k : string) (d : dict) :
  (forall v, dict_get k d = Some v ->
             exists s t, v = VStr s /\ strptime_str s = Ok t) ->
  exists d', convert_field k d = Ok d' /\ field_converted k d d'.
Proof.
  intros Hwell. unfold convert_field, dict_mem, dict_item.
  destruct (dict_get k d) as [v|] eqn:Hget.
  - destruct (Hwell v eq_refl) as (s & t & -> & Hparse).
    cbn [bind strptime]. rewrite Hparse; cbn [bind].
    eexists; split; [reflexivity|]. repeat split.
    + apply dict_set_keys. unfold dict_mem. now rewrite Hget.
    + intros k' Hk'. now apply dict_get_set_other.
    + congruence.
    + intros s' Hs'. assert (s' = s) by congruence; subst s'.
      exists t; split; auto. apply dict_get_set_same.
  - exists d; split; [reflexivity|]. repeat split; auto. congruence.
Qed.

Lemma convert_document_converted (d : dict) :
  well_dated d ->
  exists d', convert_document d = Ok d' /\ dates_converted d d'.
Proof.
  intros Hwell. unfold convert_document.
  destruct (convert_field_converted "order_date" d)
    as (d1 & E1 & Hk1 & Ho1 & Hn1 & Hs1).
  { intros v Hv. apply (Hwell "order_date"); simpl; auto. }
  destruct (convert_field_converted "delivery_date" d1)
    as (d2 & E2 & Hk2 & Ho2 & Hn2 & Hs2).
  { intros v Hv. rewrite Ho1 in Hv by discriminate.
    apply (Hwell "delivery_date"); simpl; auto. }
  rewrite E1; cbn [bind]. exists d2; split; [exact E2|].
  split; [congruence|]. split.
  - intros k Hk. rewrite Ho2, Ho1; auto.
    + intros ->; apply Hk; simpl; auto.
    + intros ->; apply Hk; simpl; auto.
  - intros k s [<- | [<- | []]] Hget.
    + destruct (Hs1 s Hget) as (t & Hparse & Hget1).
      exists t; repeat split; auto.
      * rewrite Ho2 by discriminate. exact Hget1.
      * intros t0 Hv ->. rewrite strptime_isoformat in Hparse by exact Hv.
        congruence.
    + rewrite <- Ho1 in Hget by discriminate.
      destruct (Hs2 s Hget) as (t & Hparse & Hget2).
      exists t; repeat split; auto.
      intros t0 Hv ->. rewrite strptime_isoformat in Hparse by exact Hv.
      congruence.
Qed.

Lemma convert_field_inv (k : string) (d d' : dict) :
  convert_field k d = Ok d' ->
  (forall v, dict_get k d = Some v ->
             exists s t, v = VStr s /\ strptime_str s = Ok t) /\
  (forall k', k' <> k -> dict_get k' d' = dict_get k' d).
Proof.
  unfold convert_field, dict_mem, dict_item.
  destruct (dict_get k d) as [v|] eqn:Hget; cbn [bind].
  - destruct v; cbn [strptime bind]; try discriminate.
    destruct (strptime_str s) as [t|e] eqn:Hparse; cbn [bind];
      [|discriminate].
    intros H; injection H as <-. split.
    + intros v Hv; injection Hv as <-. eauto.
    + intros k' Hk'. now apply dict_get_set_other.
  - intros H; injection H as <-. split; [discriminate | reflexivity].
Qed.

(** [convert_date] returns exactly on the lists whose dates are all strings
    in the format; on every other list it raises. *)
Lemma convert_date_returns_iff (json_data : list dict) :
  (exists converted, convert_date json_data = Ok converted) <->
  Forall well_dated json_data.
Proof.
  split.
  - induction json_data as [|d rest IH]; intros [converted H];
      [constructor|].
    cbn [convert_date] in H.
    destruct (convert_document d) as [d'|e] eqn:Hd; cbn [bind] in H;
      [|discriminate].
    destruct (convert_date rest) as [rest'|e] eqn:Hrest; cbn [bind] in H;
      [|discriminate].
    constructor; [|apply IH; eauto].
    unfold convert_document in Hd.
    destruct (convert_field "order_date" d) as [d1|e] eqn:H1; cbn [bind] in Hd;
      [|discriminate].
    apply convert_field_inv in H1 as [Hw1 Ho1].
    apply convert_field_inv in Hd as [Hw2 _].
    intros k v [<- | [<- | []]] Hv; [now apply Hw1|].
    apply Hw2. rewrite Ho1 by discriminate. exact Hv.
  - induction 1 as [|d rest Hd _ (converted & Hrest)];
      [exists []; reflexivity|].
    destruct (convert_document_converted d Hd) as (d' & Hconv & _).
    exists (d' :: converted). cbn [convert_date].
    rewrite Hconv; cbn [bind]. now rewrite Hrest.
Qed.



Example convert_date_docstring :
  convert_date
    [ [("order_date", VStr "2024-12-20T10:00:00Z");
       ("delivery_date", VStr "2024-12-21T15:30:00Z")] ]
  = Ok [ [("order_date", VDatetime (mkDatetime 2024 12 20 10 0 0));
          ("delivery_date", VDatetime (mkDatetime 2024 12 21 15 30 0))] ].
Proof. reflexivity. Qed.

(** A date that is not a string in the format stops the conversion. *)
Example convert_date_raises :
  convert_date [ [("order_date", VStr "2024-12-20")] ] = Raise ValueError /\
  convert_date [ [("order_date", VInt 20241220)] ] = Raise TypeError.
Proof. split; reflexivity. Qed.

(** ** Revenue by category *)

















(** Two categories, one of them sold through two products; an order item
    without product does not count. *)
Example revenue_by_category_example :
  revenue_by_category
    [ mkProduct 101 "Laptop" "Electronics" 1200;
      mkProduct 102 "Desk" "Furniture" 300;
      mkProduct 103 "Phone" "Electronics" 800 ]
    [ mkOrderItem 1 1 102 12 300; mkOrderItem 2 1 101 2 1200;
      mkOrderItem 3 2 103 1 800; mkOrderItem 4 2 999 5 10 ]
  = [ mkRevenueRow "Furniture" 3600; mkRevenueRow "Electronics" 3200 ].
Proof. reflexivity. Qed.

(** ** The transaction *)

Lemma mbind_inv {A B : Type} (m : M A) (k : A -> M B) (w w' : world)
    (r : result B) :
  mbind m k w = (r, w') ->
  (exists a w1, m w = (Ok a, w1) /\ k a w1 = (r, w')) \/
  (exists e, m w = (Raise e, w') /\ r = Raise e).
Proof.
  unfold mbind. destruct (m w) as [[a | e] w1]; intros H.
  - left; eauto.
  - right; exists e. injection H as <- <-. auto.
Qed.

Lemma lift_inv {A : Type} (r0 : result A) (w w' : world) (r : result A) :
  lift r0 w = (r, w') -> r = r0 /\ w' = w.
Proof. unfold lift. intros H; injection H as <- <-. auto. Qed.

Lemma frames_refl (w : world) : frames w w.
Proof. repeat split. Qed.

Lemma frames_trans (w1 w2 w3 : world) :
  frames w1 w2 -> frames w2 w3 -> frames w1 w3.
Proof. unfold frames. intros (-> & -> & ->) (-> & -> & ->). auto. Qed.

Lemma firstn_plus {A : Type} (a b : nat) (l : list A) :
  firstn (a + b) l = (firstn a l ++ firstn b (skipn a l))%list.
Proof.
  revert l; induction a as [|a IH]; intros l; [reflexivity|].
  destruct l as [|x l]; cbn [Nat.add firstn skipn app].
  - now destruct b.
  - now rewrite IH.
Qed.

Lemma consumed_refl (w : world) : consumed 0 w w.
Proof. split; [reflexivity | intros []]. Qed.

Lemma consumed_trans (a b : nat) (w1 w2 w3 : world) :
  consumed a w1 w2 -> consumed b w2 w3 -> consumed (a + b) w1 w3.
Proof.
  unfold consumed. intros [Hn1 Hf1] [Hn2 Hf2]. split.
  - rewrite Hn2, Hn1, skipn_skipn. f_equal. apply Nat.add_comm.
  - rewrite firstn_plus, in_app_iff, <- Hn1. tauto.
Qed.

Lemma request_inv (w w' : world) (r : result unit) :
  request w = (r, w') ->
  frames w w' /\ transaction w' = transaction w /\
  forall u, r = Ok u -> consumed 1 w w'.
Proof.
  unfold request, frames, consumed.
  destruct (network w) as [|[] rest] eqn:Hnet; intros H;
    injection H as <- <-; cbn [db stdout transaction network session];
    repeat split; auto; try discriminate; rewrite ?Hnet; cbn;
    try reflexivity; intuition discriminate.
Qed.

Lemma read_committed_inv {A : Type} (f : database -> result A) (w w' : world)
    (r : result A) :
  read_committed f w = (r, w') ->
  frames w w' /\ transaction w' = transaction w /\
  forall a, r = Ok a -> f (db w) = Ok a /\ consumed 1 w w'.
Proof.
  unfold read_committed. intros H.
  apply mbind_inv in H as [(u & w1 & Hreq & Hk) | (e & Hreq & ->)].
  - apply request_inv in Hreq as ((Hdb & Hout & Hses) & Htx & Hnet).
    injection Hk as <- <-. unfold frames. rewrite Hdb.
    repeat split; auto; now apply (Hnet u).
  - apply request_inv in Hreq as (Hfr & Htx & _).
    split; [exact Hfr|]. split; [exact Htx | discriminate].
Qed.

Lemma insert_one_inv (c : collection_name) (d : dict) (w w' : world)
    (r : result unit) :
  insert_one c d w = (r, w') ->
  frames w w' /\
  forall u, r = Ok u ->
            transaction w' = (transaction w ++ [(c, d)])%list /\
            validator c d = true /\
            consumed 1 w w'.
Proof.
  unfold insert_one. destruct (encodable d).
  - intros H.
    apply mbind_inv in H as [(u & w1 & Hreq & Hk) | (e & Hreq & ->)].
    + apply request_inv in Hreq as ((Hdb & Hout & Hses) & Htx & Hnet).
      specialize (Hnet u eq_refl).
      destruct (validator c d); cbn [negb] in Hk.
      * destruct (unique_ok c d _); cbn [negb] in Hk;
          injection Hk as <- <-; unfold frames;
          cbn [db stdout transaction session];
          rewrite ?Htx; repeat split; auto; try discriminate.
        -- apply Hnet.
        -- apply Hnet.
      * injection Hk as <- <-. unfold frames. repeat split; auto; discriminate.
    + apply request_inv in Hreq as (Hfr & Htx & _). split; auto. discriminate.
  - unfold raise. intros H; injection H as <- <-.
    split; [apply frames_refl | discriminate].
Qed.

Lemma insert_order_items_inv (order_id : value) (product_orders : list dict) :
  forall (w w' : world) (r : result unit),
    insert_order_items order_id product_orders w = (r, w') ->
    frames w w' /\
    forall u, r = Ok u ->
      consumed (2 * List.length product_orders) w w' /\
      exists new_items,
        transaction w'
        = (transaction w ++ map (fun d => (OrderItems, d)) new_items)%list /\
        Forall2 (order_item_for order_id (order_items (db w)))
                product_orders new_items /\
        Forall (fun item => order_items_validator item = true) new_items.
Proof.
  induction product_orders as [|product rest IH]; intros w w' r H.
  - cbn [insert_order_items] in H. unfold ret in H. injection H as <- <-.
    split; [apply frames_refl|]. intros _ _.
    split; [apply consumed_refl|]. exists [].
    cbn [map]. rewrite app_nil_r. repeat split; constructor.
  - cbn [insert_order_items] in H.
    apply mbind_inv in H as [(product_id & w1 & H1 & H) | (e & H1 & ->)];
      apply lift_inv in H1 as [Hpid ->];
      [|split; [apply frames_refl | discriminate]].
    apply mbind_inv in H as [(quantity & w2 & H2 & H) | (e & H2 & ->)];
      apply lift_inv in H2 as [Hq ->];
      [|split; [apply frames_refl | discriminate]].
    apply mbind_inv in H as [(order_item_id & w3 & H3 & H) | (e & H3 & ->)];
      apply read_committed_inv in H3 as (Hf3 & Htx3 & Hid);
      [|split; [exact Hf3 | discriminate]].
    apply mbind_inv in H as [(price & w4 & H4 & H) | (e & H4 & ->)];
      apply lift_inv in H4 as [Hpr ->];
      [|split; [exact Hf3 | discriminate]].
    apply mbind_inv in H as [(u5 & w5 & H5 & H) | (e & H5 & ->)];
      apply insert_one_inv in H5 as (Hf5 & Hins);
      [|split; [exact (frames_trans _ _ _ Hf3 Hf5) | discriminate]].
    apply IH in H as (Hf6 & Hrest).
    pose proof (frames_trans _ _ _ Hf3 Hf5) as Hf35.
    split; [exact (frames_trans _ _ _ Hf35 Hf6)|].
    intros u ->.
    destruct (Hrest u eq_refl) as (Hnet6 & items & Htx & Hall & Hvalid).
    destruct (Hins u5 eq_refl) as (Htx5 & Hval5 & Hnet5).
    destruct (Hid order_item_id eq_refl) as (Hgen & Hnet3).
    split.
    + replace (2 * List.length (product :: rest))%nat
        with (1 + (1 + 2 * List.length rest))%nat by (cbn [List.length]; lia).
      eapply consumed_trans; [exact Hnet3|].
      eapply consumed_trans; [exact Hnet5 | exact Hnet6].
    + eexists (_ :: items); repeat split.
      * rewrite Htx, Htx5, Htx3, <- app_assoc. reflexivity.
      * constructor.
        -- exists order_item_id, product_id, quantity, price.
           unfold dict_item in Hpid, Hq, Hpr.
           destruct (dict_get "product_id" product); [|discriminate].
           destruct (dict_get "quantity" product); [|discriminate].
           destruct (dict_get "price" product); [|discriminate].
           repeat split; auto; congruence.
        -- destruct Hf35 as [Hdb _]. rewrite Hdb in Hall. exact Hall.
      * constructor; auto.
Qed.

Lemma commit_order_items (items : list dict) (db0 : database) :
  fold_left (fun db '(c, d) => store c d db)
            (map (fun d => (OrderItems, d)) items) db0
  = mkDatabase (customers db0) (products db0) (orders db0)
               (order_items db0 ++ items).
Proof.
  revert db0; induction items as [|item items IH]; intros db0;
    cbn [map fold_left].
  - rewrite app_nil_r. now destruct db0.
  - rewrite IH. cbn [store customers products orders order_items].
    now rewrite <- app_assoc.
Qed.

(** [request] either succeeds or fails with [ConnectionFailure], as the
    next entry of [network] says. *)
Lemma request_cases (w : world) :
  (exists w', request w = (Ok tt, w') /\ frames w w' /\
              transaction w' = transaction w /\ consumed 1 w w') \/
  (exists w', request w = (Raise ConnectionFailure, w') /\ frames w w' /\
              transaction w' = transaction w /\
              hd_error (network w) = Some true /\
              network w' = skipn 1 (network w)).
Proof.
  unfold request, frames, consumed.
  destruct (network w) as [|[] rest] eqn:Hnet.
  - left; exists w. rewrite Hnet. repeat split; auto.
  - right; eexists. split; [reflexivity|].
    cbn [db stdout transaction network session]. repeat split.
  - left; eexists. split; [reflexivity|].
    cbn [db stdout transaction network session firstn skipn In].
    repeat split; auto. intuition discriminate.
Qed.

(** How the [try] statement of [create_order] ends: with the order
    committed, with the commit failed, or with an exception before the
    commit, which leaves the transaction in progress. *)
Lemma create_order_try_run (customer_id : Z) (product_orders : list dict)
    (w0 w' : world) (r : result unit) :
  session w0 = TxnInProgress ->
  transaction w0 = [] ->
  create_order_try customer_id product_orders w0 = (r, w') ->
  (exists order_id new_items,
      generate_id_from_field (orders (db w0)) "order_id" = Ok order_id /\
      Forall2 (order_item_for order_id (order_items (db w0)))
              product_orders new_items /\
      orders_validator (new_order order_id customer_id) = true /\
      Forall (fun item => order_items_validator item = true) new_items /\
      session w' = TxnCommitted /\
      ((r = Ok tt /\
        db w' = mkDatabase (customers (db w0)) (products (db w0))
                  (orders (db w0) ++ [new_order order_id customer_id])
                  (order_items (db w0) ++ new_items) /\
        transaction w' = [] /\
        stdout w' = (stdout w0 ++ [Created order_id])%list /\
        consumed (3 + 2 * List.length product_orders) w0 w')
       \/
       (r = Raise ConnectionFailure /\
        db w' = db w0 /\
        stdout w' = stdout w0 /\
        ~ In true (firstn (2 + 2 * List.length product_orders) (network w0)) /\
        nth_error (network w0) (2 + 2 * List.length product_orders)
        = Some true /\
        network w'
        = skipn (3 + 2 * List.length product_orders) (network w0)))) \/
  (exists e, r = Raise e /\ frames w0 w').
Proof.
  intros Hses0 Htx0 Hrun. unfold create_order_try in Hrun.
  apply mbind_inv in Hrun as [(order_id & w1 & H1 & H) | (e & H1 & ->)];
    apply read_committed_inv in H1 as (Hf1 & Htx1 & Hid);
    [|right; exists e; auto].
  apply mbind_inv in H as [(order_date & w2 & H2 & H) | (e & H2 & ->)];
    apply lift_inv in H2 as [Hdate ->];
    [|right; exists e; auto].
  vm_compute in Hdate. injection Hdate as ->.
  apply mbind_inv in H as [(u3 & w3 & H3 & H) | (e & H3 & ->)];
    apply insert_one_inv in H3 as (Hf3 & Hins);
    [|right; exists e; split; [reflexivity|];
      exact (frames_trans _ _ _ Hf1 Hf3)].
  pose proof (frames_trans _ _ _ Hf1 Hf3) as Hf13.
  apply mbind_inv in H as [(u4 & w4 & H4 & H) | (e & H4 & ->)];
    apply insert_order_items_inv in H4 as (Hf4 & Hitems);
    [|right; exists e; split; [reflexivity|];
      exact (frames_trans _ _ _ Hf13 Hf4)].
  destruct (frames_trans _ _ _ Hf13 Hf4) as (Hdb4 & Hout4 & Hses4).
  destruct (Hid order_id eq_refl) as (Hgen & Hnet1).
  destruct (Hins u3 eq_refl) as (Htx3 & Hval3 & Hnet3).
  destruct (Hitems u4 eq_refl) as (Hnet4 & new_items & Htx4 & Hall & Hvalid).
  assert (Hnet : consumed (2 + 2 * List.length product_orders) w0 w4).
  { change (2 + 2 * List.length product_orders)%nat
      with (1 + (1 + 2 * List.length product_orders))%nat.
    eapply consumed_trans; [exact Hnet1|].
    eapply consumed_trans; [exact Hnet3 | exact Hnet4]. }
  destruct Hf13 as (Hdb3 & _). rewrite Hdb3 in Hall.
  left; exists order_id, new_items.
  do 4 (split; [assumption|]).
  apply mbind_inv in H as [(u5 & w5 & H5 & H) | (e & H5 & ->)];
    unfold commit_transaction in H5; rewrite Hses4, Hses0 in H5;
    set (w4' := mkWorld (db w4) (transaction w4) TxnCommitted (network w4)
                        (stdout w4)) in H5;
    destruct (request_cases w4')
      as [(w6 & Hreq & (Hdb6 & Hout6 & Hses6) & Htx6 & Hnet6)
         | (w6 & Hreq & (Hdb6 & Hout6 & Hses6) & Htx6 & Hhd & Hnet6)];
    rewrite (mbind_ok _ _ _ _ _ Hreq) in H5
    || (unfold mbind in H5; rewrite Hreq in H5);
    try discriminate.
  - injection H5 as _ <-. unfold print in H. injection H as <- <-.
    cbn [db transaction stdout session network].
    split; [reflexivity|]. left. split; [reflexivity|].
    rewrite Htx6, Hdb6, Hout6. cbn [db transaction stdout w4'].
    rewrite Htx4, Htx3, Htx1, Htx0. cbn [app fold_left].
    rewrite commit_order_items, Hdb4, Hout4.
    cbn [store customers products orders order_items].
    repeat split.
    + destruct Hnet as [Hn Hf]. destruct Hnet6 as [Hn6 Hf6].
      rewrite Hn6. cbn [network w4']. rewrite Hn, skipn_skipn.
      f_equal.
    + destruct Hnet as [Hn Hf]. destruct Hnet6 as [Hn6 Hf6].
      cbn [network w4'] in Hf6. rewrite Hn in Hf6.
      change (3 + 2 * List.length product_orders)%nat
        with (S (2 + 2 * List.length product_orders))%nat.
      replace (S (2 + 2 * List.length product_orders))%nat
        with ((2 + 2 * List.length product_orders) + 1)%nat by lia.
      rewrite firstn_plus, in_app_iff. tauto.
  - injection H5 as <- <-.
    split; [now rewrite Hses6|]. right. split; [reflexivity|].
    rewrite Hdb6, Hout6. cbn [db stdout w4'].
    destruct Hnet as [Hn Hf].
    repeat split; auto.
    + rewrite <- hd_error_skipn, <- Hn. exact Hhd.
    + rewrite Hnet6. cbn [network w4']. rewrite Hn, skipn_skipn. f_equal.
Qed.

(** What a call of [create_order] leaves behind: the order and its items;
    or nothing but the error message; or, when the commit failed, nothing
    at all, and the exception of the handler. *)
Lemma create_order_run (customer_id : Z) (product_orders : list dict)
    (w : world) :
  (exists order_id new_items,
      fst (create_order customer_id product_orders w) = Ok tt /\
      order_created customer_id product_orders w
        (snd (create_order customer_id product_orders w)) order_id new_items) \/
  (exists e,
      fst (create_order customer_id product_orders w) = Ok tt /\
      order_aborted w (snd (create_order customer_id product_orders w)) e) \/
  (exists order_id new_items,
      fst (create_order customer_id product_orders w)
      = Raise InvalidOperation /\
      order_uncommitted customer_id product_orders w
        (snd (create_order customer_id product_orders w)) order_id new_items).
Proof.
  unfold create_order, try_except.
  set (w0 := start_transaction w).
  destruct (create_order_try customer_id product_orders w0) as [r w'] eqn:Hrun.
  apply create_order_try_run in Hrun; [|reflexivity|reflexivity].
  destruct Hrun
    as [(order_id & new_items & Hid & Hall & Hval & Hvals & Hses
         & [(-> & Hdb & Htx & Hout & Hnet)
           | (-> & Hdb & Hout & Hnet & Hfail & Hrest)])
       | (e & -> & Hdb & Hout & Hses)].
  - left; exists order_id, new_items. cbn [fst snd].
    split; [reflexivity|]. unfold order_created, end_session.
    cbn [db transaction stdout]. rewrite Hdb, Hout.
    repeat split; auto; apply Hnet.
  - right; right; exists order_id, new_items.
    unfold mbind, abort_transaction. rewrite Hses. cbn [fst snd].
    split; [reflexivity|]. unfold order_uncommitted, end_session.
    cbn [db transaction stdout network]. rewrite Hdb, Hout.
    repeat split; auto.
  - right; left; exists e.
    unfold mbind, abort_transaction. rewrite Hses. cbn [session w0 start_transaction].
    unfold print. cbn [fst snd]. split; [reflexivity|].
    unfold order_aborted, end_session. cbn [db transaction stdout].
    rewrite Hdb, Hout. repeat split.
Qed.

(** When the [try] statement of [create_order] is left, the transaction
    is not in progress any more. *)
Lemma create_order_try_left (customer_id : Z) (product_orders : list dict)
    (w : world) :
  session (snd (try_except
                  (create_order_try customer_id product_orders)
                  (fun e => abort_transaction ;;; print (Oops e))%db
                  (start_transaction w)))
  <> TxnInProgress.
Proof.
  unfold try_except.
  destruct (create_order_try customer_id product_orders (start_transaction w))
    as [r w'] eqn:Hrun.
  apply create_order_try_run in Hrun; [|reflexivity|reflexivity].
  destruct Hrun
    as [(order_id & new_items & _ & _ & _ & _ & Hses
         & [(-> & _) | (-> & _)])
       | (e & -> & _ & _ & Hses)];
    unfold mbind, abort_transaction; rewrite ?Hses;
    cbn [fst snd session start_transaction print]; rewrite ?Hses;
    discriminate.
Qed.


Lemma order_item_for_order_item_id (order_id : value) (committed : list dict)
    (product item : dict) :
  order_item_for order_id committed product item ->
  exists id, generate_id_from_field committed "order_item_id" = Ok id /\
             dict_get "order_item_id" item = Some id.
Proof. intros (id & ? & ? & ? & Hid & _ & _ & _ & ->). eauto. Qed.

Lemma Forall2_right {A B : Type} (R : A -> B -> Prop) (P : B -> Prop)
    (l : list A) (l' : list B) :
  (forall a b, R a b -> P b) -> Forall2 R l l' -> Forall P l'.
Proof. intros HRP. induction 1; constructor; eauto. Qed.

Lemma order_item_for_valid_line (order_id : value) (committed : list dict)
    (product item : dict) :
  order_item_for order_id committed product item ->
  order_items_validator item = true ->
  valid_line product = true.
Proof.
  intros (id & p & q & pr & _ & Hp & Hq & Hpr & ->) Hval.
  unfold valid_line. rewrite Hp, Hq, Hpr.
  unfold order_items_validator in Hval. cbn in Hval.
  rewrite !andb_true_iff in Hval.
  destruct Hval as [[[[_ _] Hp'] Hq'] Hpr'].
  now rewrite Hp', Hq', Hpr'.
Qed.

Lemma mbind_ok {A B : Type} (m : M A) (k : A -> M B) (w w1 : world) (a : A) :
  m w = (Ok a, w1) -> mbind m k w = k a w1.
Proof. intros H. unfold mbind. now rewrite H. Qed.

Lemma no_failure_step (n : nat) (net : list bool) :
  ~ In true (firstn (S n) net) ->
  hd false net = false /\ ~ In true (firstn n (tl net)).
Proof.
  destruct net as [|[] net]; cbn [firstn hd tl]; intros H.
  - split; [reflexivity|]. now destruct n.
  - destruct H; simpl; auto.
  - split; [reflexivity|]. intros Hin. apply H; simpl; auto.
Qed.

Lemma skipn_tl {A : Type} (n : nat) (l : list A) :
  skipn n (tl l) = skipn (S n) l.
Proof. destruct l; [now destruct n | reflexivity]. Qed.

Lemma advanced_trans (n1 n2 : nat) (ws1 ws2 : list (collection_name * dict))
    (w1 w2 w3 : world) :
  advanced n1 ws1 w1 w2 -> advanced n2 ws2 w2 w3 ->
  advanced (n1 + n2) (ws1 ++ ws2) w1 w3.
Proof.
  unfold advanced.
  intros (Hd1 & Ht1 & Hn1 & Ho1 & Hs1) (Hd2 & Ht2 & Hn2 & Ho2 & Hs2).
  repeat split; try congruence.
  - rewrite Ht2, Ht1. now rewrite app_assoc.
  - rewrite Hn2, Hn1, skipn_skipn. f_equal. apply Nat.add_comm.
Qed.

Lemma request_ok (w : world) :
  hd false (network w) = false ->
  exists w', request w = (Ok tt, w') /\ advanced 1 [] w w'.
Proof.
  unfold request, advanced. intros Hnet.
  destruct (network w) as [|failed rest] eqn:Hn.
  - exists w; rewrite app_nil_r; repeat split; auto.
  - cbn [hd] in Hnet; subst failed.
    eexists; split; [reflexivity|]. cbn. rewrite app_nil_r. repeat split.
Qed.

Lemma read_committed_ok {A : Type} (f : database -> result A) (w : world) :
  hd false (network w) = false ->
  exists w', read_committed f w = (f (db w), w') /\ advanced 1 [] w w'.
Proof.
  intros Hnet. destruct (request_ok w Hnet) as (w' & Hreq & Hadv).
  exists w'; split; auto.
  unfold read_committed. rewrite (mbind_ok _ _ _ _ _ Hreq).
  destruct Hadv as (-> & _). reflexivity.
Qed.

Lemma insert_one_ok (c : collection_name) (d : dict) (w : world) :
  hd false (network w) = false ->
  encodable d = true ->
  validator c d = true ->
  unique_ok c d (find_all c (db w) ++ pending c (transaction w))%list = true ->
  exists w', insert_one c d w = (Ok tt, w') /\ advanced 1 [(c, d)] w w'.
Proof.
  intros Hnet Henc Hval Huniq.
  destruct (request_ok w Hnet) as (w1 & Hreq & Hd & Ht & Hn & Ho & Hs).
  unfold insert_one. rewrite Henc, (mbind_ok _ _ _ _ _ Hreq).
  rewrite Hval, Hd, Ht, app_nil_r, Huniq. cbn [negb].
  eexists; split; [reflexivity|].
  unfold advanced; cbn [db transaction network stdout session].
  rewrite app_nil_r in Ht. repeat split; congruence.
Qed.

Lemma is_int32_bounds (v : value) :
  is_int32 v = true -> exists z, v = VInt z /\ - 2147483648 <= z < 2147483648.
Proof.
  destruct v; cbn [is_int32]; try discriminate.
  change (2 ^ 31) with 2147483648.
  rewrite andb_true_iff, Z.leb_le, Z.ltb_lt. eauto.
Qed.

Lemma is_int32_of_bounds (z : Z) :
  - 2147483648 <= z < 2147483648 -> is_int32 (VInt z) = true.
Proof.
  intros H. cbn [is_int32]. change (2 ^ 31) with 2147483648.
  rewrite andb_true_iff, Z.leb_le, Z.ltb_lt. exact H.
Qed.

Lemma int64_of_bounds (z : Z) :
  - 2147483648 <= z < 2147483648 ->
  (- 2 ^ 63 <=? z) && (z <? 2 ^ 63) = true.
Proof.
  intros H. change (2 ^ 63) with 9223372036854775808.
  rewrite andb_true_iff, Z.leb_le, Z.ltb_lt. lia.
Qed.

Lemma is_int_min_int32 (m : Z) (v : value) :
  is_int_min m v = true -> is_int32 v = true.
Proof.
  destruct v; cbn [is_int_min]; try discriminate.
  now rewrite andb_true_iff.
Qed.

Lemma valid_line_values (product : dict) :
  valid_line product = true ->
  exists p q pr,
    dict_get "product_id" product = Some p /\
    dict_get "quantity" product = Some q /\
    dict_get "price" product = Some pr /\
    is_int32 p = true /\ is_int_min 1 q = true /\ is_int_min 0 pr = true.
Proof.
  unfold valid_line.
  destruct (dict_get "product_id" product) as [p|]; [|discriminate].
  destruct (dict_get "quantity" product) as [q|]; [|discriminate].
  destruct (dict_get "price" product) as [pr|]; [|discriminate].
  rewrite !andb_true_iff. intros [[Hp Hq] Hpr].
  exists p, q, pr; repeat split; auto.
Qed.

Lemma line_item_accepted (order_item_id order_id : Z) (product : dict) :
  valid_line product = true ->
  - 2147483648 <= order_item_id < 2147483648 ->
  - 2147483648 <= order_id < 2147483648 ->
  encodable (line_item order_item_id order_id product) = true /\
  order_items_validator (line_item order_item_id order_id product) = true.
Proof.
  intros Hline Hiid Hoid.
  destruct (valid_line_values product Hline)
    as (p & q & pr & Hp & Hq & Hpr & Hvp & Hvq & Hvpr).
  unfold line_item. rewrite Hp, Hq, Hpr; cbn [value_or_none].
  pose proof (is_int_min_int32 _ _ Hvq) as Hq32.
  pose proof (is_int_min_int32 _ _ Hvpr) as Hpr32.
  destruct (is_int32_bounds p Hvp) as (zp & -> & Hbp).
  destruct (is_int32_bounds q Hq32) as (zq & -> & Hbq).
  destruct (is_int32_bounds pr Hpr32) as (zpr & -> & Hbpr).
  split.
  - cbn [encodable forallb snd].
    rewrite !int64_of_bounds by assumption. reflexivity.
  - unfold order_items_validator, required, property.
    cbn [forallb dict_mem dict_get String.eqb Ascii.eqb Bool.eqb].
    rewrite (is_int32_of_bounds _ Hiid), (is_int32_of_bounds _ Hoid).
    rewrite Hvp, Hvq, Hvpr. reflexivity.
Qed.

Lemma generate_id_next (collection : list dict) (field : string) (n : Z) :
  next_id collection field n ->
  generate_id_from_field collection field = Ok (VInt n).
Proof.
  intros ([Hplain Hnum] & [(d & Hin & Hd) Hmax] & _).
  destruct (acc_max_int _ Hnum) as (m & Hm & Hmin & Hmmax).
  { exists (n - 1). apply field_values_in; eauto. }
  rewrite generate_id_from_field_nonempty; auto; [|intros ->; contradiction].
  rewrite Hm. cbn [py_add_one]. do 2 f_equal.
  apply field_values_in in Hmin as (d' & Hin' & Hd').
  assert (n - 1 <= m) by (apply Hmmax, field_values_in; eauto).
  assert (m <= n - 1) by eauto.
  lia.
Qed.

Lemma insert_order_items_ok (order_item_id order_id : Z)
    (product_orders : list dict) :
  forall w : world,
    Forall (fun product => valid_line product = true) product_orders ->
    (product_orders <> [] ->
     next_id (order_items (db w)) "order_item_id" order_item_id) ->
    - 2147483648 <= order_id < 2147483648 ->
    ~ In true (firstn (2 * List.length product_orders) (network w)) ->
    exists w',
      insert_order_items (VInt order_id) product_orders w = (Ok tt, w') /\
      advanced (2 * List.length product_orders)
        (map (fun product =>
                (OrderItems, line_item order_item_id order_id product))
             product_orders) w w'.
Proof.
  induction product_orders as [|product rest IH];
    intros w Hlines Hnext Hoid Hnet.
  - exists w; split; [reflexivity|].
    unfold advanced; cbn. rewrite app_nil_r. auto.
  - inversion Hlines as [|? ? Hline Hrest]; subst.
    specialize (Hnext ltac:(discriminate)).
    pose proof Hnext as (_ & _ & Hiid).
    destruct (valid_line_values product Hline)
      as (p & q & pr & Hp & Hq & Hpr & _).
    destruct (line_item_accepted order_item_id order_id product Hline Hiid Hoid)
      as [Henc Hval].
    replace (2 * List.length (product :: rest))%nat
      with (S (S (2 * List.length rest)))%nat in * by (cbn [List.length]; lia).
    apply no_failure_step in Hnet as [Hnet1 Hnet].
    apply no_failure_step in Hnet as [Hnet2 Hnet].
    destruct (read_committed_ok
                (fun db => generate_id_from_field (order_items db)
                                                  "order_item_id") w Hnet1)
      as (w1 & Hread & Hadv1).
    rewrite (generate_id_next _ _ _ Hnext) in Hread.
    pose proof Hadv1 as (Hd1 & Ht1 & Hn1 & Ho1).
    destruct (insert_one_ok OrderItems
                (line_item order_item_id order_id product) w1)
      as (w2 & Hins & Hadv2); auto.
    { rewrite Hn1. cbn [skipn]. destruct (network w); auto. }
    pose proof (advanced_trans _ _ _ _ _ _ _ Hadv1 Hadv2) as Hadv12.
    pose proof Hadv12 as (Hd2 & Ht2 & Hn2 & Ho2).
    destruct (IH w2) as (w3 & Hloop & Hadv3); auto.
    { intros _. now rewrite Hd2. }
    { rewrite Hn2. cbn [Nat.add]. rewrite <- !skipn_tl. cbn [skipn].
      exact Hnet. }
    exists w3; split.
    + cbn [insert_order_items]. unfold lift at 1, dict_item. rewrite Hp.
      unfold mbind at 1. unfold lift at 1. rewrite Hq. unfold mbind at 1.
      rewrite (mbind_ok _ _ _ _ _ Hread).
      unfold lift at 1. rewrite Hpr. unfold mbind at 1.
      unfold line_item in Hins. rewrite Hp, Hq, Hpr in Hins.
      cbn [value_or_none] in Hins.
      rewrite (mbind_ok _ _ _ _ _ Hins). exact Hloop.
    + pose proof (advanced_trans _ _ _ _ _ _ _ Hadv12 Hadv3) as H.
      cbn [map app Nat.add] in *. exact H.
Qed.

Lemma unique_new_order (collection : list dict) (order_id customer_id : Z) :
  next_id collection "order_id" order_id ->
  unique_ok Orders (new_order (VInt order_id) customer_id) collection = true.
Proof.
  intros ([_ Hnum] & [_ Hmax] & _).
  unfold unique_ok. cbn [unique_keys forallb]. rewrite andb_true_r.
  apply forallb_forall. intros d Hin.
  cbn [new_order dict_get String.eqb Ascii.eqb Bool.eqb value_or_none].
  rewrite Forall_forall in Hnum.
  destruct (Hnum (value_or_none (dict_get "order_id" d))) as [Hv | [z Hv]].
  { unfold field_values.
    exact (in_map (fun d => value_or_none (dict_get "order_id" d)) _ _ Hin). }
  - rewrite Hv. reflexivity.
  - rewrite Hv. unfold bson_eqb. cbn [bson_compare].
    assert (z <= order_id - 1).
    { apply (Hmax d); auto.
      destruct (dict_get "order_id" d); simpl in Hv; congruence. }
    replace (order_id ?= z) with Gt
      by (symmetry; apply Z.compare_gt_iff; lia).
    reflexivity.
Qed.

Lemma new_order_accepted (order_id customer_id : Z) :
  - 2147483648 <= order_id < 2147483648 ->
  - 2147483648 <= customer_id < 2147483648 ->
  encodable (new_order (VInt order_id) customer_id) = true /\
  orders_validator (new_order (VInt order_id) customer_id) = true.
Proof.
  intros Hoid Hcid. split.
  - cbn [new_order encodable forallb snd].
    rewrite !int64_of_bounds by assumption. reflexivity.
  - unfold orders_validator, required, property, new_order.
    cbn [forallb dict_mem dict_get String.eqb Ascii.eqb Bool.eqb].
    rewrite (is_int32_of_bounds _ Hoid), (is_int32_of_bounds _ Hcid).
    reflexivity.
Qed.

(** What a call of [create_order] does when nothing stands in its way. *)
Lemma create_order_succeeds
    (customer_id : Z) (product_orders : list dict) (w : world)
    (order_id order_item_id : Z) :
  next_id (orders (db w)) "order_id" order_id ->
  (product_orders <> [] ->
   next_id (order_items (db w)) "order_item_id" order_item_id) ->
  - 2147483648 <= customer_id < 2147483648 ->
  Forall (fun product => valid_line product = true) product_orders ->
  ~ In true (firstn (3 + 2 * List.length product_orders) (network w)) ->
  fst (create_order customer_id product_orders w) = Ok tt /\
  db (snd (create_order customer_id product_orders w))
  = mkDatabase (customers (db w)) (products (db w))
      (orders (db w) ++ [new_order (VInt order_id) customer_id])
      (order_items (db w)
       ++ map (line_item order_item_id order_id) product_orders) /\
  transaction (snd (create_order customer_id product_orders w)) = [] /\
  network (snd (create_order customer_id product_orders w))
  = skipn (3 + 2 * List.length product_orders) (network w) /\
  stdout (snd (create_order customer_id product_orders w))
  = (stdout w ++ [Created (VInt order_id)])%list.
Proof.
  intros Hnext Hinext Hcid Hlines Hnet.
  pose proof Hnext as (_ & _ & Hoid).
  unfold create_order, try_except.
  set (w0 := start_transaction w).
  replace (3 + 2 * List.length product_orders)%nat
    with ((2 + 2 * List.length product_orders) + 1)%nat in Hnet by lia.
  rewrite firstn_plus, in_app_iff in Hnet.
  assert (Hcommit : ~ In true (firstn 1 (skipn (2 + 2 * List.length
                                                 product_orders) (network w))))
    by tauto.
  assert (Hnet' : ~ In true (firstn (2 + 2 * List.length product_orders)
                                    (network w))) by tauto.
  clear Hnet. rename Hnet' into Hnet.
  cbn [Nat.add] in Hnet.
  apply no_failure_step in Hnet as [Hnet1 Hnet].
  apply no_failure_step in Hnet as [Hnet2 Hnet].
  destruct (read_committed_ok
              (fun db => generate_id_from_field (orders db) "order_id") w0 Hnet1)
    as (w1 & Hread & Hadv1).
  cbn [db w0 start_transaction] in Hread.
  rewrite (generate_id_next _ _ _ Hnext) in Hread.
  pose proof Hadv1 as (Hd1 & Ht1 & Hn1 & Ho1 & Hs1).
  cbn [db transaction network stdout session w0 start_transaction app]
    in Hd1, Ht1, Hn1, Ho1, Hs1.
  destruct (new_order_accepted order_id customer_id Hoid Hcid) as [Henc Hval].
  destruct (insert_one_ok Orders (new_order (VInt order_id) customer_id) w1)
    as (w2 & Hins & Hadv2); auto.
  { rewrite Hn1. cbn [skipn]. destruct (network w); auto. }
  { rewrite Hd1, Ht1. cbn [find_all pending filter map]. rewrite app_nil_r.
    now apply unique_new_order. }
  pose proof (advanced_trans _ _ _ _ _ _ _ Hadv1 Hadv2) as Hadv12.
  pose proof Hadv12 as (Hd2 & Ht2 & Hn2 & Ho2 & Hs2).
  cbn [db transaction network stdout session w0 start_transaction app Nat.add]
    in Hd2, Ht2, Hn2, Ho2, Hs2.
  destruct (insert_order_items_ok order_item_id order_id product_orders w2)
    as (w3 & Hloop & Hadv3); auto.
  { now rewrite Hd2. }
  { rewrite Hn2, <- !skipn_tl. cbn [skipn]. exact Hnet. }
  pose proof (advanced_trans _ _ _ _ _ _ _ Hadv12 Hadv3) as Hadv.
  destruct Hadv as (Hd3 & Ht3 & Hn3 & Ho3 & Hs3).
  cbn [db transaction network stdout session w0 start_transaction app]
    in Hd3, Ht3, Hn3, Ho3, Hs3.
  set (w3' := mkWorld (db w3) (transaction w3) TxnCommitted (network w3)
                      (stdout w3)).
  destruct (request_ok w3') as (w4 & Hreq & Hd4 & Ht4 & Hn4 & Ho4 & Hs4).
  { cbn [network w3']. rewrite Hn3.
    change (1 + 1 + 2 * List.length product_orders)%nat
      with (2 + 2 * List.length product_orders)%nat.
    destruct (skipn (2 + 2 * List.length product_orders) (network w))
      as [|[] rest]; auto.
    destruct Hcommit; simpl; auto. }
  cbn [db transaction network stdout session w3' app] in Hd4, Ht4, Hn4, Ho4, Hs4.
  rewrite app_nil_r in Ht4.
  assert (Htry : create_order_try customer_id product_orders w0
                 = (Ok tt,
                    mkWorld
                      (fold_left (fun db '(c, d) => store c d db)
                                 (transaction w4) (db w4))
                      [] TxnCommitted (network w4)
                      (stdout w4 ++ [Created (VInt order_id)])%list)).
  { unfold create_order_try.
    rewrite (mbind_ok _ _ _ _ _ Hread).
    unfold lift at 1, mbind at 1.
    change (strptime (VStr "2024-12-22T10:00:00Z"))
      with (Ok (VDatetime (mkDatetime 2024 12 22 10 0 0))).
    cbv iota beta.
    change [("order_id", VInt order_id); ("customer_id", VInt customer_id);
            ("order_date", VDatetime (mkDatetime 2024 12 22 10 0 0));
            ("status", VStr "Processing")]
      with (new_order (VInt order_id) customer_id).
    rewrite (mbind_ok _ _ _ _ _ Hins), (mbind_ok _ _ _ _ _ Hloop).
    unfold mbind at 1, commit_transaction. rewrite Hs3.
    fold w3'. rewrite (mbind_ok _ _ _ _ _ Hreq).
    reflexivity. }
  rewrite Htry. unfold end_session. cbn [fst snd db transaction network stdout].
  rewrite Ht4, Hd4, Hn4, Ho4, Ht3, Hd3, Hn3, Ho3. cbn [fold_left app].
  rewrite <- (map_map (line_item order_item_id order_id)
                      (fun d => (OrderItems, d))).
  rewrite commit_order_items.
  cbn [store customers products orders order_items].
  rewrite skipn_skipn.
  repeat split.
Qed.



(** An order with two line items in the example database; the same order
    with a line item the validator refuses (quantity 0), with a failing
    insert, and with a failing commit. *)
Example create_order_success :
  let r := create_order 1 [example_line 101 2 1200; example_line 102 1 800]
                        example_world in
  fst r = Ok tt /\
  orders (db (snd r)) = (orders example_db
                         ++ [new_order (VInt 5003) 1])%list /\
  List.length (order_items (db (snd r))) = 4%nat /\
  stdout (snd r) = [Created (VInt 5003)].
Proof. repeat split. Qed.

Example create_order_rollback :
  create_order 1 [example_line 101 2 1200; example_line 102 0 800]
               example_world
  = (Ok tt, mkWorld example_db [] TxnNone [] [Oops WriteError]) /\
  create_order 1 [example_line 101 2 1200; example_line 102 1 800]
               (mkWorld example_db [] TxnNone
                        [false; false; false; false; false; true] [])
  = (Ok tt, mkWorld example_db [] TxnNone [] [Oops ConnectionFailure]) /\
  create_order 1 [example_line 101 2 1200; example_line 102 1 800]
               (mkWorld example_db [] TxnNone
                        [false; false; false; false; false; false; true] [])
  = (Raise InvalidOperation, mkWorld example_db [] TxnNone [] []).
Proof. repeat split. Qed.

(** C8: [create_order] writes to [orders] and [order_items] only: the
    [products] collection (and with it any stock) is the same after the
    call, whether the order was created or not; so is [customers]. *)
Theorem create_order_leaves_products
    (customer_id : Z) (product_orders : list dict) (w : world) :
  products (db (snd (create_order customer_id product_orders w)))
  = products (db w) /\
  customers (db (snd (create_order customer_id product_orders w)))
  = customers (db w).
Proof.
  destruct (create_order_run customer_id product_orders w)
    as [(order_id & new_items & _ & _ & _ & _ & _ & Hdb & _)
       | [(e & _ & Hdb & _)
         | (order_id & new_items & _ & _ & _ & _ & _ & Hdb & _)]];
    rewrite Hdb; auto.
Qed.

(** What the identifiers of a created order are: [order_id] is what the ID
    generator returns on the committed orders, and every one of the [N] new
    order items carries what the ID generator returns on the committed
    order items.  The reads of the generator run outside the transaction
    and do not see its inserts, so all [N] items carry the same
    [order_item_id]. *)
Lemma create_order_item_ids_coincide
    (customer_id : Z) (product_orders : list dict) (w : world)
    (order_id : value) :
  stdout (snd (create_order customer_id product_orders w))
  = (stdout w ++ [Created order_id])%list ->
  generate_id_from_field (orders (db w)) "order_id" = Ok order_id /\
  exists new_items,
    order_items (db (snd (create_order customer_id product_orders w)))
    = (order_items (db w) ++ new_items)%list /\
    List.length new_items = List.length product_orders /\
    Forall (fun item =>
              exists id,
                generate_id_from_field (order_items (db w)) "order_item_id"
                = Ok id /\
                dict_get "order_item_id" item = Some id) new_items /\
    forall item1 item2, In item1 new_items -> In item2 new_items ->
      dict_get "order_item_id" item1 = dict_get "order_item_id" item2.
Proof.
  intros Hcreated.
  destruct (create_order_run customer_id product_orders w)
    as [(order_id' & new_items & _ & Hid & Hall & _ & _ & Hdb & _ & Hout & _)
       | [(e & _ & _ & _ & Hout)
         | (order_id' & new_items & _ & _ & _ & _ & _ & _ & _ & Hout & _)]].
  - rewrite Hout in Hcreated. apply app_inv_head in Hcreated.
    injection Hcreated as ->.
    split; [exact Hid|]. exists new_items. rewrite Hdb; cbn [order_items].
    assert (Hids : Forall (fun item =>
              exists id,
                generate_id_from_field (order_items (db w)) "order_item_id"
                = Ok id /\
                dict_get "order_item_id" item = Some id) new_items).
    { eapply Forall2_right; [|exact Hall].
      intros product item. apply order_item_for_order_item_id. }
    repeat split; auto.
    + symmetry. eapply Forall2_length; eauto.
    + intros item1 item2 H1 H2. rewrite Forall_forall in Hids.
      destruct (Hids _ H1) as (id1 & Hg1 & ->).
      destruct (Hids _ H2) as (id2 & Hg2 & ->). congruence.
  - rewrite Hout in Hcreated. apply app_inv_head in Hcreated. discriminate.
  - rewrite Hout in Hcreated. rewrite <- (app_nil_r (stdout w)) in Hcreated at 1.
    apply app_inv_head in Hcreated. discriminate.
Qed.

(** C3 fails on the code: an order with two line items is created in the
    example database, whose largest [order_item_id] is 9002, and both new
    order items carry the identifier 9003; the second item did not get a
    new identifier of its own. *)
Theorem create_order_duplicate_item_ids :
  let w' := snd (create_order 1 [example_line 101 2 1200;
                                 example_line 102 1 800]
                              example_world) in
  stdout w' = [Created (VInt 5003)] /\
  order_items (db w')
  = [ example_item 9001 5001 101 2 1200;
      example_item 9002 5002 102 1 800;
      example_item 9003 5003 101 2 1200;
      example_item 9003 5003 102 1 800 ].
Proof. split; reflexivity. Qed.

Example create_order_item_ids_coincide_example :
  exists new_items,
    order_items
      (db (snd (create_order 1 [example_line 101 2 1200;
                                example_line 102 1 800]
                             example_world)))
    = (order_items (db example_world) ++ new_items)%list /\
    List.length new_items = 2%nat /\
    forall item1 item2, In item1 new_items -> In item2 new_items ->
      dict_get "order_item_id" item1 = dict_get "order_item_id" item2.
Proof.
  destruct (create_order_item_ids_coincide 1
              [example_line 101 2 1200; example_line 102 1 800]
              example_world (VInt 5003) eq_refl)
    as (_ & new_items & Hitems & Hlen & _ & Hsame).
  exists new_items; auto.
Qed.

(** * Further properties *)

(** ** handle_plot.py *)

Lemma translate_sanitize_title (title : string) :
  translate replace_dict title = sanitize_title title.
Proof.
  induction title as [|c title IH]; [reflexivity|].
  rewrite translate_cons, table_get_replace_dict. cbn [sanitize_title].
  unfold sanitized. destruct (disallowed c); simpl; now rewrite IH.
Qed.

Lemma append_inv_head (s a b : string) : s ++ a = s ++ b -> a = b.
Proof.
  induction s as [|c s IH]; simpl; intros H; [exact H|].
  injection H as H. auto.
Qed.

Lemma list_ascii_of_append (a b : string) :
  list_ascii_of_string (a ++ b)
  = (list_ascii_of_string a ++ list_ascii_of_string b)%list.
Proof. induction a as [|c a IH]; simpl; [reflexivity | now rewrite IH]. Qed.

Lemma append_inv_tail (a b t : string) : a ++ t = b ++ t -> a = b.
Proof.
  intros H. apply (f_equal list_ascii_of_string) in H.
  rewrite !list_ascii_of_append in H. apply app_inv_tail in H.
  rewrite <- (string_of_list_ascii_of_string a),
          <- (string_of_list_ascii_of_string b).
  now rewrite H.
Qed.

(** X1: two titles get the same file name in a directory exactly when they
    are equal after the replacement of the disallowed characters: titles
    that differ only in commas, exclamation marks, question marks, spaces
    and colons share one file. *)
Theorem title_to_filename_same_file_iff (title1 title2 save_dir : string) :
  title_to_filename title1 save_dir = title_to_filename title2 save_dir <->
  sanitize_title title1 = sanitize_title title2.
Proof.
  unfold title_to_filename. rewrite !translate_sanitize_title. split.
  - intros H. apply append_inv_head in H. now apply append_inv_tail in H.
  - now intros ->.
Qed.

Example title_to_filename_collision :
  title_to_filename "Sales: 2024" PLOTS = title_to_filename "Sales, 2024" PLOTS.
Proof. reflexivity. Qed.

Lemma file_exists_head (name : string) (names : list string)
    (ok : string -> bool) :
  file_exists name (mkFiles (name :: names) ok) = true.
Proof. unfold file_exists; simpl. now rewrite String.eqb_refl. Qed.

(** X2: a figure saved with [save_only] can then be shown with
    [display_only], whatever was on disk before, and the two calls together
    leave what the default mode leaves in one call.  When the save raises
    (the figure has no title, or the file cannot be created), nothing has
    changed and the default mode raises the same exception. *)
Theorem show_plot_save_then_display
    (fig : figure) (save_dir : string) (w : plot_world) :
  match show_plot (Some fig) true false save_dir false w with
  | (Ok _, w1) =>
      show_plot (Some fig) false true save_dir false w1
      = show_plot (Some fig) false false save_dir false w /\
      fst (show_plot (Some fig) false true save_dir false w1) = Ok None
  | (Raise e, w1) =>
      w1 = w /\ show_plot (Some fig) false false save_dir false w = (Raise e, w)
  end.
Proof.
  unfold show_plot, figure_filename.
  destruct (title_text fig) as [title|]; [|split; reflexivity].
  unfold write_image.
  destruct (creatable (disk w) (title_to_filename title save_dir));
    [|split; reflexivity].
  unfold load_image; cbn [disk calls].
  rewrite file_exists_head. split; reflexivity.
Qed.

Example show_plot_save_then_display_example :
  let fig := mkFigure (Some "Sales: 2024") in
  let w := mkPlotWorld (mkFiles [] (fun _ => true)) [] in
  let missing := mkPlotWorld (mkFiles [] (fun _ => false)) [] in
  show_plot (Some fig) false true PLOTS false
            (snd (show_plot (Some fig) true false PLOTS false w))
  = show_plot (Some fig) false false PLOTS false w /\
  show_plot (Some fig) true false PLOTS false missing
  = (Raise FileNotFoundError, missing) /\
  show_plot (Some fig) false false PLOTS false missing
  = (Raise FileNotFoundError, missing).
Proof. repeat split. Qed.

(** X3: [show_plot] never removes a file and writes at most one, the one
    named after the title of the figure; it writes nothing when no figure
    is passed, in interactive mode, with [display_only] alone, and when it
    raises.  A call that has to save under a name that cannot be created
    raises [FileNotFoundError]. *)
Theorem show_plot_disk
    (fig : option figure) (save_only display_only : bool) (save_dir : string)
    (interactive : bool) (w : plot_world) :
  let (r, w') := show_plot fig save_only display_only save_dir interactive w in
  creatable (disk w') = creatable (disk w) /\
  (images (disk w') = images (disk w) \/
   exists f title,
     figure_to_save fig interactive = Some f /\
     title_text f = Some title /\
     (save_only = true \/ display_only = false) /\
     creatable (disk w) (title_to_filename title save_dir) = true /\
     images (disk w')
     = title_to_filename title save_dir :: images (disk w)) /\
  (forall e, r = Raise e -> w' = w) /\
  (forall f title,
     figure_to_save fig interactive = Some f ->
     title_text f = Some title ->
     save_only = true \/ display_only = false ->
     creatable (disk w) (title_to_filename title save_dir) = false ->
     r = Raise FileNotFoundError).
Proof.
  destruct fig as [f|]; cbn [show_plot figure_to_save];
    [destruct interactive|];
    try (split; [reflexivity|]; split; [left; reflexivity|];
         split; discriminate).
  unfold figure_filename, write_image, load_image.
  destruct (title_text f) as [title|] eqn:Ht.
  - destruct (creatable (disk w) (title_to_filename title save_dir)) eqn:Hc;
      destruct save_only, display_only; cbn [disk calls images creatable];
      rewrite ?file_exists_head;
      try destruct (file_exists _ (disk w));
      (split; [reflexivity|];
       split; [first [left; reflexivity | right; exists f, title; auto]|];
       split; [first [discriminate | intros e He; reflexivity]|];
       intros f0 title0 Hf Ht0 Hmode Hno; injection Hf as <-;
       assert (title0 = title) by congruence; subst title0;
       first [congruence | reflexivity | destruct Hmode; discriminate]).
  - destruct save_only, display_only;
      (split; [reflexivity|]; split; [left; reflexivity|];
       split; [intros e He; reflexivity|];
       intros f0 title0 Hf Ht0; injection Hf as <-; congruence).
Qed.

(** ** load_json and convert_date *)

Lemma load_documents_app (fresh : nat -> list N) (good : list value) :
  forall (i : nat) (good' : list value) (rest : list value),
    load_documents fresh i good = Ok good' ->
    load_documents fresh i (good ++ rest)
    = bind (load_documents fresh (i + List.length good) rest)
           (fun rest' => Ok (good' ++ rest')%list).
Proof.
  induction good as [|v good IH]; intros i good' rest H.
  - injection H as <-. cbn [app List.length]. rewrite Nat.add_0_r.
    destruct (load_documents fresh i rest); reflexivity.
  - cbn [load_documents app] in *.
    destruct (load_document (fresh i) v) as [v'|e]; cbn [bind] in *;
      [|discriminate].
    destruct (load_documents fresh (S i) good) as [good''|e] eqn:Hgood;
      cbn [bind] in H; [|discriminate].
    injection H as <-.
    rewrite (IH (S i) good'' rest Hgood). cbn [List.length].
    replace (S i + List.length good)%nat with (i + S (List.length good))%nat
      by lia.
    destruct (load_documents fresh _ rest); reflexivity.
Qed.

(** [bytes.fromhex] refuses a string with a character that is neither a
    hexadecimal digit nor white space, wherever it stands. *)
Lemma bytes_fromhex_no_hex (c : ascii) :
  is_hex c = false -> is_space c = false ->
  forall (n : nat) (s : string),
    (String.length s <= n)%nat ->
    In c (list_ascii_of_string s) -> bytes_fromhex s = None.
Proof.
  intros Hhex Hspace. unfold is_hex in Hhex.
  induction n as [|n IH]; intros s Hlen Hin.
  - destruct s; [destruct Hin | cbn [String.length] in Hlen; lia].
  - destruct s as [|c0 s']; [destruct Hin|].
    cbn [String.length] in Hlen. cbn [bytes_fromhex].
    destruct (is_space c0) eqn:Hs0.
    + apply IH; [lia|]. destruct Hin as [-> | Hin]; [congruence | exact Hin].
    + destruct s' as [|d s'']; [reflexivity|].
      cbn [String.length] in Hlen.
      destruct Hin as [-> | [-> | Hin]].
      * destruct (hex_digit c); [discriminate | reflexivity].
      * destruct (hex_digit c0); [|reflexivity].
        destruct (hex_digit c); [discriminate | reflexivity].
      * rewrite (IH s'') by (lia || exact Hin).
        destruct (hex_digit c0); [|reflexivity].
        destruct (hex_digit d); reflexivity.
Qed.

Lemma load_document_error (fresh : list N) (bad : value) (e : exn) :
  load_error bad e -> load_document fresh bad = Raise e.
Proof.
  intros H;
    destruct H as [v Hv | d Hid | d id Hid Hscalar | d o s Hid Hoid Hlen
                  | d o s c Hid Hoid Hin Hhex Hspace];
    unfold load_document, py_getitem, dict_item.
  - destruct v; try reflexivity. destruct (Hv fields eq_refl).
  - now rewrite Hid.
  - rewrite Hid; cbn [bind].
    destruct Hscalar as [-> | [[b ->] | [z ->]]]; reflexivity.
  - rewrite Hid; cbn [bind py_in]. unfold dict_mem. rewrite Hoid; cbn [bind].
    unfold ObjectId. apply Nat.eqb_neq in Hlen. now rewrite Hlen.
  - rewrite Hid; cbn [bind py_in]. unfold dict_mem. rewrite Hoid; cbn [bind].
    unfold ObjectId.
    rewrite (bytes_fromhex_no_hex c Hhex Hspace _ s (Nat.le_refl _) Hin).
    now destruct (String.length s =? 24)%nat.
Qed.

(** X4: [load_json] stops at the first element of the fixture it cannot
    load and raises the exception of that element, whatever follows it:
    [TypeError] for an element that is no object or whose [_id] is a
    number, a boolean or [null], [KeyError] for a document without [_id],
    [InvalidId] for a wrapped string that has not 24 characters or that
    holds a character which is neither a hexadecimal digit nor white
    space. *)
Theorem load_json_first_error
    (fresh : nat -> list N) (good : list dict) (bad : value) (e : exn)
    (rest : list value) :
  Forall loadable good ->
  load_error bad e ->
  load_json fresh (VList (map VDict good ++ bad :: rest)) = Raise e.
Proof.
  intros Hgood Hbad.
  destruct (load_documents_loaded fresh good Hgood 0%nat) as (good' & Hload & _).
  cbn [load_json].
  rewrite (load_documents_app fresh _ 0%nat _ (bad :: rest) Hload).
  cbn [load_documents]. rewrite (load_document_error _ bad e Hbad).
  reflexivity.
Qed.

Lemma load_json_first_error_witness :
  load_json (fun _ => [])
    (VList [ VDict [("_id", VDict [("$oid", VStr "5f8d0d55b54764421b7156c3")])];
             VDict [("_id", VDict [("$oid", VStr "5f8d0d55")])];
             VDict [("name", VStr "Bob")] ])
  = Raise InvalidId.
Proof.
  apply (load_json_first_error (fun _ => [])
           [ [("_id", VDict [("$oid", VStr "5f8d0d55b54764421b7156c3")])] ]
           (VDict [("_id", VDict [("$oid", VStr "5f8d0d55")])]) InvalidId
           [ VDict [("name", VStr "Bob")] ]).
  - apply Forall_cons; [|apply Forall_nil].
    eexists; split; [reflexivity|]. left.
    exists "5f8d0d55b54764421b7156c3",
           [("$oid", VStr "5f8d0d55b54764421b7156c3")].
    repeat split.
  - eapply load_error_short_oid; [reflexivity | reflexivity | discriminate].
Defined.

Example load_json_first_error_no_hex :
  load_json (fun _ => [])
    (VList [ VDict [("_id", VDict [("$oid", VStr "5f8d0d55b54764421b7156cg")])];
             VDict [("_id", VDict [("$oid", VStr "5f8d0d55b54764421b7156c3")])] ])
  = Raise InvalidId.
Proof. reflexivity. Qed.

Lemma convert_field_ok (k : string) (d d' : dict) :
  convert_field k d = Ok d' ->
  (dict_get k d = None /\ d' = d) \/
  (exists s t, dict_get k d = Some (VStr s) /\
               d' = dict_set k (VDatetime t) d).
Proof.
  unfold convert_field, dict_mem, dict_item.
  destruct (dict_get k d) as [v|]; cbn [bind].
  - destruct v; cbn [strptime bind]; try discriminate.
    destruct (strptime_str s) as [t|e]; cbn [bind]; [|discriminate].
    intros H; injection H as <-. right; eauto.
  - intros H; injection H as <-. left; auto.
Qed.

Lemma convert_field_datetime (k : string) (d : dict) (t : datetime) :
  dict_get k d = Some (VDatetime t) -> convert_field k d = Raise TypeError.
Proof.
  intros H. unfold convert_field, dict_mem, dict_item. now rewrite H.
Qed.

Lemma convert_field_absent (k : string) (d : dict) :
  dict_get k d = None -> convert_field k d = Ok d.
Proof. intros H. unfold convert_field, dict_mem. now rewrite H. Qed.

Lemma convert_document_again (d d' : dict) :
  has_date d -> convert_document d = Ok d' ->
  convert_document d' = Raise TypeError.
Proof.
  unfold has_date, convert_document, dict_mem. intros Hdate H.
  destruct (convert_field "order_date" d) as [d1|e] eqn:H1; cbn [bind] in H;
    [|discriminate].
  apply convert_field_ok in H1 as [[Hno1 ->] | (s1 & t1 & Hs1 & ->)];
    apply convert_field_ok in H as [[Hno2 ->] | (s2 & t2 & Hs2 & ->)].
  - rewrite Hno1, Hno2 in Hdate. destruct Hdate; discriminate.
  - rewrite convert_field_absent
      by (rewrite dict_get_set_other by discriminate; exact Hno1).
    cbn [bind]. apply (convert_field_datetime _ _ t2), dict_get_set_same.
  - now rewrite (convert_field_datetime _ _ t1) by apply dict_get_set_same.
  - rewrite (convert_field_datetime "order_date" _ t1); [reflexivity|].
    rewrite dict_get_set_other by discriminate. apply dict_get_set_same.
Qed.

Lemma convert_document_undated (d : dict) :
  ~ has_date d -> convert_document d = Ok d.
Proof.
  unfold has_date, convert_document, dict_mem. intros Hno.
  destruct (dict_get "order_date" d) eqn:H1; [destruct Hno; auto|].
  destruct (dict_get "delivery_date" d) eqn:H2; [destruct Hno; auto|].
  rewrite convert_field_absent by exact H1. cbn [bind].
  now apply convert_field_absent.
Qed.

Lemma has_date_dec (d : dict) : has_date d \/ ~ has_date d.
Proof.
  unfold has_date.
  destruct (dict_mem "order_date" d); [auto|].
  destruct (dict_mem "delivery_date" d); [auto|].
  right; intros [H | H]; discriminate.
Qed.

Lemma convert_field_raises (k : string) (d : dict) (e : exn) :
  convert_field k d = Raise e -> e = TypeError \/ e = ValueError.
Proof.
  unfold convert_field, dict_mem, dict_item.
  destruct (dict_get k d) as [v|]; cbn [bind]; [|discriminate].
  destruct v; cbn [strptime bind]; try (intros H; injection H as <-; auto).
  unfold strptime_str.
  destruct (p_timestamp s) as [|[t rest] ?]; cbn [bind];
    [intros H; injection H as <-; auto|].
  destruct rest; [destruct (valid_datetime t)|]; cbn [bind];
    try discriminate; intros H; injection H as <-; auto.
Qed.

Lemma convert_field_keys (k : string) (d d' : dict) :
  convert_field k d = Ok d' -> map fst d' = map fst d.
Proof.
  intros H. apply convert_field_ok in H as [[_ ->] | (s & t & Hget & ->)];
    [reflexivity|].
  apply dict_set_keys. unfold dict_mem. now rewrite Hget.
Qed.

Lemma convert_document_dates (d d' : dict) :
  convert_document d = Ok d' ->
  map fst d' = map fst d /\
  (forall k v, In k date_keys -> dict_get k d = Some v ->
               exists s, v = VStr s) /\
  (forall k v, In k date_keys -> dict_get k d' = Some v ->
               exists t, v = VDatetime t).
Proof.
  unfold convert_document. intros H.
  destruct (convert_field "order_date" d) as [d1|e] eqn:H1; cbn [bind] in H;
    [|discriminate].
  pose proof (convert_field_keys _ _ _ H1) as Hk1.
  pose proof (convert_field_keys _ _ _ H) as Hk2.
  split; [congruence|].
  apply convert_field_ok in H1 as [[Hno1 ->] | (s1 & t1 & Hs1 & ->)];
    apply convert_field_ok in H as [[Hno2 ->] | (s2 & t2 & Hs2 & ->)];
    (split; intros k v [<- | [<- | []]] Hv);
    repeat match goal with
           | H : context [dict_get ?k (dict_set ?k _ _)] |- _ =>
               rewrite dict_get_set_same in H
           | H : context [dict_get _ (dict_set _ _ _)] |- _ =>
               rewrite dict_get_set_other in H by discriminate
           end;
    match goal with
    | H1 : ?x = None, H2 : ?x = Some _ |- _ => congruence
    | H1 : ?x = Some (VStr ?s), H2 : ?x = Some ?v |- _ =>
        exists s; congruence
    | H : Some (VDatetime ?t) = Some ?v |- _ => exists t; congruence
    end.
Qed.

Lemma convert_date_outcome (json_data : list dict) :
  (exists converted,
      convert_date json_data = Ok converted /\
      map (map fst) converted = map (map fst) json_data /\
      Forall (fun d => forall k v, In k date_keys -> dict_get k d = Some v ->
                                   exists s, v = VStr s) json_data /\
      Forall (fun d' => forall k v, In k date_keys -> dict_get k d' = Some v ->
                                    exists t, v = VDatetime t) converted) \/
  convert_date json_data = Raise TypeError \/
  convert_date json_data = Raise ValueError.
Proof.
  induction json_data as [|d rest IH];
    [left; exists []; repeat split; constructor|].
  cbn [convert_date].
  destruct (convert_document d) as [d'|e] eqn:Hd; cbn [bind].
  - destruct IH as [(rest' & -> & Hkeys & Hin & Hout) | [-> | ->]];
      cbn [bind]; auto.
    destruct (convert_document_dates d d' Hd) as (Hk & Hi & Ho).
    left. eexists; split; [reflexivity|]. cbn [map].
    repeat split; [congruence | constructor; auto | constructor; auto].
  - unfold convert_document in Hd.
    destruct (convert_field "order_date" d) as [d1|e1] eqn:H1;
      cbn [bind] in Hd.
    + apply convert_field_raises in Hd as [-> | ->]; auto.
    + injection Hd as <-.
      apply convert_field_raises in H1 as [-> | ->]; auto.
Qed.

(** X6: [convert_date] raises nothing but [TypeError] and [ValueError].
    When it returns, every document has the keys it had, in the same
    order; every [order_date] and [delivery_date] there was, was a string;
    and every one there is, is a [datetime]. *)
Theorem convert_date_returns_or_raises (json_data : list dict) :
  (exists converted,
      convert_date json_data = Ok converted /\
      map (map fst) converted = map (map fst) json_data /\
      Forall (fun d => forall k v, In k date_keys -> dict_get k d = Some v ->
                                   exists s, v = VStr s) json_data /\
      Forall (fun d' => forall k v, In k date_keys -> dict_get k d' = Some v ->
                                    exists t, v = VDatetime t) converted) \/
  convert_date json_data = Raise TypeError \/
  convert_date json_data = Raise ValueError.
Proof. apply convert_date_outcome. Qed.

Example convert_date_outcomes :
  convert_date [ [("order_id", VInt 1);
                  ("order_date", VStr "2024-12-20T10:00:00Z")] ]
  = Ok [ [("order_id", VInt 1);
          ("order_date", VDatetime (mkDatetime 2024 12 20 10 0 0))] ] /\
  convert_date [ [("order_date", VInt 20241220)] ] = Raise TypeError /\
  convert_date [ [("delivery_date", VStr "2024-12-20")] ] = Raise ValueError.
Proof. repeat split. Qed.

(** X7: [convert_date] cannot be applied to its own result: a field that
    has become a [datetime] is not a string any more, and [strptime]
    raises [TypeError] on it. *)
Theorem convert_date_twice_raises (json_data converted : list dict) :
  convert_date json_data = Ok converted ->
  Exists has_date json_data ->
  convert_date converted = Raise TypeError.
Proof.
  revert converted; induction json_data as [|d rest IH];
    intros converted H Hex; [inversion Hex|].
  cbn [convert_date] in H.
  destruct (convert_document d) as [d'|e] eqn:Hd; cbn [bind] in H;
    [|discriminate].
  destruct (convert_date rest) as [rest'|e] eqn:Hrest; cbn [bind] in H;
    [|discriminate].
  injection H as <-. cbn [convert_date].
  destruct (has_date_dec d) as [Hdate | Hno].
  - now rewrite (convert_document_again d d' Hdate Hd).
  - rewrite (convert_document_undated d Hno) in Hd. injection Hd as <-.
    rewrite (convert_document_undated d Hno); cbn [bind].
    inversion Hex as [? ? Hdate | ? ? Hex']; subst; [contradiction|].
    now rewrite (IH rest' eq_refl Hex').
Qed.

Lemma convert_date_twice_raises_witness :
  convert_date
    [ [("order_id", VInt 1)];
      [("order_id", VInt 2);
       ("order_date", VDatetime (mkDatetime 2024 12 20 10 0 0))] ]
  = Raise TypeError.
Proof.
  apply (convert_date_twice_raises
           [ [("order_id", VInt 1)];
             [("order_id", VInt 2);
              ("order_date", VStr "2024-12-20T10:00:00Z")] ]).
  - reflexivity.
  - apply Exists_cons_tl, Exists_cons_hd. left; reflexivity.
Defined.

(** ** generate_id_from_field, further *)

Lemma numeric_values_cases (vs : list value) :
  Forall (fun v => v = VNone \/ exists z, v = VInt z) vs ->
  Forall (fun v => v = VNone) vs \/ exists z, In (VInt z) vs.
Proof.
  induction 1 as [|v vs Hv _ [IH | [z IH]]].
  - left; constructor.
  - destruct Hv as [-> | [z ->]].
    + left; now constructor.
    + right; exists z; simpl; auto.
  - right; exists z; simpl; auto.
Qed.

Lemma acc_max_numeric_perm (vs1 vs2 : list value) :
  Permutation vs1 vs2 ->
  Forall (fun v => v = VNone \/ exists z, v = VInt z) vs1 ->
  acc_max vs1 = acc_max vs2.
Proof.
  intros Hperm Hnum1.
  assert (Hnum2 : Forall (fun v => v = VNone \/ exists z, v = VInt z) vs2)
    by (eapply Permutation_Forall; eauto).
  destruct (numeric_values_cases vs1 Hnum1) as [Hnone | [z Hz]].
  - rewrite !acc_max_none; auto. eapply Permutation_Forall; eauto.
  - destruct (acc_max_int vs1 Hnum1) as (m1 & -> & Hin1 & Hmax1); eauto.
    destruct (acc_max_int vs2 Hnum2) as (m2 & -> & Hin2 & Hmax2).
    { exists z. eapply Permutation_in; eauto. }
    f_equal. apply Z.le_antisymm.
    + apply Hmax2. eapply Permutation_in; eauto.
    + apply Hmax1. eapply Permutation_in; [apply Permutation_sym|]; eauto.
Qed.

(** X8: for a numeric field the new identifier does not depend on the order
    in which the server holds the documents. *)
Theorem generate_id_from_field_order_independent
    (collection1 collection2 : list dict) (field : string) :
  Permutation collection1 collection2 ->
  numeric_field collection1 field ->
  generate_id_from_field collection1 field
  = generate_id_from_field collection2 field.
Proof.
  intros Hperm [Hplain Hnum].
  destruct collection1 as [|d1 rest1].
  - apply Permutation_nil in Hperm. now subst.
  - assert (collection2 <> []).
    { intros ->. apply Permutation_sym, Permutation_nil in Hperm.
      discriminate. }
    rewrite !generate_id_from_field_nonempty; auto; [|discriminate].
    f_equal. apply acc_max_numeric_perm; auto.
    unfold field_values. now apply Permutation_map.
Qed.

Lemma generate_id_from_field_order_independent_witness :
  generate_id_from_field
    [ [("order_id", VInt 90)]; [("order_id", VInt 7)] ] "order_id"
  = generate_id_from_field
      [ [("order_id", VInt 7)]; [("order_id", VInt 90)] ] "order_id".
Proof.
  apply generate_id_from_field_order_independent.
  - apply perm_swap.
  - split; [reflexivity|].
    repeat (apply Forall_cons; [right; eexists; reflexivity|]).
    apply Forall_nil.
Defined.

Lemma acc_max_app (vs1 vs2 : list value) :
  acc_max (vs1 ++ vs2) = fold_left max_step vs2 (acc_max vs1).
Proof. unfold acc_max. apply fold_left_app. Qed.

(** X9: the generator counts on: once a document with the generated
    identifier has been added to a collection with a numeric field, the
    next identifier is the next integer. *)
Theorem generate_id_from_field_after_insert
    (collection : list dict) (field : string) (d : dict) (id : Z) :
  numeric_field collection field ->
  generate_id_from_field collection field = Ok (VInt id) ->
  dict_get field d = Some (VInt id) ->
  generate_id_from_field (collection ++ [d]) field = Ok (VInt (id + 1)).
Proof.
  intros [Hplain Hnum] Hgen Hd.
  assert (Hne : collection <> []).
  { intros ->. rewrite generate_id_from_field_empty in Hgen by auto.
    discriminate. }
  rewrite generate_id_from_field_nonempty in Hgen by auto.
  rewrite generate_id_from_field_nonempty; auto;
    [|intros H; apply app_eq_nil in H as [_ H]; discriminate].
  unfold field_values in *. rewrite map_app, acc_max_app.
  cbn [map fold_left]. rewrite Hd; cbn [value_or_none].
  destruct (numeric_values_cases _ Hnum) as [Hnone | [z Hz]].
  - rewrite acc_max_none in Hgen by auto. discriminate.
  - destruct (acc_max_int _ Hnum) as (m & Hm & _); eauto.
    rewrite Hm in *. cbn in Hgen. injection Hgen as <-.
    cbn [max_step bson_compare].
    replace (m ?= m + 1) with Lt by (symmetry; apply Z.compare_lt_iff; lia).
    reflexivity.
Qed.

Lemma generate_id_from_field_after_insert_witness :
  generate_id_from_field
    ([ [("order_id", VInt 89)]; [("order_id", VInt 90)] ]
     ++ [ [("order_id", VInt 91); ("status", VStr "Processing")] ])%list
    "order_id"
  = Ok (VInt 92).
Proof.
  apply (generate_id_from_field_after_insert
           [ [("order_id", VInt 89)]; [("order_id", VInt 90)] ] "order_id"
           [("order_id", VInt 91); ("status", VStr "Processing")] 91).
  - split; [reflexivity|].
    repeat (apply Forall_cons; [right; eexists; reflexivity|]).
    apply Forall_nil.
  - reflexivity.
  - reflexivity.
Defined.

Lemma fold_max_step_string (vs : list value) (s : string) :
  Forall (fun v => v = VNone \/ (exists z, v = VInt z) \/ exists s, v = VStr s)
         vs ->
  exists s', fold_left max_step vs (VStr s) = VStr s'.
Proof.
  revert s; induction vs as [|v vs IH]; intros s Hall;
    [exists s; reflexivity|].
  inversion Hall as [|? ? Hv Hvs]; subst.
  destruct Hv as [-> | [[z ->] | [s' ->]]]; cbn [fold_left max_step].
  - auto.
  - change (bson_compare (VStr s) (VInt z)) with Gt. cbv iota. auto.
  - cbn [bson_compare]. destruct (String.compare s s'); auto.
Qed.

Lemma acc_max_string (vs : list value) :
  Forall (fun v => v = VNone \/ (exists z, v = VInt z) \/ exists s, v = VStr s)
         vs ->
  (exists s, In (VStr s) vs) ->
  exists s', acc_max vs = VStr s'.
Proof.
  unfold acc_max.
  assert (Hgen : forall acc,
             (acc = VNone \/ exists z, acc = VInt z) ->
             Forall (fun v => v = VNone \/ (exists z, v = VInt z) \/
                              exists s, v = VStr s) vs ->
             (exists s, In (VStr s) vs) ->
             exists s', fold_left max_step vs acc = VStr s').
  { induction vs as [|v vs IH]; intros acc Hacc Hall [s Hs]; [contradiction|].
    inversion Hall as [|? ? Hv Hvs]; subst.
    destruct Hv as [-> | [[z ->] | [s' ->]]].
    - destruct Hs as [Hs | Hs]; [discriminate|].
      cbn [fold_left max_step]. eauto.
    - destruct Hs as [Hs | Hs]; [discriminate|].
      cbn [fold_left]. apply IH; eauto.
      destruct Hacc as [-> | [a ->]]; cbn [max_step bson_compare]; eauto.
      destruct (a ?= z); eauto.
    - cbn [fold_left].
      replace (max_step acc (VStr s')) with (VStr s')
        by (destruct Hacc as [-> | [a ->]]; reflexivity).
      now apply fold_max_step_string. }
  intros Hall Hex. apply Hgen; auto.
Qed.

(** X10: one document with a string in the field is enough to make
    [generate_id_from_field] raise [TypeError], whatever integers the other
    documents hold: strings are above numbers in the order of the server,
    so [$max] is the string, and a string plus 1 is no value. *)
Theorem generate_id_from_field_string_raises
    (collection : list dict) (field : string) :
  plain_field_name field = true ->
  Forall (fun v => v = VNone \/ (exists z, v = VInt z) \/ exists s, v = VStr s)
         (field_values collection field) ->
  (exists d s, In d collection /\ dict_get field d = Some (VStr s)) ->
  generate_id_from_field collection field = Raise TypeError.
Proof.
  intros Hplain Hall (d & s & Hin & Hd).
  rewrite generate_id_from_field_nonempty; auto;
    [|intros ->; contradiction].
  destruct (acc_max_string _ Hall) as [s' ->]; [|reflexivity].
  exists s. unfold field_values. apply in_map_iff.
  exists d; split; auto. now rewrite Hd.
Qed.

Lemma generate_id_from_field_string_raises_witness :
  generate_id_from_field
    [ [("order_id", VInt 89)]; [("order_id", VStr "90")];
      [("order_id", VInt 91)] ] "order_id"
  = Raise TypeError.
Proof.
  apply generate_id_from_field_string_raises.
  - reflexivity.
  - apply Forall_cons; [right; left; eexists; reflexivity|].
    apply Forall_cons; [right; right; eexists; reflexivity|].
    apply Forall_cons; [right; left; eexists; reflexivity|].
    apply Forall_nil.
  - exists [("order_id", VStr "90")], "90"; simpl; auto.
Defined.

(** ** create_order, further *)

Lemma new_order_without_id (customer_id : Z) :
  orders_validator (new_order VNone customer_id) = false.
Proof. reflexivity. Qed.

Lemma order_item_without_id (order_id product_id quantity price : value) :
  order_items_validator
    [ ("order_item_id", VNone); ("order_id", order_id);
      ("product_id", product_id); ("quantity", quantity); ("price", price) ]
  = false.
Proof. reflexivity. Qed.

(** A call whose inserts cannot all go through ends aborted. *)
Lemma create_order_aborted_unless
    (customer_id : Z) (product_orders : list dict) (w : world) :
  (forall order_id new_items,
     generate_id_from_field (orders (db w)) "order_id" = Ok order_id ->
     Forall2 (order_item_for order_id (order_items (db w)))
             product_orders new_items ->
     orders_validator (new_order order_id customer_id) = true ->
     Forall (fun item => order_items_validator item = true) new_items ->
     False) ->
  fst (create_order customer_id product_orders w) = Ok tt /\
  exists e, order_aborted w (snd (create_order customer_id product_orders w)) e.
Proof.
  intros Hno.
  destruct (create_order_run customer_id product_orders w)
    as [(order_id & new_items & _ & Hid & Hall & Hval & Hvals & _)
       | [(e & Hr & H)
         | (order_id & new_items & _ & Hid & Hall & Hval & Hvals & _)]];
    [destruct (Hno _ _ Hid Hall Hval Hvals) | eauto
     | destruct (Hno _ _ Hid Hall Hval Hvals)].
Qed.

(** X11: [create_order] cannot create the first order, nor the first order
    item: on an empty [orders] collection, and on an empty [order_items]
    collection when there is a line item, the generator returns [None],
    the validator refuses the document and nothing is persisted. *)
Theorem create_order_needs_existing_ids
    (customer_id : Z) (product_orders : list dict) (w : world) :
  orders (db w) = [] \/ (order_items (db w) = [] /\ product_orders <> []) ->
  fst (create_order customer_id product_orders w) = Ok tt /\
  exists e, order_aborted w (snd (create_order customer_id product_orders w)) e.
Proof.
  intros Hempty. apply create_order_aborted_unless.
  intros order_id new_items Hid Hall Hval Hvals.
  destruct Hempty as [Ho | [Hi Hne]].
  - rewrite Ho, generate_id_from_field_empty in Hid by reflexivity.
    injection Hid as <-. rewrite new_order_without_id in Hval. discriminate.
  - destruct Hall as [|product item products items Hitem _]; [congruence|].
    destruct Hitem as (id & p & q & pr & Hgen & _ & _ & _ & ->).
    rewrite Hi, generate_id_from_field_empty in Hgen by reflexivity.
    injection Hgen as <-.
    inversion Hvals as [|? ? Hv _]; subst.
    rewrite order_item_without_id in Hv. discriminate.
Qed.

Lemma create_order_needs_existing_ids_witness :
  let w := mkWorld (mkDatabase [] [] [] []) [] TxnNone [] [] in
  fst (create_order 1 [example_line 101 2 1200] w) = Ok tt /\
  exists e,
    order_aborted w (snd (create_order 1 [example_line 101 2 1200] w)) e.
Proof.
  intros w. apply create_order_needs_existing_ids. left; reflexivity.
Defined.

(** X12: one line item the validator cannot accept (a missing
    [product_id], [quantity] or [price], a quantity below 1, a negative
    price, a value that is no 32-bit integer) is enough for the whole order
    to be dropped: no order and no order item is persisted, also for
    the line items before it. *)
Theorem create_order_invalid_line_aborts
    (customer_id : Z) (product_orders : list dict) (w : world) :
  Exists (fun product => valid_line product = false) product_orders ->
  fst (create_order customer_id product_orders w) = Ok tt /\
  exists e, order_aborted w (snd (create_order customer_id product_orders w)) e.
Proof.
  intros Hbad. apply create_order_aborted_unless.
  intros order_id new_items _ Hall _ Hvals.
  induction Hall as [|product item products items Hitem _ IH].
  - inversion Hbad.
  - inversion Hvals as [|? ? Hv Hvs]; subst.
    inversion Hbad as [? ? Hb | ? ? Hb]; subst; [|auto].
    rewrite (order_item_for_valid_line _ _ _ _ Hitem Hv) in Hb.
    discriminate.
Qed.

Lemma create_order_invalid_line_aborts_witness :
  fst (create_order 1 [example_line 101 2 1200; example_line 102 0 800]
                    example_world) = Ok tt /\
  exists e,
    order_aborted example_world
      (snd (create_order 1 [example_line 101 2 1200; example_line 102 0 800]
                         example_world)) e.
Proof.
  apply create_order_invalid_line_aborts.
  apply Exists_cons_tl, Exists_cons_hd. reflexivity.
Defined.

(** X13: when the identifiers can be formed (both collections have a
    numeric identifier field whose next value is a 32-bit integer), the
    customer identifier is a 32-bit integer, every line item is valid and
    no request fails, the commit included, [create_order] creates the
    order: it appends one order with the next [order_id], the fixed date
    2024-12-22 10:00:00 and the status Processing, and, in the order of
    the line items, one order item per line item with its [product_id],
    [quantity] and [price], all of them with the next [order_item_id]. *)
Theorem create_order_persists_lines
    (customer_id : Z) (product_orders : list dict) (w : world)
    (order_id order_item_id : Z) :
  next_id (orders (db w)) "order_id" order_id ->
  (product_orders <> [] ->
   next_id (order_items (db w)) "order_item_id" order_item_id) ->
  - 2147483648 <= customer_id < 2147483648 ->
  Forall (fun product => valid_line product = true) product_orders ->
  ~ In true (firstn (3 + 2 * List.length product_orders) (network w)) ->
  fst (create_order customer_id product_orders w) = Ok tt /\
  db (snd (create_order customer_id product_orders w))
  = mkDatabase (customers (db w)) (products (db w))
      (orders (db w) ++ [new_order (VInt order_id) customer_id])
      (order_items (db w)
       ++ map (line_item order_item_id order_id) product_orders) /\
  transaction (snd (create_order customer_id product_orders w)) = [] /\
  network (snd (create_order customer_id product_orders w))
  = skipn (3 + 2 * List.length product_orders) (network w) /\
  stdout (snd (create_order customer_id product_orders w))
  = (stdout w ++ [Created (VInt order_id)])%list.
Proof. apply create_order_succeeds. Qed.

Lemma example_next_order_id : next_id (orders example_db) "order_id" 5003.
Proof.
  split; [|split; [|lia]].
  - split; [reflexivity|].
    repeat (apply Forall_cons; [right; eexists; reflexivity|]).
    apply Forall_nil.
  - split.
    + exists (example_order 5002 2); simpl; auto.
    + intros d z [<- | [<- | []]] Hd; injection Hd as <-; lia.
Qed.

Lemma example_next_order_item_id :
  next_id (order_items example_db) "order_item_id" 9003.
Proof.
  split; [|split; [|lia]].
  - split; [reflexivity|].
    repeat (apply Forall_cons; [right; eexists; reflexivity|]).
    apply Forall_nil.
  - split.
    + exists (example_item 9002 5002 102 1 800); simpl; auto.
    + intros d z [<- | [<- | []]] Hd; injection Hd as <-; lia.
Qed.

Lemma create_order_persists_lines_witness :
  order_items
    (db (snd (create_order 1 [example_line 101 2 1200; example_line 102 1 800]
                           example_world)))
  = (order_items example_db
     ++ map (line_item 9003 5003)
            [example_line 101 2 1200; example_line 102 1 800])%list.
Proof.
  destruct (create_order_persists_lines 1
              [example_line 101 2 1200; example_line 102 1 800]
              example_world 5003 9003) as (_ & Hdb & _).
  - exact example_next_order_id.
  - intros _. exact example_next_order_item_id.
  - lia.
  - repeat constructor.
  - simpl. tauto.
  - rewrite Hdb. reflexivity.
Defined.

Lemma next_id_app (collection docs : list dict) (field : string) (n : Z) :
  next_id collection field n ->
  docs <> [] ->
  Forall (fun d => dict_get field d = Some (VInt n)) docs ->
  n + 1 < 2147483648 ->
  next_id (collection ++ docs) field (n + 1).
Proof.
  intros ([Hplain Hnum] & [_ Hmax] & Hb) Hne Hdocs Hn.
  rewrite Forall_forall in Hdocs.
  split; [|split; [|lia]].
  - split; [exact Hplain|].
    unfold field_values in *. rewrite map_app. apply Forall_app; split; auto.
    apply Forall_forall. intros v Hv.
    apply in_map_iff in Hv as (d & <- & Hin).
    rewrite (Hdocs d Hin). right; exists n; reflexivity.
  - replace (n + 1 - 1) with n by lia. split.
    + destruct docs as [|d docs]; [congruence|].
      exists d; split; [apply in_or_app; simpl; auto|].
      apply Hdocs; simpl; auto.
    + intros d z Hin Hd. apply in_app_or in Hin as [Hin | Hin].
      * specialize (Hmax d z Hin Hd). lia.
      * rewrite (Hdocs d Hin) in Hd. injection Hd as <-. lia.
Qed.

(** X14: two orders created one after the other get consecutive
    identifiers: the second order has the [order_id] after that of the
    first, and its order items all carry the [order_item_id] after the one
    that the items of the first order share. *)
Theorem create_order_twice
    (customer1 customer2 : Z) (lines1 lines2 : list dict) (w : world)
    (order_id order_item_id : Z) :
  next_id (orders (db w)) "order_id" order_id ->
  next_id (order_items (db w)) "order_item_id" order_item_id ->
  order_id + 1 < 2147483648 ->
  order_item_id + 1 < 2147483648 ->
  - 2147483648 <= customer1 < 2147483648 ->
  - 2147483648 <= customer2 < 2147483648 ->
  lines1 <> [] ->
  Forall (fun product => valid_line product = true) lines1 ->
  Forall (fun product => valid_line product = true) lines2 ->
  ~ In true (firstn ((3 + 2 * List.length lines1)
                     + (3 + 2 * List.length lines2)) (network w)) ->
  let w2 := snd (create_order customer2 lines2
                   (snd (create_order customer1 lines1 w))) in
  orders (db w2)
  = (orders (db w)
     ++ [ new_order (VInt order_id) customer1;
          new_order (VInt (order_id + 1)) customer2 ])%list /\
  order_items (db w2)
  = (order_items (db w)
     ++ map (line_item order_item_id order_id) lines1
     ++ map (line_item (order_item_id + 1) (order_id + 1)) lines2)%list /\
  stdout w2
  = (stdout w ++ [Created (VInt order_id); Created (VInt (order_id + 1))])%list.
Proof.
  intros Ho Hi Hob Hib Hc1 Hc2 Hne Hl1 Hl2 Hnet.
  rewrite firstn_plus, in_app_iff in Hnet.
  destruct (create_order_succeeds customer1 lines1 w order_id order_item_id)
    as (_ & Hdb1 & _ & Hnet1 & Hout1); auto.
  set (w1 := snd (create_order customer1 lines1 w)) in *.
  destruct (create_order_succeeds customer2 lines2 w1 (order_id + 1)
                                  (order_item_id + 1))
    as (_ & Hdb2 & _ & _ & Hout2); auto.
  - rewrite Hdb1; cbn [orders].
    apply next_id_app;
      [exact Ho | discriminate | repeat constructor | exact Hob].
  - intros _. rewrite Hdb1; cbn [order_items].
    apply next_id_app; [exact Hi | | | exact Hib].
    + destruct lines1; [congruence | discriminate].
    + apply Forall_forall. intros d Hd.
      apply in_map_iff in Hd as (product & <- & _). reflexivity.
  - rewrite Hnet1. tauto.
  - cbv zeta. rewrite Hdb2, Hout2, Hdb1, Hout1.
    cbn [orders order_items]. rewrite <- !app_assoc. repeat split.
Qed.

Lemma create_order_twice_witness :
  orders
    (db (snd (create_order 2 [example_line 102 1 800]
                (snd (create_order 1 [example_line 101 2 1200]
                                   example_world)))))
  = (orders example_db
     ++ [new_order (VInt 5003) 1; new_order (VInt 5004) 2])%list.
Proof.
  destruct (create_order_twice 1 2 [example_line 101 2 1200]
              [example_line 102 1 800] example_world 5003 9003) as (H & _).
  - exact example_next_order_id.
  - exact example_next_order_item_id.
  - lia.
  - lia.
  - lia.
  - lia.
  - discriminate.
  - repeat constructor.
  - repeat constructor.
  - simpl. tauto.
  - exact H.
Defined.

(** *** What the outcome does not depend on *)

Lemma same_orders_refl (w : world) : same_orders w w.
Proof. repeat split. Qed.

Lemma blind_ret {A : Type} (a : A) : blind (ret a).
Proof. intros w1 w2 H Hs. split; [reflexivity | split; [exact H | exact Hs]]. Qed.

Lemma blind_lift {A : Type} (r : result A) : blind (lift r).
Proof. intros w1 w2 H Hs. split; [reflexivity | split; [exact H | exact Hs]]. Qed.

Lemma blind_raise {A : Type} (e : exn) : blind (@raise A e).
Proof. intros w1 w2 H Hs. split; [reflexivity | split; [exact H | exact Hs]]. Qed.

Lemma blind_mbind {A B : Type} (m : M A) (k : A -> M B) :
  blind m -> (forall a, blind (k a)) -> blind (mbind m k).
Proof.
  intros Hm Hk w1 w2 H Hs. unfold mbind.
  destruct (Hm w1 w2 H Hs) as (Hr & Hw & Hs').
  destruct (m w1) as [[a1 | e1] w1'], (m w2) as [[a2 | e2] w2'];
    cbn [fst snd] in Hr, Hw, Hs'; try discriminate.
  - injection Hr as <-. now apply Hk.
  - injection Hr as <-. split; [reflexivity | split; [exact Hw | exact Hs']].
Qed.

Lemma blind_request : blind request.
Proof.
  intros w1 w2 (Ho & Hi & Ht & Hn & Hs) Hses. unfold request. rewrite Hn.
  destruct (network w2) as [|[] rest] eqn:E; cbn [fst snd];
    (split; [reflexivity|]); unfold same_orders;
    cbn [db transaction network stdout session]; repeat split; auto;
    congruence.
Qed.

Lemma blind_read {A : Type} (f : database -> result A) :
  (forall db1 db2, orders db1 = orders db2 ->
                   order_items db1 = order_items db2 -> f db1 = f db2) ->
  blind (read_committed f).
Proof.
  intros Hf. unfold read_committed. apply blind_mbind; [apply blind_request|].
  intros _ w1 w2 H Hs. cbn [fst snd]. split; [|split; [exact H | exact Hs]].
  destruct H as (Ho & Hi & _). now apply Hf.
Qed.

Lemma blind_insert_one (c : collection_name) (d : dict) :
  c = Orders \/ c = OrderItems -> blind (insert_one c d).
Proof.
  intros Hc. unfold insert_one.
  destruct (encodable d); [|apply blind_raise].
  apply blind_mbind; [apply blind_request|].
  intros _ w1 w2 (Ho & Hi & Ht & Hn & Hs) Hses.
  assert (Hfind : find_all c (db w1) = find_all c (db w2))
    by (destruct Hc; subst c; assumption).
  rewrite Hfind, Ht.
  destruct (negb (validator c d)); cbn [fst snd];
    [split; [reflexivity | repeat split; auto]|].
  destruct (negb (unique_ok c d _)); cbn [fst snd];
    (split; [reflexivity|]); repeat split; cbn; auto; congruence.
Qed.

Lemma blind_store (writes : list (collection_name * dict)) :
  forall db1 db2,
    orders db1 = orders db2 -> order_items db1 = order_items db2 ->
    orders (fold_left (fun db '(c, d) => store c d db) writes db1)
    = orders (fold_left (fun db '(c, d) => store c d db) writes db2) /\
    order_items (fold_left (fun db '(c, d) => store c d db) writes db1)
    = order_items (fold_left (fun db '(c, d) => store c d db) writes db2).
Proof.
  induction writes as [|[c d] writes IH]; intros db1 db2 Ho Hi;
    cbn [fold_left]; [auto|].
  apply IH; destruct c; cbn [store orders order_items]; congruence.
Qed.

Lemma blind_commit : blind commit_transaction.
Proof.
  assert (Hafter :
            blind (request ;;; fun w' =>
                     (Ok tt,
                      mkWorld (fold_left (fun db '(c, d) => store c d db)
                                         (transaction w') (db w'))
                              [] TxnCommitted (network w') (stdout w')))%db).
  { apply blind_mbind; [apply blind_request|].
    intros _ v1 v2 (Ho & Hi & Ht & Hn & Hs) Hv; cbn [fst snd].
    split; [reflexivity|].
    unfold same_orders; cbn [db transaction network stdout session].
    rewrite Ht.
    destruct (blind_store (transaction v2) (db v1) (db v2) Ho Hi).
    repeat split; auto. }
  intros w1 w2 Hsame Hses. unfold commit_transaction. rewrite Hses.
  destruct (session w2) eqn:E; cbn [fst snd];
    try (split; [reflexivity | split; [exact Hsame | congruence]]);
    (apply Hafter; [|reflexivity]);
    destruct Hsame as (Ho & Hi & Ht & Hn & Hs); repeat split; auto.
Qed.

Lemma blind_abort : blind abort_transaction.
Proof.
  intros w1 w2 Hsame Hses. unfold abort_transaction. rewrite Hses.
  destruct (session w2) eqn:E; cbn [fst snd];
    try (split; [reflexivity | split; [exact Hsame | congruence]]).
  destruct Hsame as (Ho & Hi & Ht & Hn & Hs).
  split; [reflexivity|]. repeat split; cbn; auto.
Qed.

Lemma blind_print (m : message) : blind (print m).
Proof.
  intros w1 w2 (Ho & Hi & Ht & Hn & Hs) Hses. unfold print. cbn [fst snd].
  split; [reflexivity|]. repeat split; cbn; auto; congruence.
Qed.

Lemma blind_insert_order_items (order_id : value) (product_orders : list dict) :
  blind (insert_order_items order_id product_orders).
Proof.
  induction product_orders as [|product rest IH]; cbn [insert_order_items];
    [apply blind_ret|].
  apply blind_mbind; [apply blind_lift | intros product_id].
  apply blind_mbind; [apply blind_lift | intros quantity].
  apply blind_mbind; [|intros order_item_id].
  { apply blind_read. intros db1 db2 _ Hi. now rewrite Hi. }
  apply blind_mbind; [apply blind_lift | intros price].
  apply blind_mbind; [apply blind_insert_one; auto | intros _; exact IH].
Qed.

Lemma blind_create_order_try (customer_id : Z) (product_orders : list dict) :
  blind (create_order_try customer_id product_orders).
Proof.
  unfold create_order_try.
  apply blind_mbind; [|intros order_id].
  { apply blind_read. intros db1 db2 Ho _. now rewrite Ho. }
  apply blind_mbind; [apply blind_lift | intros order_date].
  apply blind_mbind; [apply blind_insert_one; auto | intros _].
  apply blind_mbind; [apply blind_insert_order_items | intros _].
  apply blind_mbind; [apply blind_commit | intros _].
  apply blind_print.
Qed.

Lemma blind_try_except {A : Type} (body : M A) (handler : exn -> M A) :
  blind body -> (forall e, blind (handler e)) ->
  blind (try_except body handler).
Proof.
  intros Hb Hh w1 w2 H Hs. unfold try_except.
  destruct (Hb w1 w2 H Hs) as (Hr & Hw & Hs').
  destruct (body w1) as [[a1 | e1] w1'], (body w2) as [[a2 | e2] w2'];
    cbn [fst snd] in Hr, Hw, Hs'; try discriminate.
  - injection Hr as <-. split; [reflexivity | split; [exact Hw | exact Hs']].
  - injection Hr as <-. now apply Hh.
Qed.

(** X15: [create_order] never looks at [customers] or [products]: called
    with the same arguments in two databases that agree on [orders] and
    [order_items], it has the same outcome for orders, order items and
    output.  Whether the customer and the products of the order exist
    makes no difference. *)
Theorem create_order_ignores_customers_and_products
    (customer_id : Z) (product_orders : list dict) (w1 w2 : world) :
  same_orders w1 w2 ->
  fst (create_order customer_id product_orders w1)
  = fst (create_order customer_id product_orders w2) /\
  same_orders (snd (create_order customer_id product_orders w1))
              (snd (create_order customer_id product_orders w2)).
Proof.
  intros (Ho & Hi & Ht & Hn & Hs). unfold create_order.
  destruct (blind_try_except
              (create_order_try customer_id product_orders)
              (fun e => abort_transaction ;;; print (Oops e))%db
              (blind_create_order_try customer_id product_orders)
              (fun e => blind_mbind _ _ blind_abort
                                    (fun _ => blind_print (Oops e)))
              (start_transaction w1) (start_transaction w2))
    as (Hr & (Ho' & Hi' & Ht' & Hn' & Hs') & _);
    [repeat split; assumption | reflexivity |].
  destruct (try_except _ _ (start_transaction w1)) as [r1 w1'],
           (try_except _ _ (start_transaction w2)) as [r2 w2'].
  cbn [fst snd] in *. split; [exact Hr|].
  unfold end_session, same_orders; cbn [db transaction network stdout].
  repeat split; auto.
Qed.

Lemma create_order_ignores_customers_and_products_witness :
  let w := mkWorld (mkDatabase [] [] (orders example_db)
                               (order_items example_db))
                   [] TxnNone [] [] in
  fst (create_order 77 [example_line 999 2 1200] example_world)
  = fst (create_order 77 [example_line 999 2 1200] w) /\
  same_orders
    (snd (create_order 77 [example_line 999 2 1200] example_world))
    (snd (create_order 77 [example_line 999 2 1200] w)).
Proof.
  intros w. apply create_order_ignores_customers_and_products. repeat split.
Defined.

(** ** The stages of the pipelines *)

Section StageFacts.
Context {K R : Type}.
Variable eqb : K -> K -> bool.
Hypothesis eqb_spec : forall x y, reflect (x = y) (eqb x y).
Variable key : R -> K.

Lemma eqb_same (k : K) : eqb k k = true.
Proof. destruct (eqb_spec k k); congruence. Qed.

Lemma group_insert_rows (r : R) (groups : list (K * list R)) (k : K) :
  group_rows eqb k (group_insert eqb key r groups)
  = (group_rows eqb k groups ++ (if eqb (key r) k then [r] else []))%list.
Proof.
  induction groups as [|[k' rows] groups IH]; cbn [group_insert group_rows].
  - destruct (eqb_spec k (key r)), (eqb_spec (key r) k); cbn [app];
      congruence.
  - destruct (eqb_spec (key r) k'); cbn [group_rows].
    + subst k'. destruct (eqb_spec k (key r)), (eqb_spec (key r) k);
        try congruence. now rewrite app_nil_r.
    + destruct (eqb_spec k k'); [|exact IH].
      subst k'. destruct (eqb_spec (key r) k); [congruence|].
      now rewrite app_nil_r.
Qed.

Lemma group_insert_keys (r : R) (groups : list (K * list R)) (k : K) :
  In k (map fst (group_insert eqb key r groups)) <->
  k = key r \/ In k (map fst groups).
Proof.
  induction groups as [|[k' rows] groups IH]; cbn [group_insert map fst In].
  - intuition.
  - destruct (eqb_spec (key r) k'); cbn [map fst In].
    + subst. intuition.
    + rewrite IH. intuition.
Qed.

Lemma group_insert_nodup (r : R) (groups : list (K * list R)) :
  NoDup (map fst groups) -> NoDup (map fst (group_insert eqb key r groups)).
Proof.
  induction groups as [|[k' rows] groups IH]; cbn [group_insert map fst];
    intros Hnd.
  - repeat constructor. intros [].
  - inversion Hnd as [|? ? Hnotin Hnd']; subst.
    destruct (eqb_spec (key r) k'); cbn [map fst].
    + now constructor.
    + constructor; auto.
      rewrite group_insert_keys. intros [-> | Hin]; auto.
Qed.

Lemma group_fold_facts (rows : list R) (groups : list (K * list R)) :
  NoDup (map fst groups) ->
  let groups' :=
    fold_left (fun groups r => group_insert eqb key r groups) rows groups in
  NoDup (map fst groups') /\
  (forall k, In k (map fst groups') <->
             In k (map fst groups) \/ exists r, In r rows /\ key r = k) /\
  (forall k, group_rows eqb k groups'
             = (group_rows eqb k groups
                ++ filter (fun r => eqb (key r) k) rows)%list).
Proof.
  revert groups; induction rows as [|r rows IH]; intros groups Hnd;
    cbn [fold_left].
  - repeat split; auto.
    + intros [H | (? & [] & _)]; exact H.
    + intros k. cbn [filter]. now rewrite app_nil_r.
  - destruct (IH (group_insert eqb key r groups))
      as (Hnd' & Hkeys & Hrows); [now apply group_insert_nodup|].
    repeat split; auto.
    + rewrite Hkeys, group_insert_keys.
      intros [[-> | H] | (r' & Hin & Hk)]; auto.
      * right; exists r; simpl; auto.
      * right; exists r'; simpl; auto.
    + rewrite Hkeys, group_insert_keys.
      intros [H | (r' & [<- | Hin] & Hk)]; auto.
      right; exists r'; auto.
    + intros k. rewrite Hrows, group_insert_rows, <- app_assoc.
      cbn [filter]. destruct (eqb (key r) k); reflexivity.
Qed.

Lemma group_rows_in (groups : list (K * list R)) (k : K) (rows : list R) :
  NoDup (map fst groups) -> In (k, rows) groups ->
  group_rows eqb k groups = rows.
Proof.
  induction groups as [|[k' rows'] groups IH]; cbn [map fst group_rows];
    intros Hnd Hin; [contradiction|].
  inversion Hnd as [|? ? Hnotin Hnd']; subst.
  destruct Hin as [Heq | Hin].
  - injection Heq as -> ->. now rewrite eqb_same.
  - destruct (eqb_spec k k'); [|auto].
    subst. exfalso; apply Hnotin.
    change k' with (fst (k', rows)). now apply in_map.
Qed.

(** [$group]: one group per key that occurs, and the documents of a
    group are the documents with its key, in their order. *)
Lemma group_by_facts (rows : list R) :
  NoDup (map fst (group_by eqb key rows)) /\
  (forall k, In k (map fst (group_by eqb key rows)) <->
             exists r, In r rows /\ key r = k) /\
  (forall k docs, In (k, docs) (group_by eqb key rows) ->
                  docs = filter (fun r => eqb (key r) k) rows).
Proof.
  unfold group_by.
  destruct (group_fold_facts rows []) as (Hnd & Hkeys & Hrows);
    [constructor|].
  repeat split; auto.
  - intros H. apply Hkeys in H as [[] | H]. exact H.
  - intros H. apply Hkeys. now right.
  - intros k docs Hin.
    rewrite <- (group_rows_in _ k docs Hnd Hin). apply Hrows.
Qed.
End StageFacts.

Lemma insert_desc_perm {A : Type} (field : A -> Z) (a : A) (l : list A) :
  Permutation (a :: l) (insert_desc field a l).
Proof.
  induction l as [|b l IH]; cbn [insert_desc]; [reflexivity|].
  destruct (field b <? field a); [reflexivity|].
  rewrite perm_swap. now apply perm_skip.
Qed.

Lemma sort_desc_perm {A : Type} (field : A -> Z) (l : list A) :
  Permutation l (sort_desc field l).
Proof.
  induction l as [|a l IH]; cbn [sort_desc fold_right]; [reflexivity|].
  rewrite <- insert_desc_perm. now apply perm_skip.
Qed.

Lemma insert_desc_sorted {A : Type} (field : A -> Z) (a : A) (l : list A) :
  Sorted (field_ge field) l -> Sorted (field_ge field) (insert_desc field a l).
Proof.
  induction 1 as [|b l Hl IH Hhd]; cbn [insert_desc].
  - repeat constructor.
  - destruct (field b <? field a) eqn:E.
    + apply Z.ltb_lt in E. repeat constructor; auto.
      unfold field_ge; lia.
    + apply Z.ltb_ge in E. constructor; auto.
      destruct Hhd as [|c l' Hge]; cbn [insert_desc].
      * constructor. exact E.
      * destruct (field c <? field a); constructor; auto.
Qed.

Lemma sort_desc_sorted {A : Type} (field : A -> Z) (l : list A) :
  Sorted (field_ge field) (sort_desc field l).
Proof.
  induction l as [|a l IH]; cbn [sort_desc fold_right]; [constructor|].
  now apply insert_desc_sorted.
Qed.

Lemma sum_Z_perm (l1 l2 : list Z) : Permutation l1 l2 -> sum_Z l1 = sum_Z l2.
Proof.
  unfold sum_Z. induction 1; cbn [fold_right]; lia.
Qed.

Lemma sum_ones {A : Type} (l : list A) :
  sum_Z (map (fun _ => 1) l) = Z.of_nat (List.length l).
Proof.
  unfold sum_Z. induction l as [|a l IH]; [reflexivity|].
  cbn [map fold_right List.length]. lia.
Qed.

Lemma group_insert_size {K R : Type} (eqb : K -> K -> bool) (key : R -> K)
    (r : R) (groups : list (K * list R)) :
  sum_Z (map (fun g => Z.of_nat (List.length (snd g)))
             (group_insert eqb key r groups))
  = sum_Z (map (fun g => Z.of_nat (List.length (snd g))) groups) + 1.
Proof.
  unfold sum_Z.
  induction groups as [|[k rows] groups IH];
    cbn [group_insert map fold_right snd List.length]; [lia|].
  destruct (eqb (key r) k); cbn [map fold_right snd].
  - rewrite length_app. cbn [List.length]. lia.
  - rewrite IH. lia.
Qed.

Lemma group_by_size {K R : Type} (eqb : K -> K -> bool) (key : R -> K)
    (rows : list R) :
  sum_Z (map (fun g => Z.of_nat (List.length (snd g))) (group_by eqb key rows))
  = Z.of_nat (List.length rows).
Proof.
  unfold group_by.
  assert (H : forall groups,
             sum_Z (map (fun g => Z.of_nat (List.length (snd g)))
                        (fold_left (fun groups r => group_insert eqb key r groups)
                                   rows groups))
             = sum_Z (map (fun g => Z.of_nat (List.length (snd g))) groups)
               + Z.of_nat (List.length rows)).
  { induction rows as [|r rows IH]; intros groups; cbn [fold_left List.length];
      [lia|].
    rewrite IH, group_insert_size. lia. }
  rewrite H. reflexivity.
Qed.

(** ** The number of customers by state *)

(** X16: the rows of the pipeline are in descending order of
    [customer_count]; there is exactly one row per state in which a
    customer lives; the count of a row is the number of customers of that
    state and is at least 1; and the counts add up to the number of
    customers. *)
Theorem customers_by_state_counts (customers : list Customer.t) :
  Sorted (field_ge customer_count) (customers_by_state customers) /\
  NoDup (map state (customers_by_state customers)) /\
  (forall s, In s (map state (customers_by_state customers)) <->
             exists c, In c customers /\
                       Customer.state (Customer.address c) = s) /\
  (forall row, In row (customers_by_state customers) ->
     customer_count row
     = Z.of_nat (List.length
                   (filter (fun c => String.eqb
                                       (Customer.state (Customer.address c))
                                       (state row))
                           customers)) /\
     1 <= customer_count row) /\
  sum_Z (map customer_count (customers_by_state customers))
  = Z.of_nat (List.length customers).
Proof.
  unfold customers_by_state.
  set (key := fun c => Customer.state (Customer.address c)).
  destruct (group_by_facts String.eqb String.eqb_spec key customers)
    as (Hnd & Hkeys & Hdocs).
  pose proof (group_by_size String.eqb key customers) as Hsize.
  set (groups := group_by String.eqb key customers) in *.
  set (project := fun '(k, docs) =>
                    mkStateRow k (sum_Z (map (fun _ : Customer.t => 1) docs))).
  assert (Hperm : Permutation (map project groups)
                    (sort_desc customer_count (map project groups)))
    by apply sort_desc_perm.
  assert (Hstates : map state (map project groups) = map fst groups).
  { rewrite map_map. apply map_ext. now intros [k docs]. }
  split; [apply sort_desc_sorted|].
  split; [|split; [|split]].
  - eapply Permutation_NoDup; [apply Permutation_map; exact Hperm|].
    now rewrite Hstates.
  - intros s. split; intros H.
    + apply (Hkeys s). rewrite <- Hstates.
      eapply Permutation_in; [apply Permutation_sym, Permutation_map|];
        eauto.
    + apply (Hkeys s) in H. rewrite <- Hstates in H.
      eapply Permutation_in; [apply Permutation_map|]; eauto.
  - intros row Hin.
    eapply Permutation_in in Hin; [|apply Permutation_sym; exact Hperm].
    apply in_map_iff in Hin as ([k docs] & <- & Hin).
    cbn [project customer_count state].
    rewrite sum_ones, (Hdocs k docs Hin). split; [reflexivity|].
    assert (Hk : In k (map fst groups))
      by (change k with (fst (k, docs)); now apply in_map).
    apply Hkeys in Hk as (c & Hc & Hkc).
    assert (Hf : In c (filter (fun r => String.eqb (key r) k) customers))
      by (apply filter_In; split; auto; now apply String.eqb_eq).
    destruct (filter _ customers); [contradiction|].
    cbn [List.length]. lia.
  - rewrite <- (sum_Z_perm _ _ (Permutation_map customer_count Hperm)).
    rewrite <- Hsize, map_map. f_equal. apply map_ext.
    intros [k docs]. cbn [project customer_count snd]. apply sum_ones.
Qed.

Example customers_by_state_example :
  customers_by_state
    [ Customer.mk 1 "Alice" "alice@example.com"
                  (Customer.mkAddress "123 Maple Street" "Springfield" "IL");
      Customer.mk 2 "Bob" "bob@example.com"
                  (Customer.mkAddress "1 Main Street" "Austin" "TX");
      Customer.mk 3 "Carol" "carol@example.com"
                  (Customer.mkAddress "2 Main Street" "Dallas" "TX") ]
  = [ mkStateRow "TX" 2; mkStateRow "IL" 1 ].
Proof. reflexivity. Qed.

(** ** The revenue by product *)









Example revenue_by_product_example :
  revenue_by_product
    [ mkOrderItem 1 5001 101 2 1200; mkOrderItem 2 5001 102 1 800;
      mkOrderItem 3 5002 101 1 1100; mkOrderItem 4 7777 101 9 1 ]
    [ Order.mk 5001 1 (mkDatetime 2024 1 15 10 0 0) "Delivered";
      Order.mk 5002 2 (mkDatetime 2024 1 16 10 0 0) "Shipped" ]
  = [ mkProductRevenueRow 101 3500; mkProductRevenueRow 102 800 ].
Proof. reflexivity. Qed.

(** ** The three most expensive products of each order *)

Lemma filter_perm {A : Type} (f : A -> bool) (l l' : list A) :
  Permutation l l' -> Permutation (filter f l) (filter f l').
Proof.
  induction 1 as [|x l l' _ IH|x y l|l l' l'' _ IH1 _ IH2]; cbn [filter].
  - reflexivity.
  - destruct (f x); [now apply perm_skip | exact IH].
  - destruct (f x), (f y); try reflexivity. apply perm_swap.
  - now rewrite IH1.
Qed.

Lemma field_ge_trans {A : Type} (field : A -> Z) :
  Relations_1.Transitive (field_ge field).
Proof. intros a b c. unfold field_ge. lia. Qed.

Lemma strongly_sorted_filter {A : Type} (R : A -> A -> Prop) (f : A -> bool)
    (l : list A) :
  StronglySorted R l -> StronglySorted R (filter f l).
Proof.
  induction 1 as [|a l _ IH Hall]; cbn [filter]; [constructor|].
  destruct (f a); [|exact IH].
  constructor; [exact IH|].
  rewrite Forall_forall in *. intros b Hb.
  apply filter_In in Hb as [Hb _]. auto.
Qed.

Lemma strongly_sorted_map {A B : Type} (R : A -> A -> Prop)
    (S : B -> B -> Prop) (g : A -> B) (l : list A) :
  (forall a b, R a b -> S (g a) (g b)) ->
  StronglySorted R l -> StronglySorted S (map g l).
Proof.
  intros HRS. induction 1 as [|a l _ IH Hall]; cbn [map]; constructor; auto.
  rewrite Forall_forall in *. intros b Hb.
  apply in_map_iff in Hb as (a' & <- & Ha'). auto.
Qed.

Lemma strongly_sorted_firstn {A : Type} (R : A -> A -> Prop) (n : nat)
    (l : list A) :
  StronglySorted R l ->
  StronglySorted R (firstn n l) /\
  forall a b, In a (firstn n l) -> In b (skipn n l) -> R a b.
Proof.
  revert l; induction n as [|n IH]; intros l Hl.
  - split; [constructor | intros a b []].
  - destruct l as [|x l]; [split; [constructor | intros a b []]|].
    inversion Hl as [|? ? Hl' Hall]; subst.
    destruct (IH l Hl') as [Hs Hcut]. cbn [firstn skipn]. split.
    + constructor; auto.
      rewrite Forall_forall in *. intros b Hb.
      apply Hall. rewrite <- (firstn_skipn n l). apply in_or_app; auto.
    + intros a b [<- | Ha] Hb; [|auto].
      rewrite Forall_forall in Hall. apply Hall.
      rewrite <- (firstn_skipn n l). apply in_or_app; auto.
Qed.

(** X18: for every order with an order item whose product exists there is
    exactly one row; its list holds three products, or all of them when
    the order has fewer; the list is in descending order of price; and
    every product of the order that is left out costs at most as much as
    each product in the list.  An entry carries the name and price of the
    product, the quantity of the order item and their product as total. *)
Theorem top_products_are_the_most_expensive
    (products : list product_doc) (items : list order_item_doc) :
  NoDup (map fst (top_products products items)) /\
  (forall o, In o (map fst (top_products products items)) <->
             products_of_order products items o <> []) /\
  (forall o top, In (o, top) (top_products products items) ->
     Sorted (field_ge top_price) top /\
     exists rest,
       Permutation (top ++ rest) (products_of_order products items o) /\
       (List.length top = 3%nat \/ rest = []) /\
       forall a b, In a top -> In b rest -> top_price b <= top_price a).
Proof.
  unfold top_products, products_of_order.
  set (joined := unwind_product_info (lookup_products products items)).
  set (sorted := sort_desc (fun doc => price (snd doc)) joined).
  set (key := fun doc : order_item_doc * product_doc => order_id (fst doc)).
  assert (Hperm : Permutation joined sorted) by apply sort_desc_perm.
  assert (Hsorted : StronglySorted
                      (field_ge (fun doc : order_item_doc * product_doc =>
                                   price (snd doc))) sorted).
  { apply Sorted_StronglySorted; [apply field_ge_trans|].
    apply sort_desc_sorted. }
  destruct (group_by_facts Z.eqb Z.eqb_spec key sorted)
    as (Hnd & Hkeys & Hdocs).
  set (groups := group_by Z.eqb key sorted) in *.
  set (project := fun '(k, docs) =>
                    (k, firstn 3 (map pushed_product docs))
                  : Z * list top_product).
  assert (Hfst : map fst (map project groups) = map fst groups).
  { rewrite map_map. apply map_ext. now intros [k docs]. }
  split; [now rewrite Hfst|]. split.
  - intros o. rewrite Hfst, Hkeys. split.
    + intros (doc & Hin & Hk) Hnil.
      assert (Hf : In doc (filter (fun doc => order_id (fst doc) =? o) joined)).
      { apply filter_In; split.
        - eapply Permutation_in; [apply Permutation_sym|]; eauto.
        - now apply Z.eqb_eq. }
      apply (in_map pushed_product) in Hf. rewrite Hnil in Hf. contradiction.
    + intros Hne.
      destruct (filter (fun doc => order_id (fst doc) =? o) joined)
        as [|doc l] eqn:Hf; [contradiction|].
      assert (Hin : In doc (filter (fun doc => order_id (fst doc) =? o) joined))
        by (rewrite Hf; simpl; auto).
      apply filter_In in Hin as [Hin Hk]. apply Z.eqb_eq in Hk.
      exists doc; split; auto. eapply Permutation_in; eauto.
  - intros o top Hin.
    apply in_map_iff in Hin as ([k docs] & Heq & Hin).
    assert (Hk : k = o /\ firstn 3 (map pushed_product docs) = top)
      by (unfold project in Heq; split; congruence).
    destruct Hk as [-> <-]. clear Heq.
    rewrite (Hdocs o docs Hin).
    set (pushed := map pushed_product (filter (fun r => key r =? o) sorted)).
    assert (Hp : StronglySorted (field_ge top_price) pushed).
    { apply (strongly_sorted_map
               (field_ge (fun doc : order_item_doc * product_doc =>
                            price (snd doc)))).
      - intros [i1 p1] [i2 p2] H. exact H.
      - now apply strongly_sorted_filter. }
    destruct (strongly_sorted_firstn _ 3 pushed Hp) as [Htop Hcut].
    split; [now apply StronglySorted_Sorted|].
    exists (skipn 3 pushed). split; [|split].
    + rewrite firstn_skipn. unfold pushed.
      apply Permutation_map, filter_perm, Permutation_sym, Hperm.
    + destruct (Nat.le_gt_cases (List.length pushed) 3) as [Hle | Hgt].
      * right. now apply skipn_all2.
      * left. rewrite length_firstn. lia.
    + intros a b Ha Hb. exact (Hcut a b Ha Hb).
Qed.

Example top_products_example :
  top_products
    [ mkProduct 101 "Laptop" "Electronics" 1200;
      mkProduct 102 "Mouse" "Accessories" 20;
      mkProduct 103 "Phone" "Electronics" 800;
      mkProduct 104 "Cable" "Accessories" 5 ]
    [ mkOrderItem 1 5001 102 3 20; mkOrderItem 2 5001 101 1 1200;
      mkOrderItem 3 5002 103 1 800; mkOrderItem 4 5001 104 2 5;
      mkOrderItem 5 5001 103 1 800 ]
  = [ (5001, [ mkTopProduct "Laptop" 1200 1 1200;
               mkTopProduct "Phone" 800 1 800;
               mkTopProduct "Mouse" 20 3 60 ]);
      (5002, [ mkTopProduct "Phone" 800 1 800 ]) ].
Proof. reflexivity. Qed.

(** ** The price check *)

Lemma check_prices_from (found : list dict) (st : price_check) :
  let numeric doc :=
    isinstance_float_int (value_or_none (dict_get "price" doc)) in
  fold_left check_price found st =
  mkPriceCheck
    (valid_documents st ++ filter numeric found)
    (invalid_documents st ++ filter (fun doc => negb (numeric doc)) found)
    (price_lines st ++
     map (fun doc => if numeric doc then ValidDocument doc
                     else InvalidDocument doc) found).
Proof.
  intros numeric. revert st.
  induction found as [|doc found IH]; intros st; cbn [fold_left filter map].
  - rewrite !app_nil_r. now destruct st.
  - rewrite IH. unfold check_price. fold (numeric doc).
    destruct (numeric doc); cbn [negb valid_documents invalid_documents
                                 price_lines];
      now rewrite <- ?app_assoc.
Qed.

Lemma validated_price (doc : dict) :
  products_validator doc = true ->
  isinstance_float_int (value_or_none (dict_get "price" doc)) = true.
Proof.
  unfold products_validator, required, property. cbn [forallb].
  unfold dict_mem.
  destruct (dict_get "price" doc) as [v|].
  - rewrite !andb_true_iff. intros (_ & Hprice).
    destruct v; try discriminate; reflexivity.
  - rewrite !andb_true_iff. intros ((((((_ & _ & _ & H & _) & _) & _) & _) & _) & _).
    discriminate.
Qed.

(** X20: on documents that all pass the validator of [products], the price
    check finds every document valid: [valid_documents] is the list found,
    [invalid_documents] is empty, and every line printed is a
    "Valid document" line. *)
Theorem check_prices_of_validated (found : list dict) :
  Forall (fun doc => products_validator doc = true) found ->
  check_prices found =
  mkPriceCheck found [] (map ValidDocument found).
Proof.
  intros Hall. unfold check_prices. rewrite check_prices_from.
  cbn [valid_documents invalid_documents price_lines app].
  induction Hall as [|doc found Hdoc _ IH]; [reflexivity|].
  cbn [filter map]. rewrite (validated_price doc Hdoc). cbn [negb].
  injection IH as Hv Hi Hl. now rewrite Hv, Hi, Hl.
Qed.

Lemma check_prices_of_validated_witness :
  let found := [ [("_id", VObjectId [1%N]); ("product_id", VInt 101);
                  ("product_name", VStr "Laptop");
                  ("category", VStr "Electronics"); ("price", VInt 1200)];
                 [("product_id", VInt 102); ("product_name", VStr "Mouse");
                  ("category", VStr "Accessories"); ("price", VInt 0)] ] in
  Forall (fun doc => products_validator doc = true) found /\
  check_prices found = mkPriceCheck found [] (map ValidDocument found).
Proof.
  intros found.
  assert (H : Forall (fun doc => products_validator doc = true) found)
    by (repeat constructor).
  split; [exact H | exact (check_prices_of_validated found H)].
Defined.

Example check_prices_example :
  price_summary
    (check_prices [ [("product_id", VInt 1); ("price", VInt 5)];
                    [("product_id", VInt 2); ("price", VStr "5")];
                    [("product_id", VInt 3)];
                    [("product_id", VInt 4); ("price", VBool true)];
                    [("product_id", VInt 5); ("price", VInt (-5))] ])
  = (3%nat, 2%nat).
Proof. reflexivity. Qed.
